(** * Adherix back end: the adherence-detection engine

    A shallow embedding of the dose recorder ([logDose], [refillMedication]
    in controllers/medController.js), the audit helper ([recordEvent] in
    utils/eventLogger.js), the missed-dose sweeper ([runAutomatedReaper] in
    utils/reaper.js) and two read-side queries of
    services/analyticsService.js ([calculateReliabilityIndex],
    [getInventoryRunway]), with the properties of the engine stated and
    proved over it.  Around the engine it also embeds the soft delete, the
    low-stock query and the reminder delay of the medication controller
    ([addMedication], [deleteMedication], [getLowStockMeds],
    [calculateDelayInMs]), the two
    aggregations over missed entries ([getBehavioralPatterns],
    [getTemporalRiskAnalysis]) and the guardian handshake
    ([respondToInvite], [getPatientMeds]).

    Conventions of the embedding.
    - An instant is the number of milliseconds since the epoch, in [Z].
    - A Luxon zone is represented by its offset from UTC in minutes, taken
      constant: what is proved about days and slot instants is proved for
      users and servers in a zone without daylight saving time.
    - A slot string is cut at its colons and its parts converted with
      [Number] or [parseInt]; the model converts blanks and decimal digits,
      and [Js.numberExact] and [Js.parseIntExact] say on which strings that
      is what JavaScript does.
    - [DateTime.now()] reads the clock of the environment; the clock does
      not advance inside one handler invocation, so the [createdAt] stamp
      Mongoose gives a document equals the [now] the handler computed.
    - MongoDB collections are lists in insertion order; ObjectIds are [nat].
    - A store operation may reject; which ones do is given by the fault plan
      of the environment. *)

From Stdlib Require Import ZArith List Bool String Ascii Lia Permutation Sorted.
Import ListNotations.
Open Scope string_scope.
Open Scope list_scope.
Open Scope Z_scope.

(* ------------------------------------------------------------------ *)
(** ** JavaScript values the engine computes with *)

Module Js.

(** Numbers: the engine only meets integers and NaN. *)
Inductive number :=
| Int (z : Z)
| NaN.

(** A property read: [undefined] when the object has no such property. *)
Inductive value :=
| Undefined
| Num (n : number).

Definition digit (c : ascii) : option Z :=
  let n := Z.of_nat (nat_of_ascii c) in
  if (48 <=? n) && (n <=? 57) then Some (n - 48) else None.

(** [s.split(sep)] for a one-character separator. *)
Fixpoint split (sep : ascii) (s : string) : list string :=
  match s with
  | EmptyString => [EmptyString]
  | String c rest =>
      if Ascii.eqb c sep then EmptyString :: split sep rest
      else match split sep rest with
           | [] => [String c EmptyString]
           | h :: t => String c h :: t
           end
  end.

(** Value of a run of decimal digits read left to right; [None] as soon as
    another character shows up. *)
Fixpoint digits (acc : Z) (s : string) : option Z :=
  match s with
  | EmptyString => Some acc
  | String c rest =>
      match digit c with
      | Some d => digits (10 * acc + d) rest
      | None => None
      end
  end.

(** White space and line terminators of the ASCII range, which [Number]
    strips at both ends and [parseInt] at the start. *)
Definition blank (c : ascii) : bool :=
  let n := nat_of_ascii c in
  Nat.eqb n 9 || Nat.eqb n 10 || Nat.eqb n 11 || Nat.eqb n 12 || Nat.eqb n 13 || Nat.eqb n 32.

Fixpoint trimStart (s : string) : string :=
  match s with
  | EmptyString => EmptyString
  | String c rest => if blank c then trimStart rest else s
  end.

Fixpoint trimEnd (s : string) : string :=
  match s with
  | EmptyString => EmptyString
  | String c rest =>
      match trimEnd rest with
      | EmptyString => if blank c then EmptyString else String c EmptyString
      | kept => String c kept
      end
  end.

Definition trim (s : string) : string := trimEnd (trimStart s).

(** [Number(x)] on what [split] hands over: [undefined] is NaN; a string is
    stripped of blanks, and then the empty string is 0 and a run of decimal
    digits is its value.  Every other string is taken as NaN, which is what
    JavaScript gives unless the string is a numeral of another form (a sign,
    a fraction, an exponent, a radix prefix, Infinity) or holds white space
    outside the ASCII range; [numberExact] says where the model is exact. *)
Definition Number (x : option string) : number :=
  match x with
  | None => NaN
  | Some s => match digits 0 (trim s) with Some z => Int z | None => NaN end
  end.

(** Longest prefix of decimal digits, with the number of digits read. *)
Fixpoint leadingDigits (acc : Z) (seen : bool) (s : string) : option Z :=
  match s with
  | EmptyString => if seen then Some acc else None
  | String c rest =>
      match digit c with
      | Some d => leadingDigits (10 * acc + d) true rest
      | None => if seen then Some acc else None
      end
  end.

(** [parseInt(x)]: leading blanks are skipped, then the leading decimal
    digits are read, NaN when there are none.  JavaScript also reads a sign
    and the prefix [0x]; [parseIntExact] says where the model is exact. *)
Definition parseInt (x : option string) : number :=
  match x with
  | None => NaN
  | Some s => match leadingDigits 0 false (trimStart s) with Some z => Int z | None => NaN end
  end.

(** *** Where the two conversions are exact *)

Fixpoint any (p : ascii -> bool) (s : string) : bool :=
  match s with
  | EmptyString => false
  | String c rest => p c || any p rest
  end.

Definition isDigit (c : ascii) : bool :=
  match digit c with Some _ => true | None => false end.

Definition among (chars : string) (c : ascii) : bool := any (Ascii.eqb c) chars.

(** The characters a string can hold and still convert to a number: blanks,
    digits, sign, point, the letters of exponents, radix prefixes,
    hexadecimal digits and Infinity; a character outside the ASCII range
    counts too, since it may be part of a white space. *)
Definition numericChar (c : ascii) : bool :=
  blank c || isDigit c || among "+-.abcdefABCDEFxXoOInity" c
  || Nat.leb 128 (nat_of_ascii c).

(** The number of digits a run may have here: with four digits an hour or a
    minute moves an instant by little more than a year, far inside the range
    of a JavaScript date. *)
Definition maxDigits : nat := 4.

(** [Number] is exact on [undefined], on a string that, stripped of blanks,
    is a run of at most four decimal digits (the empty run included), and on
    a string with a character no numeral holds, which is NaN. *)
Definition numberExact (x : option string) : bool :=
  match x with
  | None => true
  | Some s =>
      (match digits 0 (trim s) with Some _ => true | None => false end
       && Nat.leb (String.length (trim s)) maxDigits)
      || any (fun c => negb (numericChar c)) s
  end.

(** Number of leading decimal digits. *)
Fixpoint digitRun (s : string) : nat :=
  match s with
  | EmptyString => 0
  | String c rest => if isDigit c then S (digitRun rest) else 0
  end.

(** [parseInt] is exact on [undefined], on the empty string, on a string
    that, after its leading blanks, starts with a run of at most four decimal
    digits that is not the prefix [0x], and on a string that starts with an
    ASCII character other than a blank, a digit or a sign, which is NaN. *)
Definition parseIntExact (x : option string) : bool :=
  match x with
  | None => true
  | Some s =>
      match trimStart s with
      | EmptyString => true
      | String c rest =>
          if isDigit c then
            Nat.leb (digitRun (String c rest)) maxDigits
            && negb (Ascii.eqb c "0"
                     && match rest with
                        | String x _ => among "xX" x
                        | EmptyString => false
                        end)
          else Nat.ltb (nat_of_ascii c) 128 && negb (among "+-" c)
      end
  end.

(** [const [hour, minute] = s.split(':')]. *)
Definition hourMinute (s : string) : option string * option string :=
  let parts := split ":"%char s in
  (nth_error parts 0, nth_error parts 1).

(** A slot string whose hour and minute [Number] converts exactly. *)
Definition slotNumberExact (s : string) : bool :=
  let '(hour, minute) := hourMinute s in numberExact hour && numberExact minute.

(** A slot string whose hour and minute [parseInt] converts exactly. *)
Definition slotParseExact (s : string) : bool :=
  let '(hour, minute) := hourMinute s in parseIntExact hour && parseIntExact minute.

(** [Math.floor(a / b)] for a divisor [b] that is a positive integer, which
    is how the runway query calls it (it guards the division by 0, whose
    JavaScript value is an infinity or NaN); a dividend that is [undefined]
    or NaN gives NaN. *)
Definition floorDiv (a : value) (b : Z) : number :=
  match a with
  | Num (Int z) => if b =? 0 then NaN else Int (z / b)
  | _ => NaN
  end.

(** [x <= k]: false as soon as [x] is NaN. *)
Definition leb (x : number) (k : Z) : bool :=
  match x with
  | Int z => z <=? k
  | NaN => false
  end.

End Js.

(* ------------------------------------------------------------------ *)
(** ** Luxon date-times *)

Module Luxon.

Definition msPerMinute : Z := 60000.
Definition msPerHour : Z := 3600000.
Definition msPerDay : Z := 86400000.

(** A [DateTime]: an instant and the zone it is displayed in.  A zone of
    the model is a constant offset from UTC.  A zone whose offset changes
    (daylight saving time) is outside the model: on the day of a change
    Luxon's [set], [startOf], [endOf] and [plus({days})] follow the wall
    clock, and differ from the functions below by the amount of the
    change. *)
Record DateTime := mkDateTime {
  ts : Z;          (* milliseconds since the epoch *)
  offset : Z       (* minutes east of UTC *)
}.

Definition setZone (t : Z) (zoneOffset : Z) : DateTime := mkDateTime t zoneOffset.

Definition toJSDate (d : DateTime) : Z := ts d.

(** Wall-clock milliseconds of [d] in its zone. *)
Definition localMillis (d : DateTime) : Z := ts d + offset d * msPerMinute.

(** [d.startOf('day')]. *)
Definition startOfDay (d : DateTime) : DateTime :=
  mkDateTime (msPerDay * (localMillis d / msPerDay) - offset d * msPerMinute) (offset d).

(** [d.endOf('day')]: the last millisecond of the local day. *)
Definition endOfDay (d : DateTime) : DateTime :=
  mkDateTime (ts (startOfDay d) + msPerDay - 1) (offset d).

(** [d.set({hour, minute, second: 0, millisecond: 0})].  [set] does not
    range-check its units: an hour of 25 overflows into the next day. *)
Definition setTime (d : DateTime) (hour minute : Z) : DateTime :=
  mkDateTime (ts (startOfDay d) + hour * msPerHour + minute * msPerMinute) (offset d).

(** [d.set({hour, minute, second: 0})]: the millisecond of [d] is kept. *)
Definition setTimeKeepMillis (d : DateTime) (hour minute : Z) : DateTime :=
  mkDateTime (ts (setTime d hour minute) + localMillis d mod 1000) (offset d).

(** [set] rejects a unit that is NaN with an InvalidArgumentError. *)
Definition checkedUnits (hour minute : Js.number) : option (Z * Z) :=
  match hour, minute with
  | Js.Int h, Js.Int m => Some (h, m)
  | _, _ => None
  end.

Definition plusHours (d : DateTime) (h : Z) : DateTime :=
  mkDateTime (ts d + h * msPerHour) (offset d).

Definition minusMinutes (d : DateTime) (m : Z) : DateTime :=
  mkDateTime (ts d - m * msPerMinute) (offset d).

(** [d.minus({days: n})] and [d.plus({days: n})]: at a constant offset a
    day is 24 hours. *)
Definition minusDays (d : DateTime) (n : Z) : DateTime :=
  mkDateTime (ts d - n * msPerDay) (offset d).

Definition plusDays (d : DateTime) (n : Z) : DateTime :=
  mkDateTime (ts d + n * msPerDay) (offset d).

(** Same local calendar day, for two instants seen in one zone. *)
Definition sameLocalDay (zoneOffset : Z) (t1 t2 : Z) : Prop :=
  ts (startOfDay (setZone t1 zoneOffset)) = ts (startOfDay (setZone t2 zoneOffset)).

End Luxon.

(* ------------------------------------------------------------------ *)
(** ** The collections (models/*.js) *)

Module Db.

Inductive MedType := scheduled | prn.
Inductive Status := taken | missed | skipped.
Inductive AdherenceStatus := on_time | late | adherence_missed.
Inductive EventType :=
| DOSE_TAKEN | DOSE_MISSED | DOSE_LATE | INVENTORY_LOW
| GUARDIAN_ALERT_SENT | MED_DELETED.
Inductive ConnectionStatus := active | pending | rejected.

(** userModel.js.  [u_timezone] is [None] when the field is empty, which
    the handlers read as 'UTC'; otherwise it is the offset of the user's
    zone in minutes, for a zone that keeps one offset. *)
Record User := mkUser {
  u_id : nat;
  u_name : string;
  u_email : string;
  u_timezone : option Z
}.

(** medModel.js. *)
Record Medication := mkMedication {
  m_id : nat;
  m_user : nat;
  m_name : string;
  m_medType : MedType;
  m_timings : list string;
  m_totalQuantity : Z;
  m_remainingQuantity : Z;
  m_isActive : bool;
  m_isDeleted : bool
}.

(** logModel.js, with the [createdAt] stamp of [timestamps: true]. *)
Record Log := mkLog {
  l_user : nat;
  l_medication : nat;
  l_status : Status;
  l_scheduledTime : string;
  l_delayMinutes : Z;
  l_adherenceStatus : AdherenceStatus;
  l_takenAt : Z;
  l_createdAt : Z
}.

Inductive Metadata :=
| MetaDose (scheduledTime : string) (delayMinutes : Z)
| MetaStock (stock : Z)
| MetaSlot (scheduledTime : string)
| MetaNone.

(** eventModel.js. *)
Record Event := mkEvent {
  e_user : nat;
  e_medication : nat;
  e_eventType : EventType;
  e_metadata : Metadata;
  e_timestamp : Z
}.

(** connectionModel.js, as far as the sweeper reads it. *)
Record Connection := mkConnection {
  c_patientId : nat;
  c_guardianId : nat;
  c_status : ConnectionStatus
}.

Record Store := mkStore {
  users : list User;
  meds : list Medication;
  logs : list Log;
  events : list Event;
  connections : list Connection
}.

Definition status_eqb (a b : Status) : bool :=
  match a, b with
  | taken, taken | missed, missed | skipped, skipped => true
  | _, _ => false
  end.

Definition medType_eqb (a b : MedType) : bool :=
  match a, b with
  | scheduled, scheduled | prn, prn => true
  | _, _ => false
  end.

Definition connectionStatus_eqb (a b : ConnectionStatus) : bool :=
  match a, b with
  | active, active | pending, pending | rejected, rejected => true
  | _, _ => false
  end.

(** The store operations a handler issues, as the fault plan names them. *)
Inductive StoreOp :=
| MedicationFind
| MedicationFindOneAndUpdate (id : nat)
| LogFindOne (medication : nat) (scheduledTime : string)
| LogCreate (medication : nat) (scheduledTime : string)
| EventCreate (eventType : EventType)
| ConnectionFind (patient : nat)
| QueueAdd (guardian : nat)
| CommitTransaction.

(** What a handler runs in: the clock, the zone of the server process and
    the store operations that reject during this invocation. *)
Record Env := mkEnv {
  clock : Z;
  systemZone : Z;
  faults : StoreOp -> bool
}.

Definition noFaults : StoreOp -> bool := fun _ => false.

Definition setLogs (s : Store) (l : list Log) : Store :=
  mkStore (users s) (meds s) l (events s) (connections s).

Definition setMeds (s : Store) (l : list Medication) : Store :=
  mkStore (users s) l (logs s) (events s) (connections s).

Definition setEvents (s : Store) (l : list Event) : Store :=
  mkStore (users s) (meds s) (logs s) l (connections s).

(** [populate('user')]: the referenced document, [null] when it is gone. *)
Definition populateUser (s : Store) (ref : nat) : option User :=
  find (fun u => Nat.eqb (u_id u) ref) (users s).

(** [findOneAndUpdate]: the first document the filter accepts is replaced
    by its update; returns the updated document ([new: true]). *)
Fixpoint updateFirst (accepts : Medication -> bool) (update : Medication -> Medication)
    (l : list Medication) : option Medication * list Medication :=
  match l with
  | [] => (None, [])
  | m :: rest =>
      if accepts m then (Some (update m), update m :: rest)
      else let '(r, rest') := updateFirst accepts update rest in (r, m :: rest')
  end.

Definition incRemaining (delta : Z) (m : Medication) : Medication :=
  mkMedication (m_id m) (m_user m) (m_name m) (m_medType m) (m_timings m)
    (m_totalQuantity m) (m_remainingQuantity m + delta) (m_isActive m) (m_isDeleted m).

Definition incBoth (delta : Z) (m : Medication) : Medication :=
  mkMedication (m_id m) (m_user m) (m_name m) (m_medType m) (m_timings m)
    (m_totalQuantity m + delta) (m_remainingQuantity m + delta) (m_isActive m) (m_isDeleted m).

End Db.

(* ------------------------------------------------------------------ *)
(** ** Handlers as state transformers that may throw *)

Module Eff.

Inductive Error := Err (message : string).

Definition message (e : Error) : string := let 'Err m := e in m.

Inductive Result (A : Type) :=
| Returned (a : A)
| Thrown (e : Error).
Arguments Returned {A} a.
Arguments Thrown {A} e.

(** A computation over a state [S]: the state survives a throw (MongoDB
    writes made outside a transaction are not undone by an exception). *)
Definition M (S A : Type) : Type := S -> S * Result A.

Definition ret {S A} (a : A) : M S A := fun s => (s, Returned a).

Definition throw {S A} (e : Error) : M S A := fun s => (s, Thrown e).

Definition bind {S A B} (m : M S A) (k : A -> M S B) : M S B :=
  fun s => match m s with
           | (s', Returned a) => k a s'
           | (s', Thrown e) => (s', Thrown e)
           end.

Definition get {S} : M S S := fun s => (s, Returned s).

Definition modify {S} (f : S -> S) : M S unit := fun s => (f s, Returned tt).

(** [try { m } catch (e) { h(e) }]. *)
Definition tryCatch {S A} (m : M S A) (h : Error -> M S A) : M S A :=
  fun s => match m s with
           | (s', Returned a) => (s', Returned a)
           | (s', Thrown e) => h e s'
           end.

(** [for (const x of l) body(x)]. *)
Fixpoint forOf {S A} (l : list A) (body : A -> M S unit) : M S unit :=
  match l with
  | [] => ret tt
  | x :: rest => bind (body x) (fun _ => forOf rest body)
  end.

(** An awaited store operation: rejects when the fault plan says so. *)
Definition await {S A} (env : Db.Env) (op : Db.StoreOp) (m : M S A) : M S A :=
  if Db.faults env op then throw (Err "store operation failed") else m.

End Eff.

Declare Scope eff_scope.
Delimit Scope eff_scope with eff.
Notation "x <- m ;; k" := (Eff.bind m (fun x => k))
  (at level 61, m at next level, right associativity) : eff_scope.
Notation "m ;;; k" := (Eff.bind m (fun _ => k))
  (at level 61, right associativity) : eff_scope.

(* ------------------------------------------------------------------ *)
(** ** The adherence recorder (controllers/medController.js) *)

Module Recorder.
Import Db Eff.
Local Open Scope eff_scope.

(** [req.body.status]: absent (or empty), one of the three outcomes of the
    log schema, or some other string. *)
Inductive BodyStatus :=
| NoStatus
| Reported (s : Status)
| OtherStatus.

(** The request as [logDose] reads it.  [scheduledTime] is the empty string
    when the body carries none. *)
Record Request := mkRequest {
  req_user : User;
  medId : nat;
  scheduledTime : string;
  status : BodyStatus
}.

Record Response := mkResponse {
  statusCode : Z;
  res_message : option string;
  res_data : option Log
}.

(** A MongoDB session with an open transaction: what is committed and what
    the transaction has written so far. *)
Record Session := mkSession {
  committed : Store;
  tx : Store
}.

Definition startTransaction (db : Store) : Session := mkSession db db.

Definition abortTransaction : M Session unit :=
  modify (fun s => mkSession (committed s) (committed s)).

Definition commitTransaction (env : Env) : M Session unit :=
  await env CommitTransaction (modify (fun s => mkSession (tx s) (tx s))).

(** [req.user.timezone || 'UTC']. *)
Definition timezoneOf (u : User) : Z :=
  match u_timezone u with Some z => z | None => 0 end.

(** [status === 'taken' || !status]. *)
Definition takenOrAbsent (st : BodyStatus) : bool :=
  match st with
  | NoStatus | Reported taken => true
  | _ => false
  end.

Definition isMissed (st : BodyStatus) : bool :=
  match st with Reported missed => true | _ => false end.

Definition nonEmpty (s : string) : bool :=
  match s with EmptyString => false | _ => true end.

(** The double-dose guard's query. *)
Definition isRecentTaken (req : Request) (tenMinutesAgo : Z) (l : Log) : bool :=
  Nat.eqb (l_user l) (u_id (req_user req)) && Nat.eqb (l_medication l) (medId req)
  && String.eqb (l_scheduledTime l) (scheduledTime req)
  && (tenMinutesAgo <=? l_takenAt l) && status_eqb (l_status l) taken.

(** Lines 84-93: lateness of the report against today's slot instant. *)
Definition classify (req : Request) (now : Luxon.DateTime) : M Session (AdherenceStatus * Z) :=
  if nonEmpty (scheduledTime req) && negb (isMissed (status req)) then
    let '(hour, minute) := Js.hourMinute (scheduledTime req) in
    match Luxon.checkedUnits (Js.parseInt hour) (Js.parseInt minute) with
    | None => throw (Err "Invalid unit value NaN")
    | Some (h, m) =>
        let scheduled := Luxon.setTimeKeepMillis now h m in
        let diffInMs := Luxon.ts now - Luxon.ts scheduled in
        if 30 * Luxon.msPerMinute <? diffInMs
        then ret (late, diffInMs / Luxon.msPerMinute)
        else ret (on_time, 0)
    end
  else ret (on_time, 0).

(** [Log.create([...], { session })] with the schema's validators. *)
Definition createLog (env : Env) (req : Request) (adherenceStatus : AdherenceStatus)
    (delayMinutes : Z) (now : Luxon.DateTime) : M Session Log :=
  match status req with
  | OtherStatus => throw (Err "Log validation failed: status")
  | st =>
      if nonEmpty (scheduledTime req) then
        let doc := mkLog (u_id (req_user req)) (medId req)
                     (match st with Reported s => s | _ => taken end)
                     (scheduledTime req) delayMinutes
                     (if isMissed st then adherence_missed else adherenceStatus)
                     (Luxon.toJSDate now) (clock env) in
        await env (LogCreate (medId req) (scheduledTime req))
          (modify (fun s => mkSession (committed s) (setLogs (tx s) (logs (tx s) ++ [doc]))) ;;;
           ret doc)
      else throw (Err "Log validation failed: scheduledTime")
  end.

(** utils/eventLogger.js: the insert runs in the transaction when a session
    is given; a failure is logged and not rethrown. *)
Definition recordEvent (env : Env) (userId medId : nat) (type : EventType)
    (metadata : Metadata) : M Session unit :=
  tryCatch
    (await env (EventCreate type)
       (modify (fun s => mkSession (committed s)
          (setEvents (tx s) (events (tx s) ++ [mkEvent userId medId type metadata (clock env)])))))
    (fun _ => ret tt).

(** The filter of the inventory update (the schema's pre-find hook adds
    [isDeleted: false], which the filter has already). *)
Definition ownedLive (req : Request) (m : Medication) : bool :=
  Nat.eqb (m_id m) (medId req) && Nat.eqb (m_user m) (u_id (req_user req))
  && negb (m_isDeleted m).

Definition decrementStock (env : Env) (req : Request) : M Session (option Medication) :=
  await env (MedicationFindOneAndUpdate (medId req))
    (fun s => let '(r, meds') := updateFirst (ownedLive req) (incRemaining (-1)) (meds (tx s)) in
              (mkSession (committed s) (setMeds (tx s) meds'), Returned r)).

(** Lines 80-131 of [logDose]: what runs once the double-dose guard has let
    the report through. *)
Definition record (env : Env) (req : Request) : M Session Response :=
  let now := Luxon.setZone (clock env) (timezoneOf (req_user req)) in
  c <- classify req now ;;
  let '(adherenceStatus, delayMinutes) := c in
  doc <- createLog env req adherenceStatus delayMinutes now ;;
  (if takenOrAbsent (status req) then
     medication <- decrementStock env req ;;
     match medication with
     | None => throw (Err "Medication not found or unavailable.")
     | Some med =>
         recordEvent env (u_id (req_user req)) (medId req)
           (match adherenceStatus with late => DOSE_LATE | _ => DOSE_TAKEN end)
           (MetaDose (scheduledTime req) delayMinutes) ;;;
         if m_remainingQuantity med <? 5
         then recordEvent env (u_id (req_user req)) (medId req) INVENTORY_LOW
                (MetaStock (m_remainingQuantity med))
         else ret tt
     end
   else if isMissed (status req) then
     recordEvent env (u_id (req_user req)) (medId req) DOSE_MISSED
       (MetaSlot (scheduledTime req))
   else ret tt) ;;;
  commitTransaction env ;;;
  ret (mkResponse 201 None (Some doc)).

(** The body of the [try] block of [logDose]. *)
Definition attempt (env : Env) (req : Request) : M Session Response :=
  let tenMinutesAgo :=
    Luxon.toJSDate (Luxon.minusMinutes (Luxon.setZone (clock env) (systemZone env)) 10) in
  duplicateLog <- await env (LogFindOne (medId req) (scheduledTime req))
                    (fun s => (s, Returned (find (isRecentTaken req tenMinutesAgo) (logs (tx s))))) ;;
  match duplicateLog with
  | Some _ =>
      if takenOrAbsent (status req) then
        abortTransaction ;;;
        ret (mkResponse 400 (Some "Safety Alert: Logged recently.") None)
      else record env req
  | None => record env req
  end.

(** [logDose]: the transaction is opened, the body runs, and the [catch]
    aborts and answers 400 with the error's message.  The result is the
    committed store and the response. *)
Definition logDose (env : Env) (req : Request) (db : Store) : Store * Response :=
  let '(session, r) :=
    tryCatch (attempt env req)
      (fun error => abortTransaction ;;;
                    ret (mkResponse 400 (Some (message error)) None))
      (startTransaction db) in
  (committed session,
   match r with
   | Returned res => res
   | Thrown error => mkResponse 400 (Some (message error)) None
   end).

(** The body of a refill request. *)
Record RefillRequest := mkRefillRequest {
  refill_user : User;
  refill_id : nat;
  refillAmount : Z
}.

Definition ownedLiveRefill (req : RefillRequest) (m : Medication) : bool :=
  Nat.eqb (m_id m) (refill_id req) && Nat.eqb (m_user m) (u_id (refill_user req))
  && negb (m_isDeleted m).

(** [refillMedication]: no transaction; 404 when no document matches, 500
    when the store rejects. *)
Definition refillMedication (env : Env) (req : RefillRequest) (db : Store) : Store * Z :=
  if faults env (MedicationFindOneAndUpdate (refill_id req)) then (db, 500)
  else
    let '(updatedMed, meds') :=
      updateFirst (ownedLiveRefill req) (incBoth (refillAmount req)) (meds db) in
    match updatedMed with
    | None => (db, 404)
    | Some _ => (setMeds db meds', 200)
    end.

End Recorder.

(* ------------------------------------------------------------------ *)
(** ** The missed-dose sweeper (utils/reaper.js) *)

Module Reaper.
Import Db Eff.
Local Open Scope eff_scope.

(** What a pass hands to the notifier: a 'guardian-alert' job on the
    BullMQ queue, an 'emergency_alert' emitted to a guardian's room. *)
Inductive Signal :=
| GuardianAlertJob (guardianEmail patientName medName missedTime : string)
| EmergencyAlert (guardianId : nat) (patientName medName time : string).

(** The state a pass works on; [missedCount] is its local counter. *)
Record State := mkState {
  db : Store;
  outbox : list Signal;
  missedCount : Z
}.

Definition graceHours : Z := 2.

(** [med.user.timezone || 'UTC']. *)
Definition timezoneOf (u : User) : Z :=
  match u_timezone u with Some z => z | None => 0 end.

Definition nonEmpty (s : string) : bool :=
  match s with EmptyString => false | _ => true end.

(** The filter of [Medication.find] at line 17. *)
Definition swept (m : Medication) : bool :=
  negb (m_isDeleted m) && medType_eqb (m_medType m) scheduled.

(** The existence check's filter (lines 44-48). *)
Definition resolvesToday (medication : nat) (scheduledTime : string)
    (startOfDay endOfDay : Z) (l : Log) : bool :=
  Nat.eqb (l_medication l) medication && String.eqb (l_scheduledTime l) scheduledTime
  && (startOfDay <=? l_createdAt l) && (l_createdAt l <=? endOfDay).

(** The instant after which a slot of today counts as missed. *)
Definition missedThreshold (now : Luxon.DateTime) (h m : Z) : Luxon.DateTime :=
  Luxon.plusHours (Luxon.setTime now h m) graceHours.

(** [Connection.find({patientId, status: 'active'}).populate('guardianId')]. *)
Definition activeGuardians (s : Store) (patient : nat) : list (option User) :=
  map (fun c => populateUser s (c_guardianId c))
    (filter (fun c => Nat.eqb (c_patientId c) patient && connectionStatus_eqb (c_status c) active)
       (connections s)).

(** Lines 71-94: one connection of the fan-out. *)
Definition alertGuardian (env : Env) (io : bool) (med : Medication) (user : User)
    (scheduledTime : string) (guardian : option User) : M State unit :=
  match guardian with
  | None => ret tt
  | Some g =>
      if nonEmpty (u_email g) then
        await env (QueueAdd (u_id g))
          (modify (fun s => mkState (db s)
             (outbox s ++ [GuardianAlertJob (u_email g)
                             (if nonEmpty (u_name user) then u_name user else "Your Patient")
                             (m_name med) scheduledTime])
             (missedCount s))) ;;;
        if io then
          modify (fun s => mkState (db s)
            (outbox s ++ [EmergencyAlert (u_id g) (u_name user) (m_name med) scheduledTime])
            (missedCount s))
        else ret tt
      else ret tt
  end.

(** The entry a pass writes (lines 53-60). *)
Definition missedLog (env : Env) (med : Medication) (user : User) (now : Luxon.DateTime)
    (scheduledTime : string) : Log :=
  mkLog (u_id user) (m_id med) missed scheduledTime 0 adherence_missed
    (Luxon.toJSDate now) (clock env).

(** Lines 28-95: the body of the loop over [med.timings]. *)
Definition sweepSlot (env : Env) (io : bool) (med : Medication) (user : User)
    (now : Luxon.DateTime) (scheduledTime : string) : M State unit :=
  let '(hour, minute) := Js.hourMinute scheduledTime in
  match Luxon.checkedUnits (Js.Number hour) (Js.Number minute) with
  | None => throw (Err "Invalid unit value NaN")
  | Some (h, m) =>
      if Luxon.ts now <=? Luxon.ts (missedThreshold now h m) then ret tt
      else
        let startOfDay := Luxon.toJSDate (Luxon.startOfDay now) in
        let endOfDay := Luxon.toJSDate (Luxon.endOfDay now) in
        existingLog <- await env (LogFindOne (m_id med) scheduledTime)
          (fun s => (s, Returned (find (resolvesToday (m_id med) scheduledTime startOfDay endOfDay)
                                    (logs (db s))))) ;;
        match existingLog with
        | Some _ => ret tt
        | None =>
            (if nonEmpty scheduledTime then
               await env (LogCreate (m_id med) scheduledTime)
                 (modify (fun s => mkState
                    (setLogs (db s) (logs (db s) ++ [missedLog env med user now scheduledTime]))
                    (outbox s) (missedCount s)))
             else throw (Err "Log validation failed: scheduledTime")) ;;;
            modify (fun s => mkState (db s) (outbox s) (missedCount s + 1)) ;;;
            activeConnections <- await env (ConnectionFind (u_id user))
              (fun s => (s, Returned (activeGuardians (db s) (u_id user)))) ;;
            forOf activeConnections (alertGuardian env io med user scheduledTime)
        end
  end.

(** Lines 22-96: the body of the loop over the medications found. *)
Definition sweepMedication (env : Env) (io : bool) (entry : Medication * option User)
    : M State unit :=
  let '(med, owner) := entry in
  match owner with
  | None => ret tt
  | Some user =>
      let now := Luxon.setZone (clock env) (timezoneOf user) in
      forOf (m_timings med) (sweepSlot env io med user now)
  end.

(** [Medication.find({isDeleted: false, medType: 'scheduled'}).populate('user')]. *)
Definition scheduledMedications (s : Store) : list (Medication * option User) :=
  map (fun m => (m, populateUser s (m_user m))) (filter swept (meds s)).

(** The [try] block of [runAutomatedReaper]. *)
Definition pass (env : Env) (io : bool) : M State Z :=
  found <- await env MedicationFind (fun s => (s, Returned (scheduledMedications (db s)))) ;;
  forOf found (sweepMedication env io) ;;;
  s <- get ;;
  ret (missedCount s).

(** [runAutomatedReaper(io)]: the counter starts at 0; the [catch] logs and
    rethrows.  Nothing is undone when it throws.  [io] says whether a socket
    server was passed, which is how the worker calls the function; the test
    route that mounts it as a request handler passes the request object
    instead, a call outside the model. *)
Definition runAutomatedReaper (env : Env) (io : bool) (w : Store * list Signal)
    : (Store * list Signal) * Result Z :=
  let '(s, r) := tryCatch (pass env io) (fun error => throw error)
                   (mkState (fst w) (snd w) 0) in
  ((db s, outbox s), r).

End Reaper.

(* ------------------------------------------------------------------ *)
(** ** Read-side queries (services/analyticsService.js) *)

Module Analytics.
Import Db.

(** [Log.find({user, takenAt: {$gte: start, $lte: end}})]. *)
Definition dailyLogs (s : Store) (userId : nat) (checkingDate : Luxon.DateTime) : list Log :=
  let start := Luxon.toJSDate checkingDate in
  let end_ := Luxon.toJSDate (Luxon.endOfDay checkingDate) in
  filter (fun l => Nat.eqb (l_user l) userId && (start <=? l_takenAt l) && (l_takenAt l <=? end_))
    (logs s).

Definition hasMissed (l : list Log) : bool :=
  existsb (fun log => status_eqb (l_status log) missed) l.

(** The [while (true)] loop of [calculateReliabilityIndex]; [None] when the
    fuel runs out before a [break]. *)
Fixpoint walk (fuel : nat) (s : Store) (userId : nat) (dayCount : Z)
    (checkingDate : Luxon.DateTime) : option Z :=
  match fuel with
  | O => None
  | S fuel' =>
      let logsOfDay := dailyLogs s userId checkingDate in
      if Nat.eqb (List.length logsOfDay) 0 then Some dayCount
      else if negb (hasMissed logsOfDay) then
        let dayCount' := dayCount + 1 in
        let checkingDate' := Luxon.minusDays checkingDate 1 in
        if 90 <=? dayCount' then Some dayCount'
        else walk fuel' s userId dayCount' checkingDate'
      else Some dayCount
  end.

(** [calculateReliabilityIndex(userId)]: today is [DateTime.now()] in the
    zone of the server process; the function takes no zone. *)
Definition calculateReliabilityIndex (env : Env) (s : Store) (userId : nat) : option Z :=
  walk 90 s userId 0 (Luxon.startOfDay (Luxon.setZone (clock env) (systemZone env))).

Inductive RunwayStatus := Critical | Low | Healthy.

Record InventoryReport := mkInventoryReport {
  medicationId : nat;
  name : string;
  currentStock : Js.value;
  daysRemaining : Js.number;
  status : RunwayStatus
}.

(** [med.currentInventory]: the medication schema declares no such path
    (the stock is [remainingQuantity]), so the read gives [undefined]. *)
Definition currentInventory (med : Medication) : Js.value := Js.Undefined.

(** The callback of [meds.map], with the stock figure it read. *)
Definition runwayOf (stock : Js.value) (med : Medication) : InventoryReport :=
  let dailyDoses := Z.of_nat (List.length (m_timings med)) in
  let days := if 0 <? dailyDoses then Js.floorDiv stock dailyDoses else Js.Int 0 in
  mkInventoryReport (m_id med) (m_name med) stock days
    (if Js.leb days 3 then Critical else if Js.leb days 7 then Low else Healthy).

(** The names the service module binds, which are its three imports.  The
    model [Medication] is used by [getInventoryRunway] and is not among
    them. *)
Definition serviceBindings : list string := ["Log"; "DateTime"; "mongoose"].

(** Evaluating an identifier of the module: a ReferenceError when nothing
    binds it. *)
Definition resolve (name : string) : Eff.Result unit :=
  if existsb (String.eqb name) serviceBindings then Eff.Returned tt
  else Eff.Thrown (Eff.Err (String.append name " is not defined")).

(** Lines 193-213: the query and the callback of [meds.map], which is what
    the function computes once [Medication] is bound. *)
Definition inventoryReports (s : Store) (userId : nat) : list InventoryReport :=
  map (fun med => runwayOf (currentInventory med) med)
    (filter (fun m => Nat.eqb (m_user m) userId && negb (m_isDeleted m) && m_isActive m)
       (meds s)).

(** [getInventoryRunway(userId)]: its first step evaluates [Medication]. *)
Definition getInventoryRunway (s : Store) (userId : nat)
    : Eff.Result (list InventoryReport) :=
  match resolve "Medication" with
  | Eff.Thrown e => Eff.Thrown e
  | Eff.Returned _ => Eff.Returned (inventoryReports s userId)
  end.

End Analytics.

(* ------------------------------------------------------------------ *)
(** ** More of controllers/medController.js *)

Module MedController.
Import Db Eff Recorder.
Local Open Scope eff_scope.

(** [req.params.id] and [req.user] of a delete request. *)
Record DeleteRequest := mkDeleteRequest {
  delete_user : User;
  delete_id : nat
}.

(** The update of the soft delete, [{ isDeleted: true, deletedAt: new Date(),
    isActive: false }]; the record of this model carries the two flags, not
    the [deletedAt] stamp. *)
Definition softDeleted (m : Medication) : Medication :=
  mkMedication (m_id m) (m_user m) (m_name m) (m_medType m) (m_timings m)
    (m_totalQuantity m) (m_remainingQuantity m) false true.

Definition ownedLiveDelete (req : DeleteRequest) (m : Medication) : bool :=
  Nat.eqb (m_id m) (delete_id req) && Nat.eqb (m_user m) (u_id (delete_user req))
  && negb (m_isDeleted m).

(** The [try] block of [deleteMedication]; it returns the status code. *)
Definition deleteAttempt (env : Env) (req : DeleteRequest) : M Session Z :=
  deletedMed <- await env (MedicationFindOneAndUpdate (delete_id req))
    (fun s => let '(r, meds') := updateFirst (ownedLiveDelete req) softDeleted (meds (tx s)) in
              (mkSession (committed s) (setMeds (tx s) meds'), Returned r)) ;;
  match deletedMed with
  | None => abortTransaction ;;; ret 404
  | Some _ =>
      recordEvent env (u_id (delete_user req)) (delete_id req) MED_DELETED MetaNone ;;;
      commitTransaction env ;;;
      ret 200
  end.

(** [deleteMedication]: the committed store and the status code. *)
Definition deleteMedication (env : Env) (req : DeleteRequest) (db : Store) : Store * Z :=
  let '(session, r) :=
    tryCatch (deleteAttempt env req) (fun _ => abortTransaction ;;; ret 500)
      (startTransaction db) in
  (committed session, match r with Returned code => code | Thrown _ => 500 end).

(** [getLowStockMeds]: [Medication.find({ user, remainingQuantity: { $lt: 5 } })],
    to which the schema's pre-find hook adds [isDeleted: false]. *)
Definition getLowStockMeds (s : Store) (userId : nat) : list Medication :=
  filter (fun m => Nat.eqb (m_user m) userId && (m_remainingQuantity m <? 5)
                   && negb (m_isDeleted m)) (meds s).

(** [calculateDelayInMs(scheduledTime, userTz)]: milliseconds until the next
    occurrence of the slot; throws when [set] rejects the slot string. *)
Definition calculateDelayInMs (env : Env) (scheduledTime : string) (userTz : Z) : Result Z :=
  let now := Luxon.setZone (clock env) userTz in
  let '(hour, minute) := Js.hourMinute scheduledTime in
  match Luxon.checkedUnits (Js.parseInt hour) (Js.parseInt minute) with
  | None => Thrown (Err "Invalid unit value NaN")
  | Some (h, m) =>
      let scheduled := Luxon.setTime now h m in
      let scheduled := if Luxon.ts scheduled <? Luxon.ts now
                       then Luxon.plusDays scheduled 1 else scheduled in
      let delay := Luxon.ts scheduled - Luxon.ts now in
      Returned (Z.max 0 delay)
  end.

End MedController.

(* ------------------------------------------------------------------ *)
(** ** Adding a medication (controllers/medController.js) *)

Module MedIntake.
Import Db Eff MedController.
Local Open Scope eff_scope.

(** [req.body.medType]: absent (or empty), one of the two types of the
    schema, or some other string. *)
Inductive BodyMedType :=
| NoMedType
| GivenMedType (t : MedType)
| OtherMedType.

(** The request as [addMedication] reads it, for a body that carries an
    array of strings as [timings] and a number as [totalQuantity].  [name],
    [dosage] and [frequency] are the empty string when the body has none;
    [instructions] is not carried. *)
Record AddRequest := mkAddRequest {
  add_user : User;
  add_name : string;
  add_dosage : string;
  add_frequency : string;
  add_medType : BodyMedType;
  add_timings : list string;
  add_totalQuantity : Z
}.

(** A 'send-reminder' job on the queue, with its delay. *)
Record Reminder := mkReminder {
  r_userId : nat;
  r_medName : string;
  r_scheduledTime : string;
  r_medId : nat;
  r_delay : Z
}.

(** What the handler works on: the store, and the reminder queue. *)
Record Intake := mkIntake {
  intake_db : Store;
  intake_queue : list Reminder
}.

Inductive AddOp :=
| MedicationCreate
| ReminderAdd (scheduledTime : string).

Definition nonEmpty (s : string) : bool :=
  match s with EmptyString => false | _ => true end.

(** The validators of the schema that can fail on such a body: the three
    required strings, the enum of [medType] and the required elements of
    [timings]. *)
Definition valid (req : AddRequest) : bool :=
  nonEmpty (add_name req) && nonEmpty (add_dosage req) && nonEmpty (add_frequency req)
  && match add_medType req with OtherMedType => false | _ => true end
  && forallb nonEmpty (add_timings req).

(** [medType || 'scheduled']. *)
Definition medTypeOf (req : AddRequest) : MedType :=
  match add_medType req with GivenMedType t => t | _ => scheduled end.

(** The [_id] Mongoose generates is an ObjectId no document of the
    collection has; the model takes the successor of the largest id. *)
Definition freshId (l : list Medication) : nat :=
  S (fold_right Nat.max 0%nat (map m_id l)).

(** The document [Medication.create] stores, with the defaults of the
    schema for [isActive] and [isDeleted]. *)
Definition created (req : AddRequest) (id : nat) : Medication :=
  mkMedication id (u_id (add_user req)) (add_name req) (medTypeOf req) (add_timings req)
    (add_totalQuantity req) (add_totalQuantity req) true false.

Definition createMedication (rejects : AddOp -> bool) (req : AddRequest)
    : M Intake Medication :=
  if negb (valid req) then throw (Err "Medication validation failed")
  else if rejects MedicationCreate then throw (Err "store operation failed")
  else fun s =>
         let medication := created req (freshId (meds (intake_db s))) in
         (mkIntake (setMeds (intake_db s) (meds (intake_db s) ++ [medication]))
            (intake_queue s),
          Returned medication).

(** The body of the loop over [timings]. *)
Definition scheduleReminder (env : Env) (rejects : AddOp -> bool) (req : AddRequest)
    (medication : Medication) (time : string) : M Intake unit :=
  match calculateDelayInMs env time (Recorder.timezoneOf (add_user req)) with
  | Thrown e => throw e
  | Returned delay =>
      if rejects (ReminderAdd time) then throw (Err "store operation failed")
      else modify (fun s =>
             mkIntake (intake_db s)
               (intake_queue s
                ++ [mkReminder (u_id (add_user req)) (add_name req) time (m_id medication)
                      delay]))
  end.

(** The [try] block of [addMedication]; it returns the status code. *)
Definition addAttempt (env : Env) (rejects : AddOp -> bool) (req : AddRequest)
    : M Intake Z :=
  medication <- createMedication rejects req ;;
  (if medType_eqb (m_medType medication) scheduled
   then forOf (add_timings req) (scheduleReminder env rejects req medication)
   else ret tt) ;;;
  ret 201.

(** [addMedication]: no transaction; whatever was written before a throw
    stays. *)
Definition addMedication (env : Env) (rejects : AddOp -> bool) (req : AddRequest)
    (s : Intake) : Intake * Z :=
  let '(s', r) := tryCatch (addAttempt env rejects req) (fun _ => ret 400) s in
  (s', match r with Returned code => code | Thrown _ => 400 end).

End MedIntake.

(* ------------------------------------------------------------------ *)
(** ** More of services/analyticsService.js *)

Module AnalyticsService.
Import Db.

(** *** Aggregations over missed entries *)

(** [$group] with [{ $sum: 1 }]: one row per key, with the number of
    documents that have it.  MongoDB leaves the order of the rows open; the
    model lists them in order of first appearance. *)
Fixpoint bump {K} (eqb : K -> K -> bool) (k : K) (rows : list (K * Z)) : list (K * Z) :=
  match rows with
  | [] => [(k, 1)]
  | (k', n) :: rest => if eqb k k' then (k', n + 1) :: rest
                       else (k', n) :: bump eqb k rest
  end.

Definition groupCount {K} (eqb : K -> K -> bool) (keys : list K) : list (K * Z) :=
  fold_left (fun rows k => bump eqb k rows) keys [].

(** The [$match] stage both aggregations start with: missed entries of the
    user taken in the last 30 days, counted from now in the server's zone. *)
Definition recentMissed (env : Env) (s : Store) (userId : nat) : list Log :=
  let thirtyDaysAgo :=
    Luxon.toJSDate (Luxon.minusDays (Luxon.setZone (clock env) (systemZone env)) 30) in
  filter (fun l => Nat.eqb (l_user l) userId && status_eqb (l_status l) missed
                   && (thirtyDaysAgo <=? l_takenAt l)) (logs s).

(** [{ $sort: { missedCount: -1 } }], as a stable sort. *)
Fixpoint insertByCount {K} (x : K * Z) (l : list (K * Z)) : list (K * Z) :=
  match l with
  | [] => [x]
  | y :: rest => if snd y <=? snd x then x :: y :: rest
                 else y :: insertByCount x rest
  end.

Definition sortByCountDesc {K} (l : list (K * Z)) : list (K * Z) :=
  fold_right insertByCount [] l.

(** [getBehavioralPatterns(userId)]: missed entries per slot string, the
    most missed first. *)
Definition getBehavioralPatterns (env : Env) (s : Store) (userId : nat)
    : list (string * Z) :=
  sortByCountDesc (groupCount String.eqb (map l_scheduledTime (recentMissed env s userId))).

Inductive Period := Morning | Afternoon | Evening | Night.

Definition period_eqb (a b : Period) : bool :=
  match a, b with
  | Morning, Morning | Afternoon, Afternoon | Evening, Evening | Night, Night => true
  | _, _ => false
  end.

(** The nested [$cond] of the second [$project] stage. *)
Definition periodOf (hour : Z) : Period :=
  if (6 <=? hour) && (hour <? 12) then Morning
  else if (12 <=? hour) && (hour <? 18) then Afternoon
  else if (18 <=? hour) && (hour <? 22) then Evening
  else Night.

Section TemporalRisk.

(** MongoDB's [$toInt] on a string; [None] when the conversion fails, which
    fails the aggregation. *)
Variable toInt : string -> option Z.

(** [{ $toInt: { $arrayElemAt: [{ $split: ["$scheduledTime", ":"] }, 0] } }]. *)
Definition hourOf (l : Log) : option Z :=
  match nth_error (Js.split ":"%char (l_scheduledTime l)) 0 with
  | Some h => toInt h
  | None => None
  end.

(** The first [$project] stage over all matched entries. *)
Fixpoint hoursOf (ls : list Log) : option (list Z) :=
  match ls with
  | [] => Some []
  | l :: rest =>
      match hourOf l, hoursOf rest with
      | Some h, Some hs => Some (h :: hs)
      | _, _ => None
      end
  end.

(** [getTemporalRiskAnalysis(userId)]: missed entries per window of the
    day; [None] when the aggregation fails. *)
Definition getTemporalRiskAnalysis (env : Env) (s : Store) (userId : nat)
    : option (list (Period * Z)) :=
  match hoursOf (recentMissed env s userId) with
  | Some hours => Some (groupCount period_eqb (map periodOf hours))
  | None => None
  end.

End TemporalRisk.

End AnalyticsService.

(* ------------------------------------------------------------------ *)
(** ** The guardian handshake (controllers/guardianController.js) *)

Module GuardianController.
Import Db Eff.
Local Open Scope eff_scope.

(** inviteModel.js: the enum of [status]. *)
Inductive InviteStatus := invite_pending | invite_accepted | invite_expired.

Definition inviteStatus_eqb (a b : InviteStatus) : bool :=
  match a, b with
  | invite_pending, invite_pending | invite_accepted, invite_accepted
  | invite_expired, invite_expired => true
  | _, _ => false
  end.

Record Invite := mkInvite {
  i_sender : nat;
  i_receiverEmail : string;
  i_token : string;
  i_status : InviteStatus;
  i_expiresAt : Z
}.

(** The collections the handshake works on: those of the store, and the
    invites. *)
Record World := mkWorld {
  store : Store;
  invites : list Invite
}.

(** [req.body.action]: the string 'accepted', or anything else. *)
Inductive Action := AcceptAction | OtherAction.

Record RespondRequest := mkRespondRequest {
  respond_user : User;
  respond_token : string;
  respond_action : Action
}.

Inductive GuardianOp :=
| InviteFindOne
| ConnectionCreate
| InviteSave
| HandshakeCommit
| ConnectionFindOne
| PatientMedicationFind.

(** What the handlers of this controller run in: which tokens [jwt.verify]
    accepts at this moment, and the store operations that reject. *)
Record Setting := mkSetting {
  verifies : string -> bool;
  rejects : GuardianOp -> bool
}.

Definition awaiting {S A} (setting : Setting) (op : GuardianOp) (m : M S A) : M S A :=
  if rejects setting op then throw (Err "store operation failed") else m.

(** The session of the handshake: what is committed, and what the open
    transaction has written. *)
Record Handshake := mkHandshake {
  settled : World;
  inFlight : World
}.

(** The filter [{ token, status: 'pending' }]. *)
Definition pendingWith (token : string) (i : Invite) : bool :=
  String.eqb (i_token i) token && inviteStatus_eqb (i_status i) invite_pending.

(** The unique index [{ patientId: 1, guardianId: 1 }] of the connections. *)
Definition sameEnds (patient guardian : nat) (c : Connection) : bool :=
  Nat.eqb (c_patientId c) patient && Nat.eqb (c_guardianId c) guardian.

(** [Connection.create([{ patientId, guardianId, status: 'active',
    initiatedBy }], { session })]; the record of this model does not carry
    [initiatedBy]. *)
Definition createConnection (setting : Setting) (patient guardian : nat) : M Handshake unit :=
  awaiting setting ConnectionCreate
    (fun s =>
       let db := store (inFlight s) in
       if existsb (sameEnds patient guardian) (connections db)
       then (s, Thrown (Err "E11000 duplicate key error"))
       else (mkHandshake (settled s)
               (mkWorld
                  (mkStore (users db) (meds db) (logs db) (events db)
                     (connections db ++ [mkConnection patient guardian active]))
                  (invites (inFlight s))),
             Returned tt)).

(** The value assigned to [invite.status]: 'accepted' is in the enum of the
    schema, 'rejected' is not. *)
Inductive Assigned := InEnum (status : InviteStatus) | OutsideEnum (status : string).

(** The document found, written back with its new status. *)
Fixpoint writeStatus (token : string) (status : InviteStatus) (l : list Invite)
    : list Invite :=
  match l with
  | [] => []
  | i :: rest =>
      if pendingWith token i
      then mkInvite (i_sender i) (i_receiverEmail i) (i_token i) status (i_expiresAt i) :: rest
      else i :: writeStatus token status rest
  end.

(** [invite.save({ session })]: validation comes first. *)
Definition saveInvite (setting : Setting) (token : string) (assigned : Assigned)
    : M Handshake unit :=
  match assigned with
  | OutsideEnum _ => throw (Err "GuardianInvite validation failed: status")
  | InEnum status =>
      awaiting setting InviteSave
        (modify (fun s => mkHandshake (settled s)
                   (mkWorld (store (inFlight s))
                      (writeStatus token status (invites (inFlight s))))))
  end.

(** The [try] block of [respondToInvite]; it returns the status code. *)
Definition respondAttempt (setting : Setting) (req : RespondRequest) : M Handshake Z :=
  (if verifies setting (respond_token req) then ret tt else throw (Err "invalid token")) ;;;
  invite <- awaiting setting InviteFindOne
    (fun s => (s, Returned (find (pendingWith (respond_token req)) (invites (inFlight s))))) ;;
  match invite with
  | None => throw (Err "Invitation not found, already processed, or expired.")
  | Some invite =>
      assigned <-
        match respond_action req with
        | AcceptAction =>
            createConnection setting (i_sender invite) (u_id (respond_user req)) ;;;
            ret (InEnum invite_accepted)
        | OtherAction => ret (OutsideEnum "rejected")
        end ;;
      saveInvite setting (respond_token req) assigned ;;;
      awaiting setting HandshakeCommit
        (modify (fun s => mkHandshake (inFlight s) (inFlight s))) ;;;
      ret 200
  end.

(** [respondToInvite]: the committed collections and the status code. *)
Definition respondToInvite (setting : Setting) (req : RespondRequest) (w : World)
    : World * Z :=
  let '(session, r) :=
    tryCatch (respondAttempt setting req)
      (fun _ => modify (fun s => mkHandshake (settled s) (settled s)) ;;; ret 400)
      (mkHandshake w w) in
  (settled session, match r with Returned code => code | Thrown _ => 400 end).

(** A guardian's request for a patient's medications. *)
Record PatientRequest := mkPatientRequest {
  patient_user : User;
  patientId : nat
}.

(** The filter [{ patientId, guardianId: req.user._id, status: 'active' }]. *)
Definition guards (req : PatientRequest) (c : Connection) : bool :=
  Nat.eqb (c_patientId c) (patientId req) && Nat.eqb (c_guardianId c) (u_id (patient_user req))
  && connectionStatus_eqb (c_status c) active.

(** [getPatientMeds]: the status code and the medications sent. *)
Definition getPatientMeds (setting : Setting) (req : PatientRequest) (s : Store)
    : Z * list Medication :=
  if rejects setting ConnectionFindOne then (500, [])
  else
    match find (guards req) (connections s) with
    | None => (403, [])
    | Some _ =>
        if rejects setting PatientMedicationFind then (500, [])
        else (200, filter (fun m => Nat.eqb (m_user m) (patientId req) && negb (m_isDeleted m))
                     (meds s))
    end.

End GuardianController.

(* ================================================================== *)
(** * Properties *)

(* ------------------------------------------------------------------ *)
(** ** Calendar arithmetic *)

Module LuxonFacts.
Import Luxon.

Lemma startOfDay_le (d : DateTime) : ts (startOfDay d) <= ts d.
Proof.
  unfold startOfDay, localMillis, msPerDay, msPerMinute; cbn [ts offset].
  pose proof (Z.mul_div_le (ts d + offset d * 60000) 86400000 ltac:(lia)). lia.
Qed.

Lemma endOfDay_ge (d : DateTime) : ts d <= ts (endOfDay d).
Proof.
  unfold endOfDay, startOfDay, localMillis, msPerDay, msPerMinute; cbn [ts offset].
  pose proof (Z.mod_pos_bound (ts d + offset d * 60000) 86400000 ltac:(lia)).
  pose proof (Z.div_mod (ts d + offset d * 60000) 86400000 ltac:(lia)). lia.
Qed.

(** An instant inside the local day of [d] has the same local day. *)
Lemma within_day_same_day (zone t u : Z) :
  ts (startOfDay (setZone u zone)) <= t <= ts (endOfDay (setZone u zone)) ->
  ts (startOfDay (setZone t zone)) = ts (startOfDay (setZone u zone)).
Proof.
  unfold endOfDay, startOfDay, setZone, localMillis, msPerDay, msPerMinute; cbn [ts offset].
  intros [Hlo Hhi].
  assert (E : (t + zone * 60000) / 86400000 = (u + zone * 60000) / 86400000).
  { symmetry. apply Z.div_unique with (r := t + zone * 60000
                 - 86400000 * ((u + zone * 60000) / 86400000)); lia. }
  rewrite E. reflexivity.
Qed.

Lemma same_day_bounds (zone t u : Z) :
  ts (startOfDay (setZone t zone)) = ts (startOfDay (setZone u zone)) ->
  ts (endOfDay (setZone t zone)) = ts (endOfDay (setZone u zone)).
Proof. unfold endOfDay; cbn [ts offset]. intros ->. reflexivity. Qed.

Lemma minusDays_minusDays (d : DateTime) (a b : Z) :
  minusDays (minusDays d a) b = minusDays d (a + b).
Proof. unfold minusDays; cbn [ts offset]. f_equal. ring. Qed.

Lemma minusDays_0 (d : DateTime) : minusDays d 0 = d.
Proof. destruct d; unfold minusDays; cbn [ts offset]. f_equal. ring. Qed.

End LuxonFacts.

(* ------------------------------------------------------------------ *)
(** ** Inventory runway *)

Module RunwayFacts.
Import Db Analytics.

(** The medication of the runway example: ten doses left, three slots a day. *)
Definition tenOverThree : Medication :=
  mkMedication 7 1 "Metformin" scheduled ["08:00"; "14:00"; "20:00"] 30 10 true false.

Definition pharmacy : Store :=
  mkStore [mkUser 1 "Asha" "asha@example.org" None] [tenOverThree] [] [] [].

(** What the callback computes from a stock figure [q]: the floor of the
    quotient by the number of daily slots, 0 without slots, classed by the
    thresholds 3 and 7. *)
Lemma runwayOf_figure (q : Z) (med : Medication) :
  let n := Z.of_nat (List.length (m_timings med)) in
  let r := runwayOf (Js.Num (Js.Int q)) med in
  let d := if 0 <? n then q / n else 0 in
  daysRemaining r = Js.Int d /\
  (status r = Critical <-> d <= 3) /\
  (status r = Low <-> 3 < d <= 7) /\
  (status r = Healthy <-> 7 < d).
Proof.
  intros n r d. subst r d. unfold runwayOf. fold n.
  assert (Hn : 0 <= n) by (unfold n; lia).
  destruct (0 <? n) eqn:Hpos; simpl.
  + apply Z.ltb_lt in Hpos.
    assert (Hz : (n =? 0) = false) by (apply Z.eqb_neq; lia). rewrite Hz. simpl.
    destruct (q / n <=? 3) eqn:H3; [apply Z.leb_le in H3 | apply Z.leb_gt in H3].
    * repeat split; try discriminate; try lia; intros; try reflexivity; lia.
    * destruct (q / n <=? 7) eqn:H7; [apply Z.leb_le in H7 | apply Z.leb_gt in H7];
        repeat split; try discriminate; try lia; intros; try reflexivity; lia.
  + repeat split; try discriminate; try lia; intros; reflexivity.
Qed.

(** C8: the query does not report the stock.  On every input it throws a
    ReferenceError, since the service module does not import the model it
    queries.  Were the model in scope, the callback would read
    [currentInventory], a path the schema does not declare, so that no
    report of a medication with daily slots would carry a number of days:
    the medication with [remainingQuantity = 10] and three daily slots would
    be reported with [daysRemaining = NaN] and status Healthy.  The callback
    applied to the stock of that medication gives the 3 days of the claim,
    with the status Critical of the claim's thresholds. *)
Theorem runway_query_does_not_read_the_stock (s : Store) (userId : nat) :
  getInventoryRunway s userId = Eff.Thrown (Eff.Err "Medication is not defined") /\
  (forall r, In r (inventoryReports s userId) ->
     daysRemaining r = Js.NaN \/ daysRemaining r = Js.Int 0) /\
  m_remainingQuantity tenOverThree = 10 /\
  List.length (m_timings tenOverThree) = 3%nat /\
  map (fun r => (daysRemaining r, status r)) (inventoryReports pharmacy 1)
    = [(Js.NaN, Healthy)] /\
  daysRemaining (runwayOf (Js.Num (Js.Int (m_remainingQuantity tenOverThree))) tenOverThree)
    = Js.Int 3 /\
  status (runwayOf (Js.Num (Js.Int (m_remainingQuantity tenOverThree))) tenOverThree)
    = Critical.
Proof.
  split; [reflexivity|]. split; [|repeat split].
  intros r Hin. unfold inventoryReports in Hin. apply in_map_iff in Hin.
  destruct Hin as [m [<- _]]. unfold runwayOf, currentInventory. cbn [daysRemaining].
  destruct (0 <? Z.of_nat (List.length (m_timings m))); [left | right]; reflexivity.
Qed.

End RunwayFacts.

(* ------------------------------------------------------------------ *)
(** ** Reliability index *)

Module ReliabilityFacts.
Import Db Analytics.

(** The local day that lies [k] days before today, for an observer in
    [zone]. *)
Definition dayBefore (zone : Z) (env : Env) (k : Z) : Luxon.DateTime :=
  Luxon.minusDays (Luxon.startOfDay (Luxon.setZone (clock env) zone)) k.

(** A day that extends the streak: it has entries and none is missed. *)
Definition cleanDay (s : Store) (userId : nat) (day : Luxon.DateTime) : Prop :=
  dailyLogs s userId day <> [] /\ hasMissed (dailyLogs s userId day) = false.

Lemma length_eqb_0 {A} (l : list A) : Nat.eqb (List.length l) 0 = true <-> l = [].
Proof. destruct l; simpl; split; intros H; try reflexivity; discriminate. Qed.

(** The loop, started with [dayCount = c] on day [d] and enough fuel to
    reach the cap, stops with the number of clean days in front of it. *)
Lemma walk_counts_clean_days (fuel : nat) (s : Store) (userId : nat) :
  forall (c : Z) (d : Luxon.DateTime),
    0 <= c < 90 -> 90 - c <= Z.of_nat fuel ->
    exists n, walk fuel s userId c d = Some n /\ c <= n <= 90 /\
      (forall j, 0 <= j < n - c -> cleanDay s userId (Luxon.minusDays d j)) /\
      (n < 90 -> ~ cleanDay s userId (Luxon.minusDays d (n - c))).
Proof.
  induction fuel as [|fuel IH]; intros c d Hc Hfuel; [lia|].
  cbn [walk].
  destruct (Nat.eqb (List.length (dailyLogs s userId d)) 0) eqn:Hlen.
  - apply length_eqb_0 in Hlen. exists c.
    split; [reflexivity|]. split; [lia|]. split; [intros j Hj; lia|].
    intros _ [Hne _]. rewrite Z.sub_diag, LuxonFacts.minusDays_0 in Hne. contradiction.
  - destruct (hasMissed (dailyLogs s userId d)) eqn:Hmiss; cbn [negb].
    + exists c.
      split; [reflexivity|]. split; [lia|]. split; [intros j Hj; lia|].
      intros _ [_ Hno]. rewrite Z.sub_diag, LuxonFacts.minusDays_0 in Hno. congruence.
    + assert (Hclean : cleanDay s userId d).
      { split; [|assumption]. intros E. rewrite E in Hlen. discriminate. }
      destruct (90 <=? c + 1) eqn:Hcap.
      * apply Z.leb_le in Hcap. exists (c + 1).
        split; [reflexivity|]. split; [lia|]. split; [|intros; lia].
        intros j Hj. replace j with 0 by lia. now rewrite LuxonFacts.minusDays_0.
      * apply Z.leb_gt in Hcap.
        destruct (IH (c + 1) (Luxon.minusDays d 1)) as [n [Hw [Hn [Hall Hstop]]]];
          [lia | lia |].
        exists n. split; [assumption|]. split; [lia|]. split.
        -- intros j Hj. destruct (Z.eq_dec j 0) as [-> | Hj0].
           ++ now rewrite LuxonFacts.minusDays_0.
           ++ specialize (Hall (j - 1) ltac:(lia)).
              rewrite LuxonFacts.minusDays_minusDays in Hall.
              now replace (1 + (j - 1)) with j in Hall by lia.
        -- intros Hlt. specialize (Hstop Hlt).
           rewrite LuxonFacts.minusDays_minusDays in Hstop.
           now replace (1 + (n - (c + 1))) with (n - c) in Hstop by lia.
Qed.

(** A subject ten hours east of a server that runs in UTC, at 02:00 of the
    subject's day: one dose taken an hour ago, one at 20:00 on each of the
    two days before. *)
Definition midnightShift : Env := mkEnv (20000 * 86400000 + 16 * 3600000) 0 noFaults.

Definition traveller : Store :=
  mkStore [mkUser 1 "Kai" "kai@example.org" (Some 600)] [] 
    [ mkLog 1 5 taken "20:00" 0 on_time (19999 * 86400000 + 10 * 3600000)
        (19999 * 86400000 + 10 * 3600000);
      mkLog 1 5 taken "20:00" 0 on_time (20000 * 86400000 + 10 * 3600000)
        (20000 * 86400000 + 10 * 3600000);
      mkLog 1 5 taken "01:00" 0 on_time (20000 * 86400000 + 15 * 3600000)
        (20000 * 86400000 + 15 * 3600000) ]
    [] [].

(** C9, as stated, fails: in the subject's time zone the days D, D-1 and D-2
    each hold a taken dose and D-3 holds nothing, yet the index is 2; the
    walk steps through the days of the server's zone. *)
Lemma reliability_index_ignores_subject_zone :
  cleanDay traveller 1 (dayBefore 600 midnightShift 0) /\
  cleanDay traveller 1 (dayBefore 600 midnightShift 1) /\
  cleanDay traveller 1 (dayBefore 600 midnightShift 2) /\
  dailyLogs traveller 1 (dayBefore 600 midnightShift 3) = [] /\
  calculateReliabilityIndex midnightShift traveller 1 = Some 2 /\
  calculateReliabilityIndex midnightShift traveller 1 <> Some 3.
Proof.
  unfold cleanDay. repeat split; try (vm_compute; reflexivity); vm_compute; discriminate.
Qed.

(** C9 (amended): the walk steps back one calendar day at a time through
    the days of the server process's zone; it always returns, with an
    integer [n] between 0 and 90 such that the [n] days from today back each
    hold entries of the subject and no missed one, and, below the cap, the
    next day holds no entry or a missed one.  With clean days D, D-1, D-2 and
    an empty D-3 the index is exactly 3. *)
Theorem reliability_index_walks_server_days (env : Env) (s : Store) (userId : nat) :
  exists n, calculateReliabilityIndex env s userId = Some n /\
    0 <= n <= 90 /\
    (forall k, 0 <= k < n -> cleanDay s userId (dayBefore (systemZone env) env k)) /\
    (n < 90 -> dailyLogs s userId (dayBefore (systemZone env) env n) = []
               \/ hasMissed (dailyLogs s userId (dayBefore (systemZone env) env n)) = true) /\
    (cleanDay s userId (dayBefore (systemZone env) env 0) ->
     cleanDay s userId (dayBefore (systemZone env) env 1) ->
     cleanDay s userId (dayBefore (systemZone env) env 2) ->
     dailyLogs s userId (dayBefore (systemZone env) env 3) = [] ->
     n = 3).
Proof.
  unfold calculateReliabilityIndex, dayBefore.
  set (today := Luxon.startOfDay (Luxon.setZone (clock env) (systemZone env))).
  destruct (walk_counts_clean_days 90 s userId 0 today) as [n [Hw [Hn [Hall Hstop]]]];
    [lia | lia |].
  rewrite Z.sub_0_r in Hstop.
  exists n. split; [assumption|]. split; [lia|]. split; [|split].
  - intros k Hk. apply Hall. lia.
  - intros Hlt. specialize (Hstop Hlt). unfold cleanDay in Hstop.
    destruct (dailyLogs s userId (Luxon.minusDays today n)) as [|l ls] eqn:E; [now left|].
    right. destruct (hasMissed (l :: ls)) eqn:Hm; [reflexivity|].
    exfalso. apply Hstop. split; [discriminate | reflexivity].
  - intros H0 H1 H2 H3.
    destruct (Z_lt_le_dec n 3) as [Hlt | Hge].
    + exfalso. apply (Hstop ltac:(lia)).
      assert (n = 0 \/ n = 1 \/ n = 2) as [-> | [-> | ->]] by lia; assumption.
    + destruct (Z.eq_dec n 3) as [-> | Hne]; [reflexivity|].
      exfalso. destruct (Hall 3 ltac:(lia)) as [Hne3 _]. contradiction.
Qed.

(** A subject with a taken dose on each of the server's days D, D-1, D-2
    and nothing on D-3. *)
Definition threeDays : Store :=
  mkStore [mkUser 1 "Kai" "kai@example.org" None] []
    [ mkLog 1 5 taken "10:00" 0 on_time (19998 * 86400000 + 10 * 3600000)
        (19998 * 86400000 + 10 * 3600000);
      mkLog 1 5 taken "10:00" 35 late (19999 * 86400000 + 10 * 3600000 + 35 * 60000)
        (19999 * 86400000 + 10 * 3600000 + 35 * 60000);
      mkLog 1 5 taken "10:00" 0 on_time (20000 * 86400000 + 10 * 3600000)
        (20000 * 86400000 + 10 * 3600000) ]
    [] [].

Lemma reliability_index_walks_server_days_witness :
  calculateReliabilityIndex midnightShift threeDays 1 = Some 3.
Proof.
  destruct (reliability_index_walks_server_days midnightShift threeDays 1)
    as [n [Hn [_ [_ [_ H3]]]]].
  rewrite Hn. f_equal. apply H3.
  - split; [vm_compute; discriminate | vm_compute; reflexivity].
  - split; [vm_compute; discriminate | vm_compute; reflexivity].
  - split; [vm_compute; discriminate | vm_compute; reflexivity].
  - vm_compute; reflexivity.
Defined.

End ReliabilityFacts.
(* ------------------------------------------------------------------ *)
(** ** The recorder's unit of work *)

Module RecorderFacts.
Import Db Eff Recorder.

Lemma updateFirst_none (accepts : Medication -> bool) (update : Medication -> Medication)
    (l : list Medication) :
  (forall m, In m l -> accepts m = false) -> updateFirst accepts update l = (None, l).
Proof.
  induction l as [|m l IH]; intros H; [reflexivity|].
  cbn [updateFirst]. rewrite (H m (or_introl eq_refl)).
  rewrite IH; [reflexivity|]. intros x Hx. apply H. now right.
Qed.

Lemma updateFirst_some (accepts : Medication -> bool) (update : Medication -> Medication)
    (l : list Medication) (m' : Medication) :
  fst (updateFirst accepts update l) = Some m' ->
  exists l1 m l2, l = l1 ++ m :: l2 /\ accepts m = true /\
    (forall x, In x l1 -> accepts x = false) /\ m' = update m /\
    snd (updateFirst accepts update l) = l1 ++ update m :: l2.
Proof.
  induction l as [|x l IH]; cbn [updateFirst]; [discriminate|].
  destruct (accepts x) eqn:Hx.
  - cbn [fst snd]. intros [= <-]. exists [], x, l. repeat split; auto. intros y [].
  - destruct (updateFirst accepts update l) as [r rest] eqn:E. cbn [fst snd] in *.
    intros Hr. destruct (IH Hr) as [l1 [m [l2 [-> [Hm [Hl1 [-> ->]]]]]]].
    exists (x :: l1), m, l2. repeat split; auto.
    intros y [<- | Hy]; auto.
Qed.

(** The audit events one unit of work may add: stamped with the clock, for
    the reporting user and the reported medication. *)
Definition auditOf (env : Env) (req : Request) (e : Event) : Prop :=
  e_user e = u_id (req_user req) /\ e_medication e = medId req /\
  e_timestamp e = clock env.

Section OneUnit.
Variables (env : Env) (req : Request).
Variables (us : list User) (ms : list Medication) (ls : list Log) (es : list Event)
  (cs : list Connection).

Let db := mkStore us ms ls es cs.

Lemma classify_pure (now : Luxon.DateTime) (s : Session) :
  exists r, classify req now s = (s, r).
Proof.
  unfold classify. destruct (nonEmpty (scheduledTime req) && negb (isMissed (status req))).
  - destruct (Js.hourMinute (scheduledTime req)) as [hour minute].
    destruct (Luxon.checkedUnits (Js.parseInt hour) (Js.parseInt minute)) as [[h m]|].
    + destruct (30 * Luxon.msPerMinute <? _); eexists; reflexivity.
    + eexists; reflexivity.
  - eexists; reflexivity.
Qed.

Lemma createLog_cases (a : AdherenceStatus) (delay : Z) (now : Luxon.DateTime)
    (ls' : list Log) :
  (exists e, createLog env req a delay now (mkSession db (mkStore us ms ls' es cs))
             = (mkSession db (mkStore us ms ls' es cs), Thrown e)) \/
  (exists doc, createLog env req a delay now (mkSession db (mkStore us ms ls' es cs))
               = (mkSession db (mkStore us ms (ls' ++ [doc]) es cs), Returned doc) /\
               faults env (LogCreate (medId req) (scheduledTime req)) = false).
Proof.
  unfold createLog.
  destruct (status req) as [|st|]; try (left; eexists; reflexivity);
    (destruct (nonEmpty (scheduledTime req)); [|left; eexists; reflexivity]);
    unfold await; (destruct (faults env _); [left; eexists; reflexivity|]);
    right; eexists; split; reflexivity.
Qed.

Lemma recordEvent_cases (type : EventType) (metadata : Metadata)
    (ms' : list Medication) (ls' : list Log) (es' : list Event) :
  exists evs,
    recordEvent env (u_id (req_user req)) (medId req) type metadata
      (mkSession db (mkStore us ms' ls' es' cs))
    = (mkSession db (mkStore us ms' ls' (es' ++ evs) cs), Returned tt) /\
    Forall (auditOf env req) evs /\ (List.length evs <= 1)%nat /\
    (faults env (EventCreate type) = true -> evs = []) /\
    (faults env (EventCreate type) = false -> evs <> []).
Proof.
  unfold recordEvent, tryCatch, await. destruct (faults env (EventCreate type)).
  - exists []. rewrite app_nil_r. repeat split; auto. discriminate.
  - eexists [_]. repeat split; auto; try discriminate.
    constructor; [|constructor]. repeat split.
Qed.

(** What the store holds once [record] has run on a fresh transaction. *)
Definition medsAfter (l : list Medication) : list Medication :=
  if takenOrAbsent (status req)
  then snd (updateFirst (ownedLive req) (incRemaining (-1)) l)
  else l.

Lemma record_outcome :
  let '(s', r) := record env req (mkSession db db) in
  match r with
  | Thrown e => committed s' = db
  | Returned res =>
      exists doc evs,
        res = mkResponse 201 None (Some doc) /\
        committed s' = mkStore us (medsAfter ms) (ls ++ [doc]) (es ++ evs) cs /\
        Forall (auditOf env req) evs /\
        (takenOrAbsent (status req) = true ->
         fst (updateFirst (ownedLive req) (incRemaining (-1)) ms) <> None /\
         faults env (MedicationFindOneAndUpdate (medId req)) = false) /\
        faults env (LogCreate (medId req) (scheduledTime req)) = false /\
        faults env CommitTransaction = false
  end.
Proof.
  unfold record, medsAfter. set (now := Luxon.setZone (clock env) (timezoneOf (req_user req))).
  unfold bind at 1. destruct (classify_pure now (mkSession db db)) as [r1 ->].
  destruct r1 as [[a delay]|e]; [|reflexivity].
  unfold bind at 1. unfold db at 2 3.
  destruct (createLog_cases a delay now ls) as [[e ->] | [doc [-> Hcreate]]]; [reflexivity|].
  unfold bind at 1.
  destruct (takenOrAbsent (status req)) eqn:Htaken.
  - unfold bind at 1. unfold decrementStock, await.
    destruct (faults env (MedicationFindOneAndUpdate (medId req))) eqn:Hupdate;
      [reflexivity|].
    cbn [tx committed meds setMeds users logs events connections].
    destruct (updateFirst (ownedLive req) (incRemaining (-1)) ms) as [[med|] ms'] eqn:Hupd;
      [|reflexivity].
    unfold bind at 1. unfold setMeds. cbn [users logs events connections fst snd].
    destruct (recordEvent_cases (match a with late => DOSE_LATE | _ => DOSE_TAKEN end)
                (MetaDose (scheduledTime req) delay) ms' (ls ++ [doc]) es)
      as [evs1 [-> [Hevs1 _]]].
    assert (Hlow : exists evs2,
      (if m_remainingQuantity med <? 5
       then recordEvent env (u_id (req_user req)) (medId req) INVENTORY_LOW
              (MetaStock (m_remainingQuantity med))
       else ret tt) (mkSession db (mkStore us ms' (ls ++ [doc]) (es ++ evs1) cs))
      = (mkSession db (mkStore us ms' (ls ++ [doc]) ((es ++ evs1) ++ evs2) cs), Returned tt)
      /\ Forall (auditOf env req) evs2).
    { destruct (m_remainingQuantity med <? 5).
      - destruct (recordEvent_cases INVENTORY_LOW (MetaStock (m_remainingQuantity med))
                    ms' (ls ++ [doc]) (es ++ evs1)) as [evs2 [E [H2 _]]].
        exists evs2. split; assumption.
      - exists []. rewrite app_nil_r. split; [reflexivity | constructor]. }
    destruct Hlow as [evs2 [-> Hevs2]].
    unfold bind, commitTransaction, await.
    destruct (faults env CommitTransaction) eqn:Hcommit; [reflexivity|].
    cbn. exists doc, (evs1 ++ evs2). rewrite app_assoc.
    repeat split; auto.
    + apply Forall_app. split; assumption.
    + discriminate.
  - assert (Hev : exists evs,
      (if isMissed (status req)
       then recordEvent env (u_id (req_user req)) (medId req) DOSE_MISSED
              (MetaSlot (scheduledTime req))
       else ret tt) (mkSession db (mkStore us ms (ls ++ [doc]) es cs))
      = (mkSession db (mkStore us ms (ls ++ [doc]) (es ++ evs) cs), Returned tt)
      /\ Forall (auditOf env req) evs).
    { destruct (isMissed (status req)).
      - destruct (recordEvent_cases DOSE_MISSED (MetaSlot (scheduledTime req))
                    ms (ls ++ [doc]) es) as [evs [E [H2 _]]].
        exists evs. split; assumption.
      - exists []. rewrite app_nil_r. split; [reflexivity | constructor]. }
    destruct Hev as [evs [-> Hevs]].
    unfold bind, commitTransaction, await.
    destruct (faults env CommitTransaction) eqn:Hcommit; [reflexivity|].
    cbn. exists doc, evs. repeat split; auto; discriminate.
Qed.

(** The request was accepted: one ledger entry more, the stock moved as the
    outcome asks, the audit events that went through, all committed. *)
Definition Accepted (db' : Store) (res : Response) : Prop :=
  statusCode res = 201 /\
  exists doc evs,
    res_data res = Some doc /\
    db' = mkStore us (medsAfter ms) (ls ++ [doc]) (es ++ evs) cs /\
    Forall (auditOf env req) evs /\
    (takenOrAbsent (status req) = true ->
     fst (updateFirst (ownedLive req) (incRemaining (-1)) ms) <> None /\
     faults env (MedicationFindOneAndUpdate (medId req)) = false) /\
    faults env (LogCreate (medId req) (scheduledTime req)) = false /\
    faults env CommitTransaction = false.

(** What the [catch] of [logDose] makes of the outcome of [record]. *)
Lemma record_then_catch (s' : Session) (r : Result Response) :
  record env req (mkSession db db) = (s', r) ->
  let '(session, r') :=
    match r with
    | Returned a => (s', Returned a)
    | Thrown e => (abortTransaction;;; ret (mkResponse 400 (Some (message e)) None))%eff s'
    end in
  let res := match r' with
             | Returned res => res
             | Thrown error => mkResponse 400 (Some (message error)) None
             end in
  (statusCode res = 400 /\ committed session = db) \/ Accepted (committed session) res.
Proof.
  intros E. pose proof record_outcome as Hrec. rewrite E in Hrec. destruct r as [res|e].
  - destruct Hrec as [doc [evs [-> [Hc [Hevs [Hmed [Hcreate Hcommit]]]]]]].
    right. split; [reflexivity|]. exists doc, evs. repeat split; auto; apply Hmed; auto.
  - cbn. left. split; [reflexivity | assumption].
Qed.

Lemma logDose_outcome :
  let '(db', res) := logDose env req db in
  (statusCode res = 400 /\ db' = db) \/
  (Accepted db' res /\ faults env (LogFindOne (medId req) (scheduledTime req)) = false).
Proof.
  unfold logDose, tryCatch, attempt, startTransaction. fold db.
  unfold bind at 1. unfold await.
  destruct (faults env (LogFindOne (medId req) (scheduledTime req))) eqn:Hfind.
  { cbn. left. split; reflexivity. }
  assert (Hwrite :
    let '(s', r) := record env req (mkSession db db) in
    let '(session, r') :=
      match r with
      | Returned a => (s', Returned a)
      | Thrown e => (abortTransaction;;; ret (mkResponse 400 (Some (message e)) None))%eff s'
      end in
    let res := match r' with
               | Returned res => res
               | Thrown error => mkResponse 400 (Some (message error)) None
               end in
    (statusCode res = 400 /\ committed session = db) \/
    (Accepted (committed session) res /\ false = false)).
  { destruct (record env req (mkSession db db)) as [s' r] eqn:E.
    pose proof (record_then_catch s' r E) as H.
    destruct r; (destruct H as [H | H]; [left; exact H | right; split; [exact H | reflexivity]]). }
  match goal with
  | |- context [find ?f ?l] => destruct (find f l) as [dup|]
  end.
  - destruct (takenOrAbsent (status req)).
    + cbn. left. split; reflexivity.
    + destruct (record env req (mkSession db db)) as [s' [res|e]]; exact Hwrite.
  - destruct (record env req (mkSession db db)) as [s' [res|e]]; exact Hwrite.
Qed.

End OneUnit.

(** *** Concrete ledgers *)

Definition morning : Z := 20000 * 86400000 + 8 * 3600000 + 5 * 60000.

Definition asha : User := mkUser 1 "Asha" "asha@example.org" None.

Definition statin (remaining : Z) (isActive isDeleted : bool) : Medication :=
  mkMedication 10 1 "Atorvastatin" scheduled ["08:00"] 30 remaining isActive isDeleted.

Definition cabinet (m : Medication) : Store := mkStore [asha] [m] [] [] [].

(** The audit collection rejects every insert. *)
Definition auditDown : StoreOp -> bool :=
  fun op => match op with EventCreate _ => true | _ => false end.

Definition report (st : BodyStatus) : Request := mkRequest asha 10 "08:00" st.

(** A report for the 08:00 slot at 08:05 is on time; at 08:45 it is late by
    45 minutes. *)
Example report_at_0805_is_on_time :
  option_map (fun l => (l_adherenceStatus l, l_delayMinutes l))
    (res_data (snd (logDose (mkEnv morning 0 noFaults) (report NoStatus)
                      (cabinet (statin 10 true false)))))
  = Some (on_time, 0).
Proof. vm_compute. reflexivity. Qed.

Example report_at_0845_is_late :
  option_map (fun l => (l_adherenceStatus l, l_delayMinutes l))
    (res_data (snd (logDose (mkEnv (morning + 40 * 60000) 0 noFaults) (report NoStatus)
                      (cabinet (statin 10 true false)))))
  = Some (late, 45).
Proof. vm_compute. reflexivity. Qed.

(** C2, as stated, fails: when the audit-event insert fails the recorder
    still answers 201 and commits the ledger entry and the decrement, without
    the audit event; with a healthy audit collection the same report also
    leaves a DOSE_TAKEN event. *)
Lemma failed_audit_insert_still_commits :
  let '(db', res) := logDose (mkEnv morning 0 auditDown) (report (Reported taken))
                       (cabinet (statin 10 true false)) in
  statusCode res = 201 /\
  List.length (logs db') = 1%nat /\
  map m_remainingQuantity (meds db') = [9] /\
  events db' = [] /\
  map e_eventType
    (events (fst (logDose (mkEnv morning 0 noFaults) (report (Reported taken))
                    (cabinet (statin 10 true false))))) = [DOSE_TAKEN].
Proof. vm_compute. repeat split. Qed.

(** C3, as stated, fails: a taken dose against an empty stock is accepted
    and leaves [remainingQuantity = -1]. *)
Lemma taken_dose_on_empty_stock_goes_negative :
  let '(db', res) := logDose (mkEnv morning 0 noFaults) (report (Reported taken))
                       (cabinet (statin 0 true false)) in
  statusCode res = 201 /\ map m_remainingQuantity (meds db') = [-1].
Proof. vm_compute. split; reflexivity. Qed.

(** C4, as stated, fails: a missed report against a soft-deleted medication
    is accepted and written to the ledger, and a taken report against an
    inactive one is accepted too. *)
Lemma missed_report_on_deleted_medication_is_written :
  (let '(db', res) := logDose (mkEnv morning 0 noFaults) (report (Reported missed))
                        (cabinet (statin 10 false true)) in
   statusCode res = 201 /\ map l_status (logs db') = [missed]) /\
  (let '(db', res) := logDose (mkEnv morning 0 noFaults) (report (Reported skipped))
                        (cabinet (statin 10 false true)) in
   statusCode res = 201 /\ map l_status (logs db') = [skipped]) /\
  (let '(db', res) := logDose (mkEnv morning 0 noFaults) (report (Reported taken))
                        (cabinet (statin 10 false false)) in
   statusCode res = 201 /\ map l_status (logs db') = [taken]).
Proof. vm_compute. repeat split. Qed.

End RecorderFacts.

(* ------------------------------------------------------------------ *)
(** ** Reasoning about handlers: pre- and postconditions *)

Module EffFacts.
Import Eff.

(** From a state in [P], [m] either returns [a] in a state in [Q a] or
    throws in a state in [E]. *)
Definition triple {S A} (P : S -> Prop) (m : M S A) (Q : A -> S -> Prop) (E : S -> Prop)
    : Prop :=
  forall s, P s ->
    match m s with
    | (s', Returned a) => Q a s'
    | (s', Thrown _) => E s'
    end.

Lemma triple_ret {S A} (P : S -> Prop) (a : A) (Q : A -> S -> Prop) (E : S -> Prop) :
  (forall s, P s -> Q a s) -> triple P (ret a) Q E.
Proof. intros H s Hs. cbn. auto. Qed.

Lemma triple_throw {S A} (P : S -> Prop) (e : Error) (Q : A -> S -> Prop) (E : S -> Prop) :
  (forall s, P s -> E s) -> triple P (@throw S A e) Q E.
Proof. intros H s Hs. cbn. auto. Qed.

Lemma triple_modify {S} (P : S -> Prop) (f : S -> S) (Q : unit -> S -> Prop) (E : S -> Prop) :
  (forall s, P s -> Q tt (f s)) -> triple P (modify f) Q E.
Proof. intros H s Hs. cbn. auto. Qed.

Lemma triple_bind {S A B} (P : S -> Prop) (m : M S A) (k : A -> M S B)
    (R : A -> S -> Prop) (Q : B -> S -> Prop) (E : S -> Prop) :
  triple P m R E -> (forall a, triple (R a) (k a) Q E) -> triple P (bind m k) Q E.
Proof.
  intros Hm Hk s Hs. unfold bind. specialize (Hm s Hs).
  destruct (m s) as [s' [a|e]]; [apply (Hk a s' Hm) | exact Hm].
Qed.

Lemma triple_await {S A} (env : Db.Env) (op : Db.StoreOp) (P : S -> Prop) (m : M S A)
    (Q : A -> S -> Prop) (E : S -> Prop) :
  (Db.faults env op = true -> forall s, P s -> E s) ->
  (Db.faults env op = false -> triple P m Q E) ->
  triple P (await env op m) Q E.
Proof.
  intros Hf Hm. unfold await. destruct (Db.faults env op).
  - apply triple_throw. auto.
  - auto.
Qed.

Lemma triple_assume {S A} (fact : Prop) (P : S -> Prop) (m : M S A)
    (Q : A -> S -> Prop) (E : S -> Prop) :
  (fact -> triple P m Q E) -> triple (fun s => fact /\ P s) m Q E.
Proof. intros H s [Hf Hs]. exact (H Hf s Hs). Qed.

Lemma triple_weaken {S A} (P P' : S -> Prop) (m : M S A) (Q Q' : A -> S -> Prop)
    (E E' : S -> Prop) :
  triple P' m Q' E' -> (forall s, P s -> P' s) -> (forall a s, Q' a s -> Q a s) ->
  (forall s, E' s -> E s) -> triple P m Q E.
Proof.
  intros H HP HQ HE s Hs. specialize (H s (HP s Hs)).
  destruct (m s) as [s' [a|e]]; auto.
Qed.

(** The loop rule: the invariant is indexed by the elements done so far. *)
Lemma triple_forOf {S A} (I : list A -> S -> Prop) (E : S -> Prop) (l : list A)
    (body : A -> M S unit) :
  (forall pre x post, l = pre ++ x :: post ->
     triple (I pre) (body x) (fun _ => I (pre ++ [x])) E) ->
  triple (I []) (forOf l body) (fun _ => I l) E.
Proof.
  intros Hbody.
  assert (G : forall rest pre, l = pre ++ rest ->
              triple (I pre) (forOf rest body) (fun _ => I l) E).
  { induction rest as [|x rest IH]; intros pre Hl.
    - rewrite app_nil_r in Hl. subst pre. apply triple_ret. auto.
    - cbn [forOf]. apply triple_bind with (R := fun _ => I (pre ++ [x])).
      + apply (Hbody pre x rest Hl).
      + intros _. apply IH. rewrite <- app_assoc. exact Hl. }
  apply (G l []). reflexivity.
Qed.

End EffFacts.

(* ------------------------------------------------------------------ *)
(** ** The sweep pass *)

Module ReaperFacts.
Import Db Eff Reaper EffFacts.

(** A slot of a medication the pass looks at, with the owner it resolved. *)
Definition Target : Type := (Medication * User * string)%type.

(** [DateTime.now().setZone(userTz)]. *)
Definition nowFor (env : Env) (user : User) : Luxon.DateTime :=
  Luxon.setZone (clock env) (timezoneOf user).

(** Hour and minute of a slot string, as [Number] and [set] accept them. *)
Definition slotTime (scheduledTime : string) : option (Z * Z) :=
  let '(hour, minute) := Js.hourMinute scheduledTime in
  Luxon.checkedUnits (Js.Number hour) (Js.Number minute).

(** Now, in the owner's zone, is strictly past today's slot instant plus the
    two hours of grace. *)
Definition pastGrace (env : Env) (user : User) (slot : string) : bool :=
  match slotTime slot with
  | Some (h, m) => Luxon.ts (missedThreshold (nowFor env user) h m) <? clock env
  | None => false
  end.

(** The ledger holds an entry for the medication and the slot, created
    within the owner's current local day. *)
Definition resolved (env : Env) (ledger : list Log) (med : Medication) (user : User)
    (slot : string) : bool :=
  existsb (resolvesToday (m_id med) slot
             (Luxon.toJSDate (Luxon.startOfDay (nowFor env user)))
             (Luxon.toJSDate (Luxon.endOfDay (nowFor env user)))) ledger.

Definition targetsOf (found : list (Medication * option User)) : list Target :=
  flat_map (fun entry =>
              match snd entry with
              | Some user => map (fun slot => (fst entry, user, slot)) (m_timings (fst entry))
              | None => []
              end) found.

Definition targets (s : Store) : list Target := targetsOf (scheduledMedications s).

(** Every slot string the pass converts is one [Number] converts exactly:
    on such a store the pass of the model does what the code does. *)
Definition PlainSlots (s : Store) : Prop :=
  forall med user slot, In (med, user, slot) (targets s) -> Js.slotNumberExact slot = true.

Definition key (e : Log) : nat * string := (l_medication e, l_scheduledTime e).

(** An entry the pass wrote: the missed entry of a target that was past its
    grace window and unresolved in the ledger the pass started from. *)
Definition synthesized (env : Env) (db0 : Store) (e : Log) : Prop :=
  exists med user slot,
    In (med, user, slot) (targets db0) /\
    e = missedLog env med user (nowFor env user) slot /\
    pastGrace env user slot = true /\
    resolved env (logs db0) med user slot = false.

(** What holds of the store at every point of a pass started on [db0]. *)
Definition Written (env : Env) (db0 db1 : Store) (count : Z) : Prop :=
  users db1 = users db0 /\ meds db1 = meds db0 /\ events db1 = events db0 /\
  connections db1 = connections db0 /\
  exists new, logs db1 = logs db0 ++ new /\ count = Z.of_nat (List.length new) /\
    NoDup (map key new) /\ Forall (synthesized env db0) new.

(** The targets done so far were handled without a failure, and those past
    their grace window are resolved in the ledger. *)
Definition Covered (env : Env) (done : list Target) (ledger : list Log) : Prop :=
  forall med user slot, In (med, user, slot) done ->
    slotTime slot <> None /\
    (pastGrace env user slot = true ->
     faults env (LogFindOne (m_id med) slot) = false /\
     resolved env ledger med user slot = true).

(** Why a pass can throw: a slot string [set] rejects, or a store operation
    that rejects. *)
Definition Cause (env : Env) (db0 : Store) : Prop :=
  (exists med user slot, In (med, user, slot) (targets db0) /\ slotTime slot = None) \/
  (exists op, faults env op = true).

Lemma PlainSlots_check (s : Store) :
  forallb (fun t => Js.slotNumberExact (snd t)) (targets s) = true -> PlainSlots s.
Proof.
  intros H med user slot Hin. rewrite forallb_forall in H. apply (H (med, user, slot) Hin).
Qed.

Lemma find_none_existsb {A} (f : A -> bool) (l : list A) :
  find f l = None <-> existsb f l = false.
Proof.
  induction l as [|x l IH]; cbn; [tauto|].
  destruct (f x); cbn; [split; discriminate | exact IH].
Qed.

Lemma find_some_existsb {A} (f : A -> bool) (l : list A) (x : A) :
  find f l = Some x -> existsb f l = true.
Proof.
  intros H. destruct (existsb f l) eqn:E; [reflexivity|].
  apply find_none_existsb in E. congruence.
Qed.

Lemma slotTime_nonEmpty (slot : string) (p : Z * Z) :
  slotTime slot = Some p -> nonEmpty slot = true.
Proof. destruct slot; [discriminate | reflexivity]. Qed.

(** Whatever the zone, the clock lies within the local day of now. *)
Lemma clock_within_today (env : Env) (user : User) :
  Luxon.toJSDate (Luxon.startOfDay (nowFor env user)) <= clock env
    <= Luxon.toJSDate (Luxon.endOfDay (nowFor env user)).
Proof.
  unfold Luxon.toJSDate. split.
  - apply (LuxonFacts.startOfDay_le (nowFor env user)).
  - apply (LuxonFacts.endOfDay_ge (nowFor env user)).
Qed.

Lemma missedLog_resolves (env : Env) (med med' : Medication) (user user' : User)
    (slot : string) :
  m_id med' = m_id med ->
  resolvesToday (m_id med) slot
    (Luxon.toJSDate (Luxon.startOfDay (nowFor env user)))
    (Luxon.toJSDate (Luxon.endOfDay (nowFor env user)))
    (missedLog env med' user' (nowFor env user') slot) = true.
Proof.
  intros Hid. unfold resolvesToday, missedLog. cbn [l_medication l_scheduledTime l_createdAt].
  destruct (clock_within_today env user) as [Hlo Hhi].
  rewrite Hid, Nat.eqb_refl, String.eqb_refl.
  apply Z.leb_le in Hlo. apply Z.leb_le in Hhi. rewrite Hlo, Hhi. reflexivity.
Qed.

Lemma resolvesToday_key (id : nat) (slot : string) (a b : Z) (e : Log) :
  resolvesToday id slot a b e = true -> key e = (id, slot).
Proof.
  unfold resolvesToday, key. intros H.
  apply andb_prop in H. destruct H as [H _].
  apply andb_prop in H. destruct H as [H _].
  apply andb_prop in H. destruct H as [Hid Hslot].
  apply Nat.eqb_eq in Hid. apply String.eqb_eq in Hslot. congruence.
Qed.

Lemma resolved_app (env : Env) (l1 l2 : list Log) (med : Medication) (user : User)
    (slot : string) :
  resolved env (l1 ++ l2) med user slot
  = resolved env l1 med user slot || resolved env l2 med user slot.
Proof. unfold resolved. apply existsb_app. Qed.

Lemma Covered_mono (env : Env) (done : list Target) (ledger more : list Log) :
  Covered env done ledger -> Covered env done (ledger ++ more).
Proof.
  intros H med user slot Hin. destruct (H med user slot Hin) as [Hp Hr].
  split; [assumption|]. intros Hg. destruct (Hr Hg) as [Hf Hres].
  split; [assumption|]. rewrite resolved_app, Hres. reflexivity.
Qed.

Lemma Covered_snoc (env : Env) (done : list Target) (ledger : list Log)
    (med : Medication) (user : User) (slot : string) :
  Covered env done ledger ->
  slotTime slot <> None ->
  (pastGrace env user slot = true ->
   faults env (LogFindOne (m_id med) slot) = false /\
   resolved env ledger med user slot = true) ->
  Covered env (done ++ [(med, user, slot)]) ledger.
Proof.
  intros H Hp Hr med' user' slot' Hin. apply in_app_or in Hin.
  destruct Hin as [Hin | [[= <- <- <-] | []]]; [apply H; assumption|].
  split; assumption.
Qed.

Lemma NoDup_snoc {A} (l : list A) (x : A) : NoDup l -> ~ In x l -> NoDup (l ++ [x]).
Proof.
  induction l as [|y l IH]; intros Hnd Hx; cbn.
  - constructor; [intros [] | constructor].
  - inversion Hnd as [|? ? Hy Hnd']; subst. constructor.
    + intros Hin. apply in_app_or in Hin. destruct Hin as [Hin | [<- | []]]; auto.
      apply Hx. now left.
    + apply IH; [assumption|]. intros Hin. apply Hx. now right.
Qed.

Lemma Written_add (env : Env) (db0 db1 : Store) (count : Z)
    (med : Medication) (user : User) (slot : string) :
  Written env db0 db1 count ->
  In (med, user, slot) (targets db0) ->
  pastGrace env user slot = true ->
  resolved env (logs db1) med user slot = false ->
  Written env db0
    (setLogs db1 (logs db1 ++ [missedLog env med user (nowFor env user) slot]))
    (count + 1).
Proof.
  intros [Hu [Hm [He [Hc [new [Hl [Hn [Hnd Hall]]]]]]]] Hin Hg Hres.
  unfold Written, setLogs. cbn [users meds events connections logs].
  repeat (split; [assumption|]).
  rewrite Hl in Hres. rewrite resolved_app in Hres.
  apply orb_false_iff in Hres. destruct Hres as [Hres0 Hresn].
  exists (new ++ [missedLog env med user (nowFor env user) slot]).
  split; [rewrite Hl, app_assoc; reflexivity|].
  split; [rewrite length_app, Hn; cbn; lia|].
  split.
  - rewrite map_app. cbn [map]. apply NoDup_snoc; [assumption|].
    intros Hk. apply in_map_iff in Hk. destruct Hk as [e [Hke Hine]].
    rewrite Forall_forall in Hall.
    destruct (Hall e Hine) as [med' [user' [slot' [_ [-> _]]]]].
    unfold key in Hke. cbn in Hke. injection Hke as Hid Hslot. subst slot'.
    unfold resolved in Hresn. rewrite <- not_true_iff_false in Hresn. apply Hresn.
    apply existsb_exists. eexists. split; [exact Hine|].
    apply missedLog_resolves. assumption.
  - apply Forall_app. split; [assumption|]. constructor; [|constructor].
    exists med, user, slot. repeat split; auto.
Qed.

Section OnePass.
Variables (env : Env) (io : bool) (db0 : Store).

(** The loop invariant and the condition under which the pass throws. *)
Let Inv (done : list Target) (s : State) : Prop :=
  Written env db0 (db s) (missedCount s) /\ Covered env done (logs (db s)).

Let Failed (s : State) : Prop :=
  Written env db0 (db s) (missedCount s) /\ Cause env db0.

Lemma faulty (op : StoreOp) : faults env op = true -> Cause env db0.
Proof. intros H. right. exists op. exact H. Qed.

(** The fan-out touches the outbox only. *)
Lemma alertGuardian_spec (P : Store -> Z -> Prop) (med : Medication) (user : User)
    (slot : string) (guardian : option User) :
  triple (fun s => P (db s) (missedCount s))
    (alertGuardian env io med user slot guardian)
    (fun _ s => P (db s) (missedCount s))
    (fun s => P (db s) (missedCount s) /\ Cause env db0).
Proof.
  unfold alertGuardian. destruct guardian as [g|]; [|apply triple_ret; auto].
  destruct (nonEmpty (u_email g)); [|apply triple_ret; auto].
  apply triple_bind with (R := fun _ s => P (db s) (missedCount s)).
  - apply triple_await.
    + intros Hf s Hs. split; [assumption | exact (faulty _ Hf)].
    + intros _. apply triple_modify. auto.
  - intros _. destruct io; [apply triple_modify | apply triple_ret]; auto.
Qed.

Lemma fanOut_spec (P : Store -> Z -> Prop) (med : Medication) (user : User)
    (slot : string) (guardians : list (option User)) :
  triple (fun s => P (db s) (missedCount s))
    (forOf guardians (alertGuardian env io med user slot))
    (fun _ s => P (db s) (missedCount s))
    (fun s => P (db s) (missedCount s) /\ Cause env db0).
Proof.
  apply (triple_forOf (fun _ s => P (db s) (missedCount s))).
  intros pre g post _. apply alertGuardian_spec.
Qed.

(** One slot of one medication. *)
Lemma sweepSlot_spec (done : list Target) (med : Medication) (user : User) (slot : string) :
  In (med, user, slot) (targets db0) ->
  triple (Inv done) (sweepSlot env io med user (nowFor env user) slot)
    (fun _ => Inv (done ++ [(med, user, slot)])) Failed.
Proof.
  intros Hin. unfold sweepSlot.
  destruct (Js.hourMinute slot) as [hour minute] eqn:Hhm.
  destruct (Luxon.checkedUnits (Js.Number hour) (Js.Number minute)) as [[h m]|] eqn:Hcu.
  2:{ apply triple_throw. intros s [Hw _]. split; [assumption|].
      left. exists med, user, slot. split; [assumption|].
      unfold slotTime. now rewrite Hhm. }
  assert (Hst : slotTime slot = Some (h, m)) by (unfold slotTime; now rewrite Hhm).
  assert (Hgrace : pastGrace env user slot
                   = negb (Luxon.ts (nowFor env user)
                             <=? Luxon.ts (missedThreshold (nowFor env user) h m))).
  { unfold pastGrace. rewrite Hst. apply Z.ltb_antisym. }
  destruct (Luxon.ts (nowFor env user) <=? Luxon.ts (missedThreshold (nowFor env user) h m)).
  { apply triple_ret. intros s [Hw Hc]. split; [assumption|].
    apply Covered_snoc; [assumption | congruence |]. rewrite Hgrace. discriminate. }
  cbn [negb] in Hgrace.
  apply triple_bind with
    (R := fun existing s => Inv done s /\
            faults env (LogFindOne (m_id med) slot) = false /\
            existing = find (resolvesToday (m_id med) slot
                               (Luxon.toJSDate (Luxon.startOfDay (nowFor env user)))
                               (Luxon.toJSDate (Luxon.endOfDay (nowFor env user))))
                         (logs (db s))).
  { apply triple_await.
    - intros Hf s [Hw _]. split; [assumption | exact (faulty _ Hf)].
    - intros Hf s Hs. cbn. auto. }
  intros existing.
  apply triple_weaken with
    (P' := fun s => (faults env (LogFindOne (m_id med) slot) = false) /\
             (Inv done s /\
              existing = find (resolvesToday (m_id med) slot
                                 (Luxon.toJSDate (Luxon.startOfDay (nowFor env user)))
                                 (Luxon.toJSDate (Luxon.endOfDay (nowFor env user))))
                           (logs (db s))))
    (Q' := fun _ => Inv (done ++ [(med, user, slot)])) (E' := Failed); auto; [|tauto].
  apply triple_assume. intros Hfind.
  destruct existing as [found|].
  { apply triple_ret. intros s [[Hw Hc] Hex]. split; [assumption|].
    apply Covered_snoc; [assumption | congruence |]. intros _. split; [assumption|].
    symmetry in Hex. apply find_some_existsb in Hex. exact Hex. }
  rewrite (slotTime_nonEmpty _ _ Hst).
  apply triple_bind with
    (R := fun _ s => Written env db0 (db s) (missedCount s + 1) /\
                     Covered env (done ++ [(med, user, slot)]) (logs (db s))).
  { apply triple_await.
    - intros Hf s [[Hw _] _]. split; [assumption | exact (faulty _ Hf)].
    - intros _. apply triple_modify. intros s [[Hw Hc] Hex]. cbn [db missedCount].
      symmetry in Hex. apply find_none_existsb in Hex. split.
      + apply Written_add; assumption.
      + unfold setLogs. cbn [logs]. apply Covered_snoc.
        * apply Covered_mono. assumption.
        * congruence.
        * intros _. split; [assumption|]. rewrite resolved_app.
          unfold resolved at 2. cbn [existsb].
          rewrite missedLog_resolves by reflexivity. apply orb_true_r. }
  intros _. apply triple_bind with (R := fun _ => Inv (done ++ [(med, user, slot)])).
  { apply triple_modify. intros s Hs. exact Hs. }
  intros _. apply triple_bind with (R := fun _ => Inv (done ++ [(med, user, slot)])).
  { apply triple_await.
    - intros Hf s [Hw _]. split; [assumption | exact (faulty _ Hf)].
    - intros _ s Hs. cbn. exact Hs. }
  intros guardians.
  apply triple_weaken with
    (P' := fun s => Written env db0 (db s) (missedCount s) /\
                    Covered env (done ++ [(med, user, slot)]) (logs (db s)))
    (Q' := fun _ s => Written env db0 (db s) (missedCount s) /\
                      Covered env (done ++ [(med, user, slot)]) (logs (db s)))
    (E' := fun s => (Written env db0 (db s) (missedCount s) /\
                     Covered env (done ++ [(med, user, slot)]) (logs (db s))) /\
                    Cause env db0); auto.
  - apply (fanOut_spec (fun d c => Written env db0 d c /\
                                   Covered env (done ++ [(med, user, slot)]) (logs d))).
  - intros s [[Hw _] Hk]. split; assumption.
Qed.

(** One medication: every slot of it, when its owner resolves. *)
Lemma sweepMedication_spec (pre post : list (Medication * option User))
    (entry : Medication * option User) :
  scheduledMedications db0 = pre ++ entry :: post ->
  triple (Inv (targetsOf pre)) (sweepMedication env io entry)
    (fun _ => Inv (targetsOf (pre ++ [entry]))) Failed.
Proof.
  intros Hfound. destruct entry as [med [user|]]; unfold sweepMedication.
  - assert (Hdone : targetsOf (pre ++ [(med, Some user)])
                    = targetsOf pre ++ map (fun slot => (med, user, slot)) (m_timings med)).
    { unfold targetsOf. rewrite flat_map_app. cbn. now rewrite app_nil_r. }
    rewrite Hdone.
    replace (Inv (targetsOf pre))
      with (Inv (targetsOf pre ++ map (fun slot => (med, user, slot)) []))
      by (cbn [map]; now rewrite app_nil_r).
    apply (triple_forOf
             (fun slots => Inv (targetsOf pre ++ map (fun slot => (med, user, slot)) slots))
             Failed (m_timings med)
             (sweepSlot env io med user (Luxon.setZone (clock env) (timezoneOf user)))).
    + intros spre slot spost Hslots. rewrite map_app, app_assoc. cbn [map].
      apply sweepSlot_spec.
      unfold targets, targetsOf. rewrite Hfound, flat_map_app. apply in_or_app. right.
      cbn [flat_map fst snd]. apply in_or_app. left.
      rewrite Hslots, map_app. apply in_or_app. right. left. reflexivity.
  - assert (Hdone : targetsOf (pre ++ [(med, None)]) = targetsOf pre).
    { unfold targetsOf. rewrite flat_map_app. cbn. now rewrite app_nil_r. }
    rewrite Hdone. apply triple_ret. auto.
Qed.

(** The whole [try] block, started with the counter at 0. *)
Lemma pass_spec (out0 : list Signal) :
  triple (fun s => s = mkState db0 out0 0) (pass env io)
    (fun n s => Written env db0 (db s) n /\ Covered env (targets db0) (logs (db s)) /\
                faults env MedicationFind = false)
    Failed.
Proof.
  assert (Hstart : Written env db0 db0 0).
  { unfold Written. repeat (split; [reflexivity|]). exists [].
    rewrite app_nil_r. repeat split; constructor. }
  unfold pass.
  apply triple_bind with
    (R := fun found s => (faults env MedicationFind = false /\
                          found = scheduledMedications db0) /\ Inv [] s).
  { apply triple_await.
    - intros Hf s ->. split; [exact Hstart | exact (faulty _ Hf)].
    - intros Hf s ->. cbn.
      split; [split; [assumption | reflexivity]|].
      split; [exact Hstart|]. intros med user slot []. }
  intros found. apply triple_assume. intros [Hfind ->].
  apply triple_bind with (R := fun _ => Inv (targets db0)).
  { apply (triple_forOf (fun pre => Inv (targetsOf pre)) Failed).
    intros pre entry post Hfound.
    apply (sweepMedication_spec pre post entry Hfound). }
  intros _ s [Hw Hc]. cbn. auto.
Qed.

(** [runAutomatedReaper] on the store [db0]. *)
Lemma reaper_outcome (out0 : list Signal) :
  let '(w1, r) := runAutomatedReaper env io (db0, out0) in
  match r with
  | Returned n =>
      Written env db0 (fst w1) n /\ Covered env (targets db0) (logs (fst w1)) /\
      faults env MedicationFind = false
  | Thrown _ => (exists n, Written env db0 (fst w1) n) /\ Cause env db0
  end.
Proof.
  unfold runAutomatedReaper, tryCatch. cbn [fst snd].
  pose proof (pass_spec out0 (mkState db0 out0 0) eq_refl) as H.
  destruct (pass env io (mkState db0 out0 0)) as [s [n|e]]; cbn [fst throw].
  - exact H.
  - destruct H as [Hw Hk]. split; [eexists; exact Hw | exact Hk].
Qed.

(** A slot that is covered is left alone. *)
Lemma sweepSlot_quiet (s1 : State) (med : Medication) (user : User) (slot : string) :
  slotTime slot <> None ->
  (pastGrace env user slot = true ->
   faults env (LogFindOne (m_id med) slot) = false /\
   resolved env (logs (db s1)) med user slot = true) ->
  sweepSlot env io med user (nowFor env user) slot s1 = (s1, Returned tt).
Proof.
  intros Hp Hr. unfold sweepSlot.
  assert (Hg : pastGrace env user slot
               = match slotTime slot with
                 | Some (h, m) => negb (Luxon.ts (nowFor env user)
                                          <=? Luxon.ts (missedThreshold (nowFor env user) h m))
                 | None => false
                 end).
  { unfold pastGrace. destruct (slotTime slot) as [[h m]|]; [apply Z.ltb_antisym | reflexivity]. }
  unfold slotTime in Hp, Hg.
  destruct (Js.hourMinute slot) as [hour minute].
  destruct (Luxon.checkedUnits (Js.Number hour) (Js.Number minute)) as [[h m]|];
    [|congruence].
  destruct (Luxon.ts (nowFor env user) <=? Luxon.ts (missedThreshold (nowFor env user) h m));
    [reflexivity|].
  destruct (Hr Hg) as [Hf Hres].
  unfold bind, await. rewrite Hf.
  unfold resolved in Hres.
  destruct (find _ (logs (db s1))) eqn:E; [reflexivity|].
  apply find_none_existsb in E. congruence.
Qed.

Lemma forOf_quiet {A} (s1 : State) (l : list A) (body : A -> M State unit) :
  (forall x, In x l -> body x s1 = (s1, Returned tt)) ->
  forOf l body s1 = (s1, Returned tt).
Proof.
  induction l as [|x l IH]; intros H; [reflexivity|].
  cbn [forOf]. unfold bind. rewrite (H x (or_introl eq_refl)).
  apply IH. intros y Hy. apply H. now right.
Qed.

(** A pass over a store whose targets are all covered writes nothing and
    counts nothing. *)
Lemma pass_quiet (out1 : list Signal) :
  faults env MedicationFind = false ->
  Covered env (targets db0) (logs db0) ->
  runAutomatedReaper env io (db0, out1) = ((db0, out1), Returned 0).
Proof.
  intros Hfind Hc. unfold runAutomatedReaper, tryCatch, pass. cbn [fst snd].
  unfold bind at 1. unfold await. rewrite Hfind. cbn [db].
  unfold bind at 1.
  rewrite forOf_quiet; [reflexivity|].
  intros [med [user|]] Hentry; [|reflexivity].
  unfold sweepMedication. apply forOf_quiet. intros slot Hslot.
  assert (Hin : In (med, user, slot) (targets db0)).
  { unfold targets, targetsOf. apply in_flat_map. exists (med, Some user).
    split; [assumption|]. cbn [fst snd]. apply in_map_iff. exists slot. auto. }
  destruct (Hc med user slot Hin) as [Hp Hr].
  apply (sweepSlot_quiet (mkState db0 out1 0) med user slot Hp Hr).
Qed.

End OnePass.

Lemma targets_spec (s : Store) (med : Medication) (user : User) (slot : string) :
  In (med, user, slot) (targets s) <->
  In med (meds s) /\ swept med = true /\ populateUser s (m_user med) = Some user /\
  In slot (m_timings med).
Proof.
  unfold targets, targetsOf, scheduledMedications. rewrite in_flat_map. split.
  - intros [[med' owner] [Hin Ht]]. apply in_map_iff in Hin.
    destruct Hin as [m [[= <- <-] Hm]]. apply filter_In in Hm. cbn [fst snd] in Ht.
    destruct (populateUser s (m_user m)) as [u|] eqn:Hu; [|destruct Ht].
    apply in_map_iff in Ht. destruct Ht as [sl [[= <- <- <-] Hsl]].
    tauto.
  - intros [Hm [Hs [Hu Hsl]]]. exists (med, Some user). split.
    + apply in_map_iff. exists med. rewrite Hu. split; [reflexivity|].
      apply filter_In. split; assumption.
    + cbn [fst snd]. apply in_map_iff. exists slot. auto.
Qed.

Lemma targets_same (s s' : Store) :
  users s' = users s -> meds s' = meds s -> targets s' = targets s.
Proof.
  intros Hu Hm. unfold targets, scheduledMedications, populateUser. now rewrite Hu, Hm.
Qed.

Lemma NoDup_map_injective {A B} (f : A -> B) (l : list A) (a b : A) :
  NoDup (map f l) -> In a l -> In b l -> f a = f b -> a = b.
Proof.
  induction l as [|x l IH]; intros Hnd Ha Hb Hf; [destruct Ha|].
  cbn in Hnd. inversion Hnd as [|? ? Hnotin Hnd']; subst.
  destruct Ha as [-> | Ha], Hb as [-> | Hb]; auto.
  - exfalso. apply Hnotin. rewrite Hf. now apply in_map.
  - exfalso. apply Hnotin. rewrite <- Hf. now apply in_map.
Qed.

End ReaperFacts.

(* ------------------------------------------------------------------ *)
(** ** Where a pass stops *)

Module AbortFacts.
Import Db Eff Reaper EffFacts ReaperFacts.

(** The entry the pass writes for a target. *)
Definition entryOfTarget (env : Env) (t : Target) : Log :=
  let '(med, user, slot) := t in missedLog env med user (nowFor env user) slot.

(** Why the pass can stop at a target: [set] rejects its slot string, or the
    slot is past its grace window and a store operation rejects. *)
Definition FailsAt (env : Env) (t : Target) : Prop :=
  let '(med, user, slot) := t in
  slotTime slot = None \/
  (pastGrace env user slot = true /\ exists op, faults env op = true).

(** The entries come from these targets. *)
Definition EntriesOf (env : Env) (ts : list Target) (new : list Log) : Prop :=
  Forall (fun e => exists t, In t ts /\ e = entryOfTarget env t) new.

Lemma EntriesOf_more (env : Env) (ts more : list Target) (new : list Log) :
  EntriesOf env ts new -> EntriesOf env (ts ++ more) new.
Proof.
  unfold EntriesOf. intros H. eapply Forall_impl; [|exact H].
  intros e [t [Hin ->]]. exists t. split; [apply in_or_app; now left | reflexivity].
Qed.

Lemma EntriesOf_snoc (env : Env) (ts : list Target) (t : Target) (new : list Log) :
  EntriesOf env ts new -> EntriesOf env (ts ++ [t]) (new ++ [entryOfTarget env t]).
Proof.
  intros H. apply Forall_app. split; [apply EntriesOf_more; assumption|].
  constructor; [|constructor]. exists t. split; [|reflexivity].
  apply in_or_app. right. left. reflexivity.
Qed.

Section Abort.
Variables (env : Env) (io : bool) (db0 : Store).

(** Between two targets: those done are covered, and the entries written
    are theirs. *)
Let Inv (done : list Target) (s : State) : Prop :=
  Covered env done (logs (db s)) /\
  exists new, logs (db s) = logs db0 ++ new /\ EntriesOf env done new.

(** The pass has thrown while it was at [bad], with [done] behind it. *)
Let StoppedAt (done : list Target) (bad : Target) (s : State) : Prop :=
  Covered env done (logs (db s)) /\ FailsAt env bad /\
  exists new, logs (db s) = logs db0 ++ new /\ EntriesOf env (done ++ [bad]) new.

Let Stopped (s : State) : Prop :=
  exists done bad rest, targets db0 = done ++ bad :: rest /\ StoppedAt done bad s.

(** The fan-out leaves the ledger alone, and throws only when an operation
    rejects. *)
Lemma fanOut_abort (P : Store -> Prop) (med : Medication) (user : User) (slot : string)
    (guardians : list (option User)) :
  triple (fun s => P (db s))
    (forOf guardians (alertGuardian env io med user slot))
    (fun _ s => P (db s))
    (fun s => P (db s) /\ exists op, faults env op = true).
Proof.
  apply (triple_forOf (fun _ s => P (db s))).
  intros pre g post _. unfold alertGuardian.
  destruct g as [g|]; [|apply triple_ret; auto].
  destruct (nonEmpty (u_email g)); [|apply triple_ret; auto].
  apply triple_bind with (R := fun _ s => P (db s)).
  - apply triple_await.
    + intros Hf s Hs. split; [assumption | eexists; exact Hf].
    + intros _. apply triple_modify. auto.
  - intros _. destruct io; [apply triple_modify | apply triple_ret]; auto.
Qed.

Lemma sweepSlot_abort (done : list Target) (med : Medication) (user : User) (slot : string) :
  triple (Inv done) (sweepSlot env io med user (nowFor env user) slot)
    (fun _ => Inv (done ++ [(med, user, slot)])) (StoppedAt done (med, user, slot)).
Proof.
  set (t := (med, user, slot)).
  assert (Hstop : forall s, Inv done s -> FailsAt env t -> StoppedAt done t s).
  { intros s [Hc [new [Hl Hnew]]] Hf. split; [assumption|]. split; [assumption|].
    exists new. split; [assumption | apply EntriesOf_more; assumption]. }
  unfold sweepSlot.
  destruct (Js.hourMinute slot) as [hour minute] eqn:Hhm.
  destruct (Luxon.checkedUnits (Js.Number hour) (Js.Number minute)) as [[h m]|] eqn:Hcu.
  2:{ apply triple_throw. intros s Hs. apply Hstop; [assumption|].
      left. unfold slotTime. now rewrite Hhm. }
  assert (Hst : slotTime slot = Some (h, m)) by (unfold slotTime; now rewrite Hhm).
  assert (Hgrace : pastGrace env user slot
                   = negb (Luxon.ts (nowFor env user)
                             <=? Luxon.ts (missedThreshold (nowFor env user) h m))).
  { unfold pastGrace. rewrite Hst. apply Z.ltb_antisym. }
  destruct (Luxon.ts (nowFor env user) <=? Luxon.ts (missedThreshold (nowFor env user) h m)).
  { apply triple_ret. intros s [Hc [new [Hl Hnew]]]. split.
    - apply Covered_snoc; [assumption | congruence |]. rewrite Hgrace. discriminate.
    - exists new. split; [assumption | apply EntriesOf_more; assumption]. }
  cbn [negb] in Hgrace.
  assert (Hfault : forall op, faults env op = true -> FailsAt env t).
  { intros op Hop. right. split; [assumption | exists op; assumption]. }
  apply triple_bind with
    (R := fun existing s => (faults env (LogFindOne (m_id med) slot) = false /\
            existing = find (resolvesToday (m_id med) slot
                               (Luxon.toJSDate (Luxon.startOfDay (nowFor env user)))
                               (Luxon.toJSDate (Luxon.endOfDay (nowFor env user))))
                         (logs (db s))) /\ Inv done s).
  { apply triple_await.
    - intros Hf s Hs. apply Hstop; [assumption | exact (Hfault _ Hf)].
    - intros Hf s Hs. cbn. auto. }
  intros existing.
  destruct existing as [found|].
  { apply triple_ret. intros s [[Hfind Hex] [Hc [new [Hl Hnew]]]]. split.
    - apply Covered_snoc; [assumption | congruence |]. intros _. split; [assumption|].
      symmetry in Hex. apply find_some_existsb in Hex. exact Hex.
    - exists new. split; [assumption | apply EntriesOf_more; assumption]. }
  rewrite (slotTime_nonEmpty _ _ Hst).
  (* from here on the entry is written *)
  set (Wrote := fun (s : State) =>
         Covered env (done ++ [t]) (logs (db s)) /\
         exists new, logs (db s) = logs db0 ++ new /\ EntriesOf env (done ++ [t]) new).
  assert (Hlate : forall s, Wrote s -> (exists op, faults env op = true) -> StoppedAt done t s).
  { intros s [Hc [new [Hl Hnew]]] [op Hop]. split.
    - intros med' user' slot' Hin. apply Hc. apply in_or_app. now left.
    - split; [exact (Hfault _ Hop)|]. exists new. auto. }
  apply triple_bind with (R := fun _ => Wrote).
  { apply triple_await.
    - intros Hf s [_ Hs]. apply Hstop; [assumption | exact (Hfault _ Hf)].
    - intros _. apply triple_modify. intros s [[Hfind Hex] [Hc [new [Hl Hnew]]]].
      unfold Wrote. cbn [db]. unfold setLogs. cbn [logs]. split.
      + apply Covered_snoc.
        * apply Covered_mono. assumption.
        * congruence.
        * intros _. split; [assumption|]. rewrite resolved_app.
          unfold resolved at 2. cbn [existsb].
          rewrite missedLog_resolves by reflexivity. apply orb_true_r.
      + exists (new ++ [entryOfTarget env t]). split.
        * rewrite Hl, <- app_assoc. reflexivity.
        * apply EntriesOf_snoc. assumption. }
  intros _. apply triple_bind with (R := fun _ => Wrote).
  { apply triple_modify. intros s Hs. exact Hs. }
  intros _. apply triple_bind with (R := fun _ => Wrote).
  { apply triple_await.
    - intros Hf s Hs. apply Hlate; [assumption | eexists; exact Hf].
    - intros _ s Hs. cbn. exact Hs. }
  intros guardians.
  apply triple_weaken with
    (P' := fun s => (fun d => Covered env (done ++ [t]) (logs d) /\
                     exists new, logs d = logs db0 ++ new /\
                                 EntriesOf env (done ++ [t]) new) (db s))
    (Q' := fun _ s => (fun d => Covered env (done ++ [t]) (logs d) /\
                       exists new, logs d = logs db0 ++ new /\
                                   EntriesOf env (done ++ [t]) new) (db s))
    (E' := fun s => (fun d => Covered env (done ++ [t]) (logs d) /\
                     exists new, logs d = logs db0 ++ new /\
                                 EntriesOf env (done ++ [t]) new) (db s)
                    /\ exists op, faults env op = true); auto.
  - apply (fanOut_abort (fun d => Covered env (done ++ [t]) (logs d) /\
                           exists new, logs d = logs db0 ++ new /\
                                       EntriesOf env (done ++ [t]) new)).
  - intros s [Hs Hop]. apply Hlate; assumption.
Qed.

Lemma targets_position (pre post : list (Medication * option User)) (med : Medication)
    (user : User) (spre spost : list string) (slot : string) :
  scheduledMedications db0 = pre ++ (med, Some user) :: post ->
  m_timings med = spre ++ slot :: spost ->
  targets db0
  = (targetsOf pre ++ map (fun slot => (med, user, slot)) spre)
    ++ (med, user, slot) :: (map (fun slot => (med, user, slot)) spost ++ targetsOf post).
Proof.
  intros Hfound Hslots. unfold targets, targetsOf.
  rewrite Hfound, flat_map_app. cbn [flat_map fst snd].
  rewrite Hslots, map_app. cbn [map]. rewrite <- !app_assoc. reflexivity.
Qed.

Lemma sweepMedication_abort (pre post : list (Medication * option User))
    (entry : Medication * option User) :
  scheduledMedications db0 = pre ++ entry :: post ->
  triple (Inv (targetsOf pre)) (sweepMedication env io entry)
    (fun _ => Inv (targetsOf (pre ++ [entry]))) Stopped.
Proof.
  intros Hfound. destruct entry as [med [user|]]; unfold sweepMedication.
  - assert (Hdone : targetsOf (pre ++ [(med, Some user)])
                    = targetsOf pre ++ map (fun slot => (med, user, slot)) (m_timings med)).
    { unfold targetsOf. rewrite flat_map_app. cbn. now rewrite app_nil_r. }
    rewrite Hdone.
    replace (Inv (targetsOf pre))
      with (Inv (targetsOf pre ++ map (fun slot => (med, user, slot)) []))
      by (cbn [map]; now rewrite app_nil_r).
    apply (triple_forOf
             (fun slots => Inv (targetsOf pre ++ map (fun slot => (med, user, slot)) slots))
             Stopped (m_timings med)
             (sweepSlot env io med user (Luxon.setZone (clock env) (timezoneOf user)))).
    intros spre slot spost Hslots. rewrite map_app, app_assoc. cbn [map].
    set (D := targetsOf pre ++ map (fun slot0 => (med, user, slot0)) spre).
    apply triple_weaken with (P' := Inv D) (Q' := fun _ => Inv (D ++ [(med, user, slot)]))
      (E' := StoppedAt D (med, user, slot)); [apply sweepSlot_abort | auto | auto |].
    intros s Hs. exists D, (med, user, slot). eexists. split; [|exact Hs]. unfold D.
    apply (targets_position pre post med user spre spost slot Hfound Hslots).
  - assert (Hdone : targetsOf (pre ++ [(med, None)]) = targetsOf pre).
    { unfold targetsOf. rewrite flat_map_app. cbn. now rewrite app_nil_r. }
    rewrite Hdone. apply triple_ret. auto.
Qed.

Lemma pass_abort (out0 : list Signal) :
  triple (fun s => s = mkState db0 out0 0) (pass env io)
    (fun _ _ => True)
    (fun s => (faults env MedicationFind = true /\ s = mkState db0 out0 0) \/
              (faults env MedicationFind = false /\ Stopped s)).
Proof.
  unfold pass.
  apply triple_bind with
    (R := fun found s => (faults env MedicationFind = false /\
                          found = scheduledMedications db0) /\ Inv [] s).
  { apply triple_await.
    - intros Hf s ->. left. auto.
    - intros Hf s ->. cbn.
      split; [split; [assumption | reflexivity]|].
      split; [intros med user slot []|]. exists []. rewrite app_nil_r.
      split; [reflexivity | constructor]. }
  intros found. apply triple_assume. intros [Hfind ->].
  apply triple_bind with (R := fun _ _ => True).
  { eapply triple_weaken with (P' := Inv (targetsOf [])) (Q' := fun _ => Inv (targets db0))
      (E' := Stopped); auto.
    apply (triple_forOf (fun pre => Inv (targetsOf pre)) Stopped).
    intros pre entry post Hfound. apply (sweepMedication_abort pre post entry Hfound). }
  intros _ s _. cbn. exact I.
Qed.

(** [runAutomatedReaper] when it throws: either the enumeration was rejected
    and nothing happened, or the pass stopped at one target [bad]: the
    targets before it are covered, and every entry written is the entry of
    one of them or of [bad]; the targets after it were not looked at. *)
Lemma reaper_abort (out0 : list Signal) :
  let '(w1, r) := runAutomatedReaper env io (db0, out0) in
  match r with
  | Returned _ => True
  | Thrown _ =>
      (faults env MedicationFind = true /\ w1 = (db0, out0)) \/
      (faults env MedicationFind = false /\
       exists done bad rest new,
         targets db0 = done ++ bad :: rest /\
         logs (fst w1) = logs db0 ++ new /\
         Covered env done (logs (fst w1)) /\ FailsAt env bad /\
         EntriesOf env (done ++ [bad]) new)
  end.
Proof.
  unfold runAutomatedReaper, tryCatch. cbn [fst snd].
  pose proof (pass_abort out0 (mkState db0 out0 0) eq_refl) as H.
  destruct (pass env io (mkState db0 out0 0)) as [s [n|e]]; cbn [fst throw]; [exact I|].
  destruct H as [[Hf ->] | [Hf [done [bad [rest [Ht [Hc [Hb [new [Hl Hnew]]]]]]]]]].
  - left. auto.
  - right. split; [assumption|]. exists done, bad, rest, new. auto.
Qed.

End Abort.

End AbortFacts.

(* ------------------------------------------------------------------ *)
(** ** What a sweep pass guarantees *)

Module SweepFacts.
Import Db Eff Reaper EffFacts ReaperFacts AbortFacts.

(** *** Concrete wards *)

Definition noon : Z := 20000 * 86400000 + 12 * 3600000.

Definition asha : User := mkUser 1 "Asha" "asha@example.org" None.
Definition gita : User := mkUser 2 "Gita" "gita@example.org" (Some 330).

Definition ward (l : list Medication) : Store :=
  mkStore [asha; gita] l [] [] [mkConnection 1 2 active].

Definition statin : Medication :=
  mkMedication 10 1 "Atorvastatin" scheduled ["08:00"] 30 10 true false.

(** A medication that is paused but not deleted. *)
Definition paused : Medication :=
  mkMedication 11 1 "Warfarin" scheduled ["08:00"] 30 10 false false.

(** A medication with a slot string [set] rejects. *)
Definition garbled : Medication :=
  mkMedication 12 1 "Insulin" scheduled ["8am"] 30 10 true false.

Definition atNoon : Env := mkEnv noon 0 noFaults.

(** *** C6 *)

Lemma resolved_same_day (env env' : Env) (ledger : list Log) (med : Medication)
    (user : User) (slot : string) :
  Luxon.sameLocalDay (timezoneOf user) (clock env) (clock env') ->
  resolved env' ledger med user slot = resolved env ledger med user slot.
Proof.
  unfold Luxon.sameLocalDay. intros Hday.
  pose proof (LuxonFacts.same_day_bounds _ _ _ Hday) as Hend.
  unfold resolved, nowFor, Luxon.toJSDate. now rewrite Hday, Hend.
Qed.

(** C6, as stated, fails.  A second pass does not always return 0: a pass at
    09:59 finds the 08:00 slot still within its grace window and returns 0,
    and the next pass, at 10:01, with nothing recorded in between, writes
    the missed entry and returns 1.  Nor does a first pass always return a
    count: with a slot string [set] rejects it throws. *)
Lemma later_pass_finds_a_newly_overdue_slot :
  let before := mkEnv (noon - 2 * 3600000 - 60000) 0 noFaults in
  let after := mkEnv (noon - 2 * 3600000 + 60000) 0 noFaults in
  let first := runAutomatedReaper before false (ward [statin], []) in
  let second := runAutomatedReaper after false (fst first) in
  first = ((ward [statin], []), Returned 0) /\
  snd second = Returned 1 /\
  map (fun e => (l_medication e, l_scheduledTime e, l_status e)) (logs (fst (fst second)))
    = [(10%nat, "08:00", missed)] /\
  exists e, runAutomatedReaper atNoon false (ward [garbled; statin], [])
            = ((ward [garbled; statin], []), Thrown e).
Proof.
  cbv zeta. split; [vm_compute; reflexivity|]. split; [vm_compute; reflexivity|].
  split; [vm_compute; reflexivity|]. eexists. vm_compute. reflexivity.
Qed.

(** C6 (amended): for owners in zones of constant offset and slot strings
    that convert exactly, a pass that returned a count [n] is followed, with
    no recorder activity in between,
    by a pass that returns 0 and leaves the store and the outbox untouched:
    at the same clock reading, and also at a later one as long as no slot has
    come to the end of its grace window meanwhile and no owner has passed
    midnight.  And a pass does return a count, not negative, when no store
    operation rejects and [set] takes every slot string of the medications
    it sweeps. *)
Theorem second_pass_finds_nothing (env : Env) (io : bool) (w : Store * list Signal) :
  PlainSlots (fst w) ->
  (forall n w1, runAutomatedReaper env io w = (w1, Returned n) ->
     runAutomatedReaper env io w1 = (w1, Returned 0) /\
     forall env' io',
       faults env' MedicationFind = false ->
       (forall med user slot, In (med, user, slot) (targets (fst w)) ->
          pastGrace env' user slot = true ->
          pastGrace env user slot = true /\
          faults env' (LogFindOne (m_id med) slot) = false /\
          Luxon.sameLocalDay (timezoneOf user) (clock env) (clock env')) ->
       runAutomatedReaper env' io' w1 = (w1, Returned 0)) /\
  ((forall op, faults env op = false) ->
   (forall med user slot, In (med, user, slot) (targets (fst w)) -> slotTime slot <> None) ->
   exists n w1, runAutomatedReaper env io w = (w1, Returned n) /\ 0 <= n /\
                runAutomatedReaper env io w1 = (w1, Returned 0)).
Proof.
  intros _. destruct w as [db0 out0]. cbn [fst].
  assert (Hquiet : forall n w1, runAutomatedReaper env io (db0, out0) = (w1, Returned n) ->
            0 <= n /\
            forall env' io',
              faults env' MedicationFind = false ->
              (forall med user slot, In (med, user, slot) (targets db0) ->
                 pastGrace env' user slot = true ->
                 pastGrace env user slot = true /\
                 faults env' (LogFindOne (m_id med) slot) = false /\
                 Luxon.sameLocalDay (timezoneOf user) (clock env) (clock env')) ->
              runAutomatedReaper env' io' w1 = (w1, Returned 0)).
  { intros n [db1 out1] Hrun.
    pose proof (reaper_outcome env io db0 out0) as H. rewrite Hrun in H.
    cbn [fst] in H. destruct H as [Hw [Hc Hfind]].
    destruct Hw as [Hu [Hm [_ [_ [new [_ [Hn _]]]]]]].
    split; [lia|]. intros env' io' Hfind' Hlater.
    apply pass_quiet; [assumption|].
    rewrite (targets_same db0 db1 Hu Hm).
    intros med user slot Hin. destruct (Hc med user slot Hin) as [Hp Hr].
    split; [assumption|]. intros Hg'.
    destruct (Hlater med user slot Hin Hg') as [Hg [Hf' Hday]].
    split; [assumption|].
    rewrite (resolved_same_day env env' _ _ _ _ Hday). apply (Hr Hg). }
  assert (Hsame : forall n w1, runAutomatedReaper env io (db0, out0) = (w1, Returned n) ->
            runAutomatedReaper env io w1 = (w1, Returned 0)).
  { intros n w1 Hrun. destruct (Hquiet n w1 Hrun) as [_ Hq].
    pose proof (reaper_outcome env io db0 out0) as H. rewrite Hrun in H.
    destruct H as [_ [Hc Hfind]].
    apply Hq; [assumption|]. intros med user slot Hin Hg.
    destruct (Hc med user slot Hin) as [_ Hr]. destruct (Hr Hg) as [Hf _].
    repeat split; auto. }
  split.
  - intros n w1 Hrun. split; [apply (Hsame n w1 Hrun) | apply (Hquiet n w1 Hrun)].
  - intros Hnf Hwf.
    pose proof (reaper_outcome env io db0 out0) as H.
    destruct (runAutomatedReaper env io (db0, out0)) as [w1 [n|e]] eqn:Hrun.
    + exists n, w1. split; [reflexivity|].
      split; [apply (Hquiet n w1 eq_refl) | apply (Hsame n w1 eq_refl)].
    + exfalso. destruct H as [_ [[med [user [slot [Hin Hbad]]]] | [op Hop]]].
      * exact (Hwf med user slot Hin Hbad).
      * rewrite Hnf in Hop. discriminate.
Qed.

Lemma second_pass_finds_nothing_witness :
  exists w1, runAutomatedReaper atNoon true (ward [statin], []) = (w1, Returned 1) /\
             runAutomatedReaper atNoon true w1 = (w1, Returned 0).
Proof.
  eexists. split; [vm_compute; reflexivity|].
  refine (proj1 (proj1 (second_pass_finds_nothing atNoon true (ward [statin], [])
                          ltac:(apply PlainSlots_check; vm_compute; reflexivity)) 1 _ _)).
  vm_compute. reflexivity.
Defined.

(** *** C7 *)

(** C7, as stated, fails: a medication with a slot string that [set]
    rejects, found before a medication whose 08:00 slot is overdue and
    unresolved, makes the pass throw; the second medication is not
    processed, nothing is written and no count is returned. *)
Lemma one_bad_slot_aborts_the_pass :
  runAutomatedReaper atNoon false (ward [garbled; statin], [])
    = ((ward [garbled; statin], []), Thrown (Err "Invalid unit value NaN")) /\
  In (statin, asha, "08:00") (targets (ward [garbled; statin])) /\
  pastGrace atNoon asha "08:00" = true /\
  resolved atNoon (logs (ward [garbled; statin])) statin asha "08:00" = false.
Proof. vm_compute. repeat split. right. left. reflexivity. Qed.

(** C7 (amended), for a pass started by the worker (with no socket server
    or with one), owners in zones of constant offset and slot strings that
    convert exactly: failures are not isolated.  A pass returns a count only when the enumeration and every
    slot of every swept medication went through without a failure, and the
    count is then the number of missed entries it appended.  Any failure is
    rethrown by the single outer handler and ends the pass where it
    happened: a rejected enumeration leaves everything as it was; otherwise
    the pass stopped at one slot of one medication, because [set] rejected
    its slot string or because a store operation rejected while that slot
    was overdue, the slots before it were handled, and every entry written
    belongs to one of them or to the slot it stopped at, so that no slot
    after it was processed.  No count is returned. *)
Theorem pass_failure_is_not_isolated (env : Env) (io : bool) (w : Store * list Signal) :
  PlainSlots (fst w) ->
  let '(w1, r) := runAutomatedReaper env io w in
  match r with
  | Returned n =>
      (exists new, logs (fst w1) = logs (fst w) ++ new /\ n = Z.of_nat (List.length new) /\
                   Forall (fun e => l_status e = missed) new) /\
      (forall med user slot, In (med, user, slot) (targets (fst w)) ->
         slotTime slot <> None /\
         (pastGrace env user slot = true ->
          faults env (LogFindOne (m_id med) slot) = false)) /\
      faults env MedicationFind = false
  | Thrown _ =>
      (faults env MedicationFind = true /\ w1 = w) \/
      (faults env MedicationFind = false /\
       exists done bad rest new,
         targets (fst w) = done ++ bad :: rest /\
         logs (fst w1) = logs (fst w) ++ new /\
         (forall med user slot, In (med, user, slot) done ->
            slotTime slot <> None /\
            (pastGrace env user slot = true ->
             resolved env (logs (fst w1)) med user slot = true)) /\
         FailsAt env bad /\
         Forall (fun e => exists t, In t (done ++ [bad]) /\ e = entryOfTarget env t) new /\
         Forall (fun e => l_status e = missed) new)
  end.
Proof.
  intros _. destruct w as [db0 out0]. cbn [fst].
  pose proof (reaper_outcome env io db0 out0) as H.
  pose proof (reaper_abort env io db0 out0) as Habort.
  destruct (runAutomatedReaper env io (db0, out0)) as [w1 [n|e]] eqn:Hrun.
  - destruct H as [[_ [_ [_ [_ [new [Hl [Hn [_ Hall]]]]]]]] [Hc Hfind]].
    split; [|split; [|assumption]].
    + exists new. repeat split; auto.
      eapply Forall_impl; [|exact Hall].
      intros e [med [user [slot [_ [-> _]]]]]. reflexivity.
    + intros med user slot Hin. destruct (Hc med user slot Hin) as [Hp Hr].
      split; [assumption|]. intros Hg. apply (Hr Hg).
  - destruct Habort as [Hfirst | [Hf [done [bad [rest [new [Ht [Hl [Hc [Hb Hnew]]]]]]]]]].
    + left. exact Hfirst.
    + right. split; [assumption|]. exists done, bad, rest, new.
      split; [assumption|]. split; [assumption|]. split.
      * intros med user slot Hin. destruct (Hc med user slot Hin) as [Hp Hr].
        split; [assumption|]. intros Hg. apply (Hr Hg).
      * split; [assumption|]. split; [assumption|].
        eapply Forall_impl; [|exact Hnew].
        intros e0 [[[med user] slot] [_ ->]]. reflexivity.
Qed.

(** The pass over a ward whose first medication has a slot string [set]
    rejects stops there, with nothing written. *)
Lemma pass_failure_is_not_isolated_witness :
  exists bad rest,
    targets (ward [garbled; statin]) = bad :: rest /\ FailsAt atNoon bad /\
    logs (fst (fst (runAutomatedReaper atNoon false (ward [garbled; statin], [])))) = [].
Proof.
  pose proof (pass_failure_is_not_isolated atNoon false (ward [garbled; statin], [])
                ltac:(apply PlainSlots_check; vm_compute; reflexivity)) as H.
  assert (E : runAutomatedReaper atNoon false (ward [garbled; statin], [])
              = ((ward [garbled; statin], []), Thrown (Err "Invalid unit value NaN")))
    by (vm_compute; reflexivity).
  rewrite E in H. cbn [fst] in H.
  destruct H as [[F _] | [_ [done [bad [rest [new [Ht [_ [Hdone [Hb _]]]]]]]]]];
    [discriminate F|].
  destruct done as [|[[med user] slot] done].
  - exists bad, rest. rewrite E. repeat split; assumption.
  - exfalso. destruct (Hdone med user slot (or_introl eq_refl)) as [Hst _].
    apply Hst. vm_compute in Ht. injection Ht as Hm Hu Hs _. subst. reflexivity.
Defined.

(** *** C10 *)




(** A 20:00 slot nobody resolved, looked at by the first pass of the next
    day, at 01:00: its grace window ended at 22:00 of a day the pass no
    longer considers, and nothing is written for it. *)
Definition evening : Medication :=
  mkMedication 13 1 "Melatonin" scheduled ["20:00"] 30 10 true false.

Example yesterdays_slot_is_not_revisited :
  runAutomatedReaper (mkEnv (noon + 13 * 3600000) 0 noFaults) false (ward [evening], [])
    = ((ward [evening], []), Returned 0).
Proof. vm_compute. reflexivity. Qed.

(** *** C5 *)

(** C5, as stated, fails: a medication that is inactive, though scheduled
    and not deleted, is swept, and its overdue 08:00 slot gets a missed
    entry. *)
Lemma inactive_medication_is_swept :
  m_isActive paused = false /\
  snd (runAutomatedReaper atNoon false (ward [paused], [])) = Returned 1 /\
  map (fun e => (l_medication e, l_scheduledTime e, l_status e))
    (logs (fst (fst (runAutomatedReaper atNoon false (ward [paused], [])))))
    = [(11%nat, "08:00", missed)].
Proof. vm_compute. repeat split. Qed.

(** C5 (amended): in a pass that returns, over a store whose medications
    have distinct ids and whose slot strings convert exactly, for owners in
    a zone of constant offset, the entries appended are missed entries, and for
    every non-deleted, scheduled medication whose owner record resolves and
    each of its slots, an entry for that medication and slot is appended if
    and only if now in the owner's zone is strictly past today's slot
    instant plus two hours and the ledger held no entry for that medication
    and slot created within the owner's current local day.  Nothing is
    appended for a medication that is deleted, not scheduled, or whose owner
    is gone. *)
Theorem sweep_writes_exactly_the_overdue_unresolved (env : Env) (io : bool)
    (w w1 : Store * list Signal) (n : Z) :
  PlainSlots (fst w) ->
  NoDup (map m_id (meds (fst w))) ->
  runAutomatedReaper env io w = (w1, Returned n) ->
  exists new, logs (fst w1) = logs (fst w) ++ new /\
    Forall (fun e => l_status e = missed /\ l_adherenceStatus e = adherence_missed) new /\
    forall med, In med (meds (fst w)) ->
      (forall user slot,
         m_isDeleted med = false -> m_medType med = scheduled ->
         populateUser (fst w) (m_user med) = Some user -> In slot (m_timings med) ->
         ((exists e, In e new /\ l_medication e = m_id med /\ l_scheduledTime e = slot) <->
          (pastGrace env user slot = true /\
           resolved env (logs (fst w)) med user slot = false))) /\
      (m_isDeleted med = true \/ m_medType med = prn \/
       populateUser (fst w) (m_user med) = None ->
       forall e, In e new -> l_medication e <> m_id med).
Proof.
  destruct w as [db0 out0]. cbn [fst]. intros _ Hids Hrun.
  pose proof (reaper_outcome env io db0 out0) as H. rewrite Hrun in H.
  destruct H as [[_ [_ [_ [_ [new [Hl [_ [_ Hall]]]]]]]] [Hc _]].
  rewrite Forall_forall in Hall.
  (* an appended entry for the id of [med] was produced from [med] itself *)
  assert (Horigin : forall med e, In med (meds db0) -> In e new -> l_medication e = m_id med ->
            exists user, In (med, user, l_scheduledTime e) (targets db0) /\
                         pastGrace env user (l_scheduledTime e) = true /\
                         resolved env (logs db0) med user (l_scheduledTime e) = false).
  { intros med e Hmed He Hid.
    destruct (Hall e He) as [med' [user' [slot' [Hin [-> [Hg Hres]]]]]].
    cbn [missedLog l_medication l_scheduledTime] in *.
    assert (med' = med) as ->.
    { apply (NoDup_map_injective m_id (meds db0)); auto.
      apply targets_spec in Hin. tauto. }
    exists user'. auto. }
  exists new. split; [assumption|]. split.
  - apply Forall_forall. intros e He.
    destruct (Hall e He) as [med [user [slot [_ [-> _]]]]]. split; reflexivity.
  - intros med Hmed. split.
    + intros user slot Hdel Hty Hpop Hslot.
      assert (Hin : In (med, user, slot) (targets db0)).
      { apply targets_spec. unfold swept. rewrite Hdel, Hty. auto. }
      split.
      * intros [e [He [Hid <-]]].
        destruct (Horigin med e Hmed He Hid) as [user' [Hin' [Hg Hres]]].
        apply targets_spec in Hin'. destruct Hin' as [_ [_ [Hpop' _]]].
        assert (user' = user) as -> by congruence. auto.
      * intros [Hg Hres]. destruct (Hc med user slot Hin) as [_ Hr].
        destruct (Hr Hg) as [_ Hres1]. rewrite Hl, resolved_app, Hres in Hres1.
        cbn [orb] in Hres1. unfold resolved in Hres1.
        apply existsb_exists in Hres1. destruct Hres1 as [e [He Hmatch]].
        apply resolvesToday_key in Hmatch. unfold key in Hmatch.
        injection Hmatch as Hid Hsl. exists e. auto.
    + intros Hnot e He Hid.
      destruct (Horigin med e Hmed He Hid) as [user [Hin _]].
      apply targets_spec in Hin. destruct Hin as [_ [Hsw [Hpop _]]].
      unfold swept in Hsw. apply andb_prop in Hsw. destruct Hsw as [Hdel Hty].
      apply negb_true_iff in Hdel.
      destruct Hnot as [Hd | [Hp | Hn]]; try congruence.
      rewrite Hp in Hty. discriminate.
Qed.

Lemma sweep_writes_exactly_the_overdue_unresolved_witness :
  exists e,
    In e (logs (fst (fst (runAutomatedReaper atNoon false (ward [statin], []))))) /\
    l_medication e = 10%nat /\ l_scheduledTime e = "08:00".
Proof.
  destruct (sweep_writes_exactly_the_overdue_unresolved atNoon false
              (ward [statin], [])
              (fst (runAutomatedReaper atNoon false (ward [statin], []))) 1
              ltac:(apply PlainSlots_check; vm_compute; reflexivity)
              ltac:(repeat constructor; intros [])
              ltac:(vm_compute; reflexivity))
    as [new [Hl [_ Hmeds]]].
  destruct (Hmeds statin (or_introl eq_refl)) as [Hiff _].
  destruct (proj2 (Hiff asha "08:00" eq_refl eq_refl eq_refl (or_introl eq_refl)))
    as [e [He [Hid Hsl]]].
  - split; vm_compute; reflexivity.
  - exists e. split; [|split; assumption].
    rewrite Hl. apply in_or_app. right. exact He.
Defined.

(** *** C1 *)

(** The ledger invariant of the data model: for a medication, read in its
    owner's zone, no slot has two entries created within one local day. *)
Definition OnePerSlotDay (s : Store) : Prop :=
  forall med user, In med (meds s) -> populateUser s (m_user med) = Some user ->
    forall slot t,
      (List.length
         (filter (resolvesToday (m_id med) slot
                    (Luxon.ts (Luxon.startOfDay (Luxon.setZone t (timezoneOf user))))
                    (Luxon.ts (Luxon.endOfDay (Luxon.setZone t (timezoneOf user)))))
            (logs s)) <= 1)%nat.

(** A run of sweep passes, each with its own clock reading and fault plan,
    one after the other. *)
Definition sweeps (passes : list (Env * bool)) (w : Store * list Signal)
    : Store * list Signal :=
  fold_left (fun w p => fst (runAutomatedReaper (fst p) (snd p) w)) passes w.

Lemma filter_nil_existsb {A} (f : A -> bool) (l : list A) :
  existsb f l = false -> filter f l = [].
Proof.
  induction l as [|x l IH]; cbn; [reflexivity|].
  destruct (f x); cbn; [discriminate | exact IH].
Qed.

Lemma filter_one_key (f : Log -> bool) (k : nat * string) (l : list Log) :
  NoDup (map key l) -> (forall e, In e l -> f e = true -> key e = k) ->
  (List.length (filter f l) <= 1)%nat.
Proof.
  induction l as [|x l IH]; intros Hnd Hk; cbn [filter]; [cbn; lia|].
  cbn [map] in Hnd. inversion Hnd as [|? ? Hnotin Hnd']; subst.
  destruct (f x) eqn:Hx.
  - assert (Hrest : filter f l = []).
    { apply filter_nil_existsb. apply not_true_iff_false. intros Hex.
      apply existsb_exists in Hex. destruct Hex as [y [Hy Hfy]].
      apply Hnotin. rewrite (Hk x (or_introl eq_refl) Hx).
      rewrite <- (Hk y (or_intror Hy) Hfy). now apply in_map. }
    rewrite Hrest. cbn. lia.
  - apply IH; [assumption|]. intros e He. apply Hk. now right.
Qed.

Lemma Written_keeps_one_per_slot_day (env : Env) (db0 db1 : Store) (n : Z) :
  NoDup (map m_id (meds db0)) -> OnePerSlotDay db0 -> Written env db0 db1 n ->
  NoDup (map m_id (meds db1)) /\ OnePerSlotDay db1.
Proof.
  intros Hids Hone [Hu [Hm [_ [_ [new [Hl [_ [Hnd Hall]]]]]]]].
  split; [now rewrite Hm|].
  intros med user Hmed Hpop slot t.
  rewrite Hm in Hmed. unfold populateUser in Hpop. rewrite Hu in Hpop.
  fold (populateUser db0 (m_user med)) in Hpop.
  rewrite Hl, filter_app, length_app.
  set (F := resolvesToday (m_id med) slot
              (Luxon.ts (Luxon.startOfDay (Luxon.setZone t (timezoneOf user))))
              (Luxon.ts (Luxon.endOfDay (Luxon.setZone t (timezoneOf user))))).
  assert (Hnew : (List.length (filter F new) <= 1)%nat).
  { apply (filter_one_key F (m_id med, slot)); [assumption|].
    intros e _ He. apply (resolvesToday_key _ _ _ _ _ He). }
  destruct (existsb F new) eqn:Hex.
  - (* an entry of this pass falls in the day of [t]: that day is today *)
    apply existsb_exists in Hex. destruct Hex as [e [He HF]].
    rewrite Forall_forall in Hall.
    destruct (Hall e He) as [med' [user' [slot' [Hin [-> [_ Hres]]]]]].
    pose proof (resolvesToday_key _ _ _ _ _ HF) as Hkey. unfold key in Hkey.
    cbn [missedLog l_medication l_scheduledTime] in Hkey. injection Hkey as Hid Hsl.
    subst slot'. apply targets_spec in Hin. destruct Hin as [Hmed' [_ [Hpop' _]]].
    assert (med' = med) as -> by (apply (NoDup_map_injective m_id (meds db0)); auto).
    assert (user' = user) as -> by congruence.
    unfold F, resolvesToday in HF. cbn [missedLog l_createdAt] in HF.
    apply andb_prop in HF. destruct HF as [HF Hhi].
    apply andb_prop in HF. destruct HF as [_ Hlo].
    apply Z.leb_le in Hlo. apply Z.leb_le in Hhi.
    pose proof (LuxonFacts.within_day_same_day (timezoneOf user) (clock env) t
                  (conj Hlo Hhi)) as Hday.
    pose proof (LuxonFacts.same_day_bounds _ _ _ Hday) as Hend.
    assert (Hold : filter F (logs db0) = []).
    { apply filter_nil_existsb. unfold F. rewrite <- Hday, <- Hend. exact Hres. }
    rewrite Hold. cbn [List.length]. lia.
  - rewrite (filter_nil_existsb _ _ Hex). cbn [List.length].
    specialize (Hone med user Hmed Hpop slot t). fold F in Hone. lia.
Qed.

Lemma pass_keeps_one_per_slot_day (env : Env) (io : bool) (w : Store * list Signal) :
  NoDup (map m_id (meds (fst w))) -> OnePerSlotDay (fst w) ->
  NoDup (map m_id (meds (fst (fst (runAutomatedReaper env io w))))) /\
  OnePerSlotDay (fst (fst (runAutomatedReaper env io w))).
Proof.
  destruct w as [db0 out0]. cbn [fst]. intros Hids Hone.
  pose proof (reaper_outcome env io db0 out0) as H.
  destruct (runAutomatedReaper env io (db0, out0)) as [w1 [n|e]]; cbn [fst] in *.
  - destruct H as [Hw _]. apply (Written_keeps_one_per_slot_day env db0 _ n Hids Hone Hw).
  - destruct H as [[n Hw] _].
    apply (Written_keeps_one_per_slot_day env db0 _ n Hids Hone Hw).
Qed.

(** C1, as stated, fails, already without any overlap: the sweeper writes
    the missed entry of the 08:00 slot at noon, and half an hour later the
    recorder accepts a taken report for the same slot, since its guard only
    looks for a taken entry of the last ten minutes.  The ledger then holds
    two entries, missed and taken, for one slot-instance. *)
Lemma sweep_then_report_doubles_the_slot :
  let afterSweep := fst (fst (runAutomatedReaper atNoon false (ward [statin], []))) in
  let reported := Recorder.logDose (mkEnv (noon + 30 * 60000) 0 noFaults)
                    (Recorder.mkRequest asha 10 "08:00" (Recorder.Reported taken)) afterSweep in
  OnePerSlotDay (ward [statin]) /\
  Recorder.statusCode (snd reported) = 201 /\
  map (fun e => (l_medication e, l_scheduledTime e, l_status e)) (logs (fst reported))
    = [(10%nat, "08:00", missed); (10%nat, "08:00", taken)] /\
  ~ OnePerSlotDay (fst reported).
Proof.
  split; [|split; [|split]].
  - intros med user _ _ slot t. cbn. lia.
  - vm_compute. reflexivity.
  - vm_compute. reflexivity.
  - intros H.
    specialize (H (incRemaining (-1) statin) asha (or_introl eq_refl) eq_refl "08:00" noon).
    vm_compute in H. lia.
Qed.

(** C1 (amended): sweep passes run one after the other, at any clock
    readings and under any fault plans, with no recorder call in between,
    keep the ledger at one entry at most per medication, slot and owner-local
    day, for a store whose medications have distinct ids: each insert of the
    sweeper is preceded by its existence check.  The recorder checks only
    for a taken entry of the last ten minutes and gives no such guarantee. *)
Theorem sweeps_keep_one_entry_per_slot_day (passes : list (Env * bool))
    (w : Store * list Signal) :
  NoDup (map m_id (meds (fst w))) -> OnePerSlotDay (fst w) ->
  OnePerSlotDay (fst (sweeps passes w)).
Proof.
  revert w. induction passes as [|[env io] passes IH]; intros w Hids Hone; [exact Hone|].
  cbn [sweeps fold_left fst snd].
  destruct (pass_keeps_one_per_slot_day env io w Hids Hone) as [Hids' Hone'].
  apply IH; assumption.
Qed.

(** Three passes over the same ward: at noon, an hour later, and at noon of
    the next day. *)
Lemma sweeps_keep_one_entry_per_slot_day_witness :
  OnePerSlotDay
    (fst (sweeps [(atNoon, false); (mkEnv (noon + 3600000) 0 noFaults, true);
                  (mkEnv (noon + 86400000) 0 noFaults, false)]
            (ward [statin], []))).
Proof.
  apply sweeps_keep_one_entry_per_slot_day.
  - cbn. repeat constructor. intros [].
  - intros med user _ _ slot t. cbn. lia.
Defined.

End SweepFacts.

(* ------------------------------------------------------------------ *)
(** ** The entry and the audit trail of an accepted report *)

Module ReportFacts.
Import Db Eff Recorder RecorderFacts.

(** The outcome the ledger entry records: the reported one, taken when the
    request names none. *)
Definition outcomeOf (req : Request) : Status :=
  match status req with Reported s => s | _ => taken end.

(** The entry [logDose] writes for a report classified [(a, delay)]. *)
Definition entryOf (env : Env) (req : Request) (a : AdherenceStatus) (delay : Z) : Log :=
  mkLog (u_id (req_user req)) (medId req) (outcomeOf req) (scheduledTime req) delay
    (if isMissed (status req) then adherence_missed else a) (clock env) (clock env).

(** The audit event of one [recordEvent] call, if its insert goes through. *)
Definition audit (env : Env) (req : Request) (type : EventType) (metadata : Metadata)
    : list Event :=
  if faults env (EventCreate type) then []
  else [mkEvent (u_id (req_user req)) (medId req) type metadata (clock env)].

(** The audit events of one accepted report, in order. *)
Definition trail (env : Env) (req : Request) (a : AdherenceStatus) (delay : Z)
    (ms : list Medication) : list Event :=
  if takenOrAbsent (status req) then
    match fst (updateFirst (ownedLive req) (incRemaining (-1)) ms) with
    | Some med =>
        audit env req (match a with late => DOSE_LATE | _ => DOSE_TAKEN end)
          (MetaDose (scheduledTime req) delay)
        ++ (if m_remainingQuantity med <? 5
            then audit env req INVENTORY_LOW (MetaStock (m_remainingQuantity med))
            else [])
    | None => []
    end
  else if isMissed (status req) then audit env req DOSE_MISSED (MetaSlot (scheduledTime req))
  else [].

(** The classification [classify] returns, when it returns. *)
Definition classified (env : Env) (req : Request) (a : AdherenceStatus) (delay : Z) : Prop :=
  exists s, classify req (Luxon.setZone (clock env) (timezoneOf (req_user req))) s
            = (s, Returned (a, delay)).

Ltac reduce_session :=
  cbn [fst snd tx committed logs meds events users connections setLogs setMeds setEvents].

Lemma record_exact (env : Env) (req : Request) (us : list User) (ms : list Medication)
    (ls : list Log) (es : list Event) (cs : list Connection) (s' : Session) (res : Response) :
  let db := mkStore us ms ls es cs in
  record env req (mkSession db db) = (s', Returned res) ->
  exists a delay,
    classified env req a delay /\
    res = mkResponse 201 None (Some (entryOf env req a delay)) /\
    committed s' = mkStore us (medsAfter req ms) (ls ++ [entryOf env req a delay])
                     (es ++ trail env req a delay ms) cs /\
    status req <> OtherStatus /\ nonEmpty (scheduledTime req) = true.
Proof.
  intros db. unfold record.
  set (now := Luxon.setZone (clock env) (timezoneOf (req_user req))).
  unfold bind at 1.
  destruct (classify_pure req now (mkSession db db)) as [r1 Hcl]. rewrite Hcl.
  destruct r1 as [[a delay]|e]; [|discriminate].
  intros H. exists a, delay. split; [exists (mkSession db db); exact Hcl|].
  revert H. unfold entryOf, trail, audit, medsAfter, outcomeOf.
  unfold createLog, decrementStock, recordEvent, commitTransaction, tryCatch, await,
    bind, modify, ret, throw, Luxon.toJSDate, now, db.
  cbn [Luxon.ts Luxon.setZone tx committed logs meds events users connections setLogs
       setMeds setEvents].
  destruct (status req) as [|[| |]|]; cbn [takenOrAbsent isMissed]; try discriminate.
  all: repeat (reduce_session;
         match goal with
         | |- context [nonEmpty ?x] => destruct (nonEmpty x)
         | |- context [faults ?e ?op] => destruct (faults e op)
         | |- context [updateFirst ?f ?g ?l] => destruct (updateFirst f g l) as [[med|] ms']
         | |- context [m_remainingQuantity ?m <? 5] => destruct (m_remainingQuantity m <? 5)
         end); reduce_session; try discriminate.
  all: intros [= <- <-]; cbn [committed app]; rewrite ?app_nil_r, <- ?app_assoc;
       repeat split; discriminate.
Qed.

(** An accepted report went through [record] on a fresh transaction, past
    the double-dose guard. *)
Lemma logDose_accepted (env : Env) (req : Request) (db db' : Store) (res : Response) :
  logDose env req db = (db', res) -> statusCode res = 201 ->
  exists a delay,
    classified env req a delay /\
    res = mkResponse 201 None (Some (entryOf env req a delay)) /\
    db' = mkStore (users db) (medsAfter req (meds db)) (logs db ++ [entryOf env req a delay])
            (events db ++ trail env req a delay (meds db)) (connections db) /\
    status req <> OtherStatus /\ nonEmpty (scheduledTime req) = true.
Proof.
  destruct db as [us ms ls es cs]. cbn [users meds logs events connections].
  unfold logDose, tryCatch, attempt, startTransaction.
  unfold bind at 1. unfold await.
  destruct (faults env (LogFindOne (medId req) (scheduledTime req))).
  { cbn. intros [= <- <-]. discriminate. }
  assert (Hrec : forall s' r,
            record env req (mkSession (mkStore us ms ls es cs) (mkStore us ms ls es cs))
              = (s', r) ->
            (let '(session, r') :=
               match r with
               | Returned a => (s', Returned a)
               | Thrown e =>
                   (abortTransaction;;; ret (mkResponse 400 (Some (message e)) None))%eff s'
               end in
             (committed session,
              match r' with
              | Returned res0 => res0
              | Thrown error => mkResponse 400 (Some (message error)) None
              end)) = (db', res) ->
            statusCode res = 201 ->
            exists a delay,
              classified env req a delay /\
              res = mkResponse 201 None (Some (entryOf env req a delay)) /\
              db' = mkStore us (medsAfter req ms) (ls ++ [entryOf env req a delay])
                      (es ++ trail env req a delay ms) cs /\
              status req <> OtherStatus /\ nonEmpty (scheduledTime req) = true).
  { intros s' [res0|e] E.
    - intros [= <- <-] _.
      destruct (record_exact env req us ms ls es cs s' res0 E)
        as [a [delay [Hc [Hr [Hs [Hst Hne]]]]]].
      exists a, delay. auto.
    - cbn. intros [= <- <-]. discriminate. }
  match goal with
  | |- context [find ?f ?l] => destruct (find f l) as [dup|]
  end.
  - destruct (takenOrAbsent (status req)).
    + cbn. intros [= <- <-]. discriminate.
    + destruct (record env req _) as [s' r]. apply (Hrec s' r eq_refl).
  - destruct (record env req _) as [s' r]. apply (Hrec s' r eq_refl).
Qed.

(** What [classify] can return. *)
Lemma classified_cases (env : Env) (req : Request) (a : AdherenceStatus) (delay : Z) :
  classified env req a delay ->
  (isMissed (status req) = true /\ a = on_time /\ delay = 0) \/
  (scheduledTime req = "" /\ a = on_time /\ delay = 0) \/
  (exists h m,
     (let '(hour, minute) := Js.hourMinute (scheduledTime req) in
      Luxon.checkedUnits (Js.parseInt hour) (Js.parseInt minute)) = Some (h, m) /\
     let now := Luxon.setZone (clock env) (timezoneOf (req_user req)) in
     let diff := clock env - Luxon.ts (Luxon.setTimeKeepMillis now h m) in
     (30 * Luxon.msPerMinute < diff /\ a = late /\ delay = diff / Luxon.msPerMinute) \/
     (diff <= 30 * Luxon.msPerMinute /\ a = on_time /\ delay = 0)).
Proof.
  intros [s H]. unfold classify in H.
  destruct (scheduledTime req) as [|c rest] eqn:Hslot.
  { cbn in H. injection H as <- <-. right. left. auto. }
  cbn [nonEmpty andb] in H.
  destruct (isMissed (status req)); cbn [negb] in H.
  { injection H as <- <-. left. auto. }
  right. right.
  destruct (Js.hourMinute (String c rest)) as [hour minute].
  destruct (Luxon.checkedUnits (Js.parseInt hour) (Js.parseInt minute)) as [[h m]|];
    [|discriminate].
  exists h, m. split; [reflexivity|]. cbn zeta.
  cbn [Luxon.ts Luxon.setZone] in H.
  match type of H with
  | context [if ?c then _ else _] => destruct c eqn:Hlate
  end; injection H as <- <-.
  - left. apply Z.ltb_lt in Hlate. auto.
  - right. apply Z.ltb_ge in Hlate. auto.
Qed.

(** X1, for a reporter in a zone of constant offset and a slot string whose
    hour and minute [parseInt] converts exactly:
    the ledger entry of an accepted report.  It carries the reported outcome
    (taken when none is named), and the clock as [takenAt].  A missed report
    is classified missed with no delay; any other report is measured against
    today's instant of the slot in the reporter's zone: more than 30 minutes
    past it the entry is late, with the whole minutes elapsed as delay (30 at
    least), and otherwise, early reports included, it is on time with
    delay 0. *)
Theorem accepted_report_is_classified_by_lateness (env : Env) (req : Request)
    (db db' : Store) (res : Response) :
  Js.slotParseExact (scheduledTime req) = true ->
  logDose env req db = (db', res) -> statusCode res = 201 ->
  exists doc,
    res_data res = Some doc /\ logs db' = logs db ++ [doc] /\
    l_user doc = u_id (req_user req) /\ l_medication doc = medId req /\
    l_scheduledTime doc = scheduledTime req /\ l_status doc = outcomeOf req /\
    l_takenAt doc = clock env /\
    if isMissed (status req)
    then l_adherenceStatus doc = adherence_missed /\ l_delayMinutes doc = 0
    else
      exists h m,
        (let '(hour, minute) := Js.hourMinute (scheduledTime req) in
         Luxon.checkedUnits (Js.parseInt hour) (Js.parseInt minute)) = Some (h, m) /\
        let now := Luxon.setZone (clock env) (timezoneOf (req_user req)) in
        let diff := clock env - Luxon.ts (Luxon.setTimeKeepMillis now h m) in
        if 30 * Luxon.msPerMinute <? diff
        then l_adherenceStatus doc = late /\ l_delayMinutes doc = diff / Luxon.msPerMinute
             /\ 30 <= l_delayMinutes doc
        else l_adherenceStatus doc = on_time /\ l_delayMinutes doc = 0.
Proof.
  intros _ Hrun H201.
  destruct (logDose_accepted env req db db' res Hrun H201)
    as [a [delay [Hc [-> [-> [_ Hne]]]]]].
  exists (entryOf env req a delay). cbn [res_data logs entryOf l_user l_medication
    l_scheduledTime l_status l_takenAt l_adherenceStatus l_delayMinutes].
  repeat (split; [reflexivity|]).
  destruct (classified_cases env req a delay Hc) as [[Hm [-> ->]] | [[Hs [-> ->]] | Hp]].
  - rewrite Hm. split; reflexivity.
  - (* an accepted report has a slot string *)
    rewrite Hs in Hne. discriminate.
  - destruct Hp as [h [m [Hparse Hd]]]. cbn zeta in Hd.
    destruct (isMissed (status req)) eqn:Hm.
    + destruct Hd as [[_ [-> ->]] | [_ [-> ->]]].
      * (* a missed report is not measured *)
        exfalso. destruct Hc as [s0 Hcl]. unfold classify in Hcl. rewrite Hm in Hcl.
        rewrite andb_false_r in Hcl. discriminate.
      * split; reflexivity.
    + exists h, m. split; [exact Hparse|]. cbn zeta.
      destruct Hd as [[Hlt [-> ->]] | [Hle [-> ->]]].
      * rewrite (proj2 (Z.ltb_lt _ _) Hlt). repeat split.
        unfold Luxon.msPerMinute in *. apply Z.div_le_lower_bound; lia.
      * rewrite (proj2 (Z.ltb_ge _ _) Hle). split; reflexivity.
Qed.

Definition asha : User := mkUser 1 "Asha" "asha@example.org" None.

Definition statin (remaining : Z) : Medication :=
  mkMedication 10 1 "Atorvastatin" scheduled ["08:00"] 30 remaining true false.

Definition cabinet (remaining : Z) : Store := mkStore [asha] [statin remaining] [] [] [].

Definition quarterToNine : Env :=
  mkEnv (20000 * 86400000 + 8 * 3600000 + 45 * 60000) 0 noFaults.

Definition takenAtEight : Request := mkRequest asha 10 "08:00" (Reported taken).

Lemma accepted_report_is_classified_by_lateness_witness :
  exists doc, res_data (snd (logDose quarterToNine takenAtEight (cabinet 10))) = Some doc /\
              l_adherenceStatus doc = late /\ l_delayMinutes doc = 45.
Proof.
  destruct (accepted_report_is_classified_by_lateness quarterToNine takenAtEight
              (cabinet 10) _ _ eq_refl (surjective_pairing _) eq_refl
    ) as [doc [Hd [_ [_ [_ [_ [_ [_ Hc]]]]]]]].
  exists doc. split; [exact Hd|].
  cbn [isMissed status takenAtEight] in Hc.
  destruct Hc as [h [m [Hparse Hc]]].
  vm_compute in Hparse. injection Hparse as <- <-.
  cbn zeta in Hc.
  replace (30 * Luxon.msPerMinute <?
           clock quarterToNine -
           Luxon.ts (Luxon.setTimeKeepMillis
                       (Luxon.setZone (clock quarterToNine)
                          (timezoneOf (req_user takenAtEight))) 8 0))
    with true in Hc by (vm_compute; reflexivity).
  destruct Hc as [Ha [Hdl _]]. split; [exact Ha|]. rewrite Hdl. vm_compute. reflexivity.
Defined.

(** X2: The double-dose guard.  Once a taken report has been accepted, a further
    taken report of the same user for the same medication and slot, made no
    more than ten minutes later, is answered 400 and leaves the store as it
    is; when the lookup itself goes through the answer is the safety alert. *)
Theorem repeated_taken_report_is_refused (env env' : Env) (req req' : Request)
    (db db1 : Store) (res1 : Response) :
  logDose env req db = (db1, res1) -> statusCode res1 = 201 ->
  takenOrAbsent (status req) = true -> takenOrAbsent (status req') = true ->
  u_id (req_user req') = u_id (req_user req) -> medId req' = medId req ->
  scheduledTime req' = scheduledTime req ->
  clock env' - 10 * Luxon.msPerMinute <= clock env ->
  fst (logDose env' req' db1) = db1 /\
  statusCode (snd (logDose env' req' db1)) = 400 /\
  (faults env' (LogFindOne (medId req') (scheduledTime req')) = false ->
   res_message (snd (logDose env' req' db1)) = Some "Safety Alert: Logged recently.").
Proof.
  intros Hrun H201 Ht Ht' Hu Hm Hs Hclock.
  destruct (logDose_accepted env req db db1 res1 Hrun H201)
    as [a [delay [_ [_ [Hdb1 _]]]]].
  set (tenMinutesAgo :=
         Luxon.toJSDate (Luxon.minusMinutes (Luxon.setZone (clock env') (systemZone env')) 10)).
  assert (Hdup : exists dup, find (isRecentTaken req' tenMinutesAgo) (logs db1) = Some dup).
  { destruct (find (isRecentTaken req' tenMinutesAgo) (logs db1)) eqn:E; [eauto|].
    exfalso.
    assert (Hin : In (entryOf env req a delay) (logs db1)).
    { rewrite Hdb1. cbn [logs]. apply in_or_app. right. left. reflexivity. }
    pose proof (find_none _ _ E (entryOf env req a delay) Hin) as Hno.
    rewrite <- not_true_iff_false in Hno. apply Hno.
    + unfold isRecentTaken, entryOf, outcomeOf. cbn [l_user l_medication l_scheduledTime
        l_takenAt l_status].
      rewrite Hu, Hm, Hs, !Nat.eqb_refl, String.eqb_refl.
      assert (Hst : match status req with Reported s0 => s0 | _ => taken end = taken).
      { destruct (status req) as [|[| |]|]; try reflexivity; discriminate. }
      rewrite Hst. cbn [status_eqb andb].
      rewrite andb_true_r. apply Z.leb_le.
      unfold tenMinutesAgo, Luxon.toJSDate, Luxon.minusMinutes. cbn [Luxon.ts Luxon.setZone].
      exact Hclock. }
  destruct Hdup as [dup Hdup].
  assert (Heq : logDose env' req' db1
                = (db1, mkResponse 400
                          (Some (if faults env' (LogFindOne (medId req') (scheduledTime req'))
                                 then "store operation failed"
                                 else "Safety Alert: Logged recently.")) None)).
  { unfold logDose, tryCatch, attempt, startTransaction, bind, await.
    destruct (faults env' (LogFindOne (medId req') (scheduledTime req'))); [reflexivity|].
    cbn [tx]. fold tenMinutesAgo. rewrite Hdup, Ht'. reflexivity. }
  rewrite Heq. cbn [fst snd statusCode res_message].
  split; [reflexivity|]. split; [reflexivity|]. intros ->. reflexivity.
Qed.

Lemma repeated_taken_report_is_refused_witness :
  let db1 := fst (logDose quarterToNine takenAtEight (cabinet 10)) in
  fst (logDose (mkEnv (clock quarterToNine + 9 * 60000) 0 noFaults) takenAtEight db1) = db1 /\
  statusCode (snd (logDose (mkEnv (clock quarterToNine + 9 * 60000) 0 noFaults)
                     takenAtEight db1)) = 400.
Proof.
  cbv zeta.
  destruct (repeated_taken_report_is_refused quarterToNine
              (mkEnv (clock quarterToNine + 9 * 60000) 0 noFaults)
              takenAtEight takenAtEight (cabinet 10) _ _
              (surjective_pairing _) eq_refl eq_refl eq_refl eq_refl eq_refl eq_refl
              ltac:(vm_compute; discriminate)) as [H1 [H2 _]].
  split; assumption.
Defined.

(** X3: The audit trail of an accepted report, when the audit collection takes
    every insert: a taken report leaves DOSE_LATE if the entry is late and
    DOSE_TAKEN otherwise, followed by INVENTORY_LOW, carrying the new stock,
    exactly when the stock after the decrement is below 5; a missed report
    leaves DOSE_MISSED; a skipped report leaves nothing. *)
Theorem accepted_report_leaves_its_audit_trail (env : Env) (req : Request)
    (db db' : Store) (res : Response) :
  logDose env req db = (db', res) -> statusCode res = 201 ->
  (forall type, faults env (EventCreate type) = false) ->
  exists doc evs,
    res_data res = Some doc /\ events db' = events db ++ evs /\
    Forall (auditOf env req) evs /\
    match outcomeOf req with
    | taken =>
        exists med,
          fst (updateFirst (ownedLive req) (incRemaining (-1)) (meds db)) = Some med /\
          map (fun e => (e_eventType e, e_metadata e)) evs
          = ((match l_adherenceStatus doc with late => DOSE_LATE | _ => DOSE_TAKEN end),
             MetaDose (scheduledTime req) (l_delayMinutes doc))
            :: (if m_remainingQuantity med <? 5
                then [(INVENTORY_LOW, MetaStock (m_remainingQuantity med))] else [])
    | missed => map (fun e => (e_eventType e, e_metadata e)) evs
                = [(DOSE_MISSED, MetaSlot (scheduledTime req))]
    | skipped => evs = []
    end.
Proof.
  intros Hrun H201 Haudit.
  destruct (logDose_accepted env req db db' res Hrun H201)
    as [a [delay [Hc [-> [-> [Hschema _]]]]]].
  pose proof (logDose_outcome env req (users db) (meds db) (logs db) (events db)
                (connections db)) as Hout.
  replace (mkStore (users db) (meds db) (logs db) (events db) (connections db)) with db
    in Hout by (destruct db; reflexivity).
  rewrite Hrun in Hout.
  destruct Hout as [[H400 _] | [[_ [_ [evs0 [_ [_ [Hall0 [Hmed _]]]]]]] _]];
    [cbn in H400; discriminate|].
  exists (entryOf env req a delay), (trail env req a delay (meds db)).
  cbn [res_data events]. split; [reflexivity|]. split; [reflexivity|].
  assert (Hone : forall type md, audit env req type md
                   = [mkEvent (u_id (req_user req)) (medId req) type md (clock env)]).
  { intros type md. unfold audit. now rewrite Haudit. }
  assert (Hof : forall type md, auditOf env req
                  (mkEvent (u_id (req_user req)) (medId req) type md (clock env))).
  { intros. repeat split. }
  unfold trail, outcomeOf, entryOf.
  cbn [l_adherenceStatus l_delayMinutes].
  destruct (status req) as [|[| |]|] eqn:Hst; cbn [takenOrAbsent isMissed] in *.
  - destruct (Hmed eq_refl) as [Hsome _].
    destruct (fst (updateFirst (ownedLive req) (incRemaining (-1)) (meds db))) as [med|];
      [|congruence].
    rewrite !Hone. split.
    + destruct (m_remainingQuantity med <? 5); rewrite ?Hone; repeat constructor.
    + exists med. split; [reflexivity|].
      destruct (m_remainingQuantity med <? 5); rewrite ?Hone; destruct a; reflexivity.
  - destruct (Hmed eq_refl) as [Hsome _].
    destruct (fst (updateFirst (ownedLive req) (incRemaining (-1)) (meds db))) as [med|];
      [|congruence].
    rewrite !Hone. split.
    + destruct (m_remainingQuantity med <? 5); rewrite ?Hone; repeat constructor.
    + exists med. split; [reflexivity|].
      destruct (m_remainingQuantity med <? 5); rewrite ?Hone; destruct a; reflexivity.
  - rewrite Hone. split; [repeat constructor | reflexivity].
  - split; [constructor | reflexivity].
  - (* a status outside the schema is never accepted *)
    congruence.
Qed.

Lemma accepted_report_leaves_its_audit_trail_witness :
  map e_eventType (events (fst (logDose quarterToNine takenAtEight (cabinet 5))))
  = [DOSE_LATE; INVENTORY_LOW].
Proof.
  destruct (accepted_report_leaves_its_audit_trail quarterToNine takenAtEight (cabinet 5)
              _ _ (surjective_pairing _) eq_refl (fun _ => eq_refl))
    as [doc [evs [Hd [He [_ Hm]]]]].
  rewrite He. cbn [outcomeOf status takenAtEight] in Hm.
  destruct Hm as [med [Hmed Htypes]].
  vm_compute in Hmed. injection Hmed as <-.
  vm_compute in Hd. injection Hd as <-.
  cbn [events cabinet app]. 
  rewrite <- (map_map (fun e => (e_eventType e, e_metadata e)) fst), Htypes.
  reflexivity.
Defined.

(** X4: The low-stock signal and the low-stock query agree.  After an accepted
    taken report, with an audit collection that takes every insert, an
    INVENTORY_LOW event was recorded if and only if the medication whose
    stock was decremented is now listed by [getLowStockMeds] for the
    reporter: both use the threshold 5 on the stock after the decrement. *)
Theorem low_stock_event_matches_low_stock_query (env : Env) (req : Request)
    (db db' : Store) (res : Response) :
  logDose env req db = (db', res) -> statusCode res = 201 ->
  takenOrAbsent (status req) = true ->
  (forall type, faults env (EventCreate type) = false) ->
  exists med evs,
    fst (updateFirst (ownedLive req) (incRemaining (-1)) (meds db)) = Some med /\
    In med (meds db') /\ events db' = events db ++ evs /\
    (In INVENTORY_LOW (map e_eventType evs) <->
     In med (MedController.getLowStockMeds db' (u_id (req_user req)))).
Proof.
  intros Hrun H201 Ht Haudit.
  destruct (logDose_accepted env req db db' res Hrun H201)
    as [a [delay [Hc [-> [-> _]]]]].
  pose proof (logDose_outcome env req (users db) (meds db) (logs db) (events db)
                (connections db)) as Hout.
  replace (mkStore (users db) (meds db) (logs db) (events db) (connections db)) with db
    in Hout by (destruct db; reflexivity).
  rewrite Hrun in Hout.
  destruct Hout as [[H400 _] | [[_ [_ [evs0 [_ [_ [_ [Hmed _]]]]]]] _]];
    [cbn in H400; discriminate|].
  destruct (Hmed Ht) as [Hsome _].
  destruct (fst (updateFirst (ownedLive req) (incRemaining (-1)) (meds db))) as [med|] eqn:E;
    [|congruence].
  destruct (updateFirst_some _ _ _ _ E) as [l1 [m [l2 [Hl [Hm [_ [-> Hsnd]]]]]]].
  exists (incRemaining (-1) m), (trail env req a delay (meds db)).
  assert (Hin : In (incRemaining (-1) m) (medsAfter req (meds db))).
  { unfold medsAfter. rewrite Ht, Hsnd. apply in_or_app. right. left. reflexivity. }
  split; [reflexivity|]. split; [exact Hin|]. split; [reflexivity|].
  unfold ownedLive in Hm. apply andb_prop in Hm. destruct Hm as [Hm Hdel].
  apply andb_prop in Hm. destruct Hm as [_ Huser].
  unfold MedController.getLowStockMeds. rewrite filter_In. cbn [meds].
  cbn [incRemaining m_user m_isDeleted m_remainingQuantity]. rewrite Huser, Hdel.
  cbn [andb]. rewrite andb_true_r.
  unfold trail, audit. rewrite Ht, E, !Haudit.
  cbn [incRemaining m_remainingQuantity].
  destruct (m_remainingQuantity m + -1 <? 5) eqn:Hlow; cbn [map app e_eventType In].
  - split; [intros _; split; [exact Hin | reflexivity] | intros _].
    right. left. reflexivity.
  - split.
    + intros [Hl' | []]. destruct a; discriminate.
    + intros [_ Hf]. discriminate.
Qed.

Lemma low_stock_event_matches_low_stock_query_witness :
  exists med, In med (MedController.getLowStockMeds
                        (fst (logDose quarterToNine takenAtEight (cabinet 5))) 1) /\
              m_remainingQuantity med = 4.
Proof.
  destruct (low_stock_event_matches_low_stock_query quarterToNine takenAtEight (cabinet 5)
              _ _ (surjective_pairing _) eq_refl eq_refl (fun _ => eq_refl))
    as [med [evs [Hmed [_ [He Hiff]]]]].
  vm_compute in Hmed. injection Hmed as <-.
  eexists. split; [apply Hiff | reflexivity].
  vm_compute in He. subst evs. right. left. reflexivity.
Defined.

End ReportFacts.

(* ------------------------------------------------------------------ *)
(** ** When the recorder accepts a report *)

Module AcceptanceFacts.
Import Db Eff Recorder RecorderFacts ReportFacts.

(** The instant the double-dose guard looks back to. *)
Definition tenMinutesAgo (env : Env) : Z :=
  Luxon.toJSDate (Luxon.minusMinutes (Luxon.setZone (clock env) (systemZone env)) 10).

(** The double-dose guard stops the report. *)
Definition guarded (env : Env) (req : Request) (db : Store) : bool :=
  takenOrAbsent (status req)
  && existsb (isRecentTaken req (tenMinutesAgo env)) (logs db).

(** [classify] returns: the slot is not measured, or [set] takes its hour
    and minute. *)
Definition measurable (req : Request) : bool :=
  if nonEmpty (scheduledTime req) && negb (isMissed (status req)) then
    let '(hour, minute) := Js.hourMinute (scheduledTime req) in
    match Luxon.checkedUnits (Js.parseInt hour) (Js.parseInt minute) with
    | Some _ => true
    | None => false
    end
  else true.

Definition inSchema (st : BodyStatus) : bool :=
  match st with OtherStatus => false | _ => true end.

(** Everything [logDose] needs to answer 201.  The audit inserts, the stock
    figures and the [isActive] flags are not part of it. *)
Definition accepts (env : Env) (req : Request) (db : Store) : bool :=
  negb (faults env (LogFindOne (medId req) (scheduledTime req)))
  && negb (guarded env req db)
  && measurable req && inSchema (status req) && nonEmpty (scheduledTime req)
  && negb (faults env (LogCreate (medId req) (scheduledTime req)))
  && (if takenOrAbsent (status req)
      then negb (faults env (MedicationFindOneAndUpdate (medId req)))
           && existsb (ownedLive req) (meds db)
      else true)
  && negb (faults env CommitTransaction).

Lemma existsb_find {A} (f : A -> bool) (l : list A) :
  existsb f l = match find f l with Some _ => true | None => false end.
Proof.
  induction l as [|x l IH]; cbn; [reflexivity|]. destruct (f x); [reflexivity | exact IH].
Qed.

Lemma existsb_updateFirst (f : Medication -> bool) (g : Medication -> Medication)
    (l : list Medication) :
  existsb f l = match fst (updateFirst f g l) with Some _ => true | None => false end.
Proof.
  induction l as [|x l IH]; cbn [existsb updateFirst]; [reflexivity|].
  destruct (f x); [reflexivity|]. cbn [orb]. rewrite IH.
  destruct (updateFirst f g l) as [r rest]. reflexivity.
Qed.

(** The answer of [logDose] is decided by [accepts]. *)
Lemma logDose_answer (env : Env) (req : Request) (db : Store) :
  statusCode (snd (logDose env req db)) = (if accepts env req db then 201 else 400) /\
  (accepts env req db = false ->
   fst (logDose env req db) = db /\ res_data (snd (logDose env req db)) = None).
Proof.
  destruct db as [us ms ls es cs].
  unfold accepts, guarded, measurable, inSchema, tenMinutesAgo.
  rewrite existsb_find, (existsb_updateFirst (ownedLive req) (incRemaining (-1))).
  cbn [logs meds].
  unfold logDose, tryCatch, attempt, startTransaction, record, classify, createLog,
    decrementStock, recordEvent, commitTransaction, abortTransaction, tryCatch, await,
    bind, modify, ret, throw, Luxon.toJSDate, Luxon.minusMinutes.
  cbn [Luxon.ts Luxon.offset Luxon.setZone tx committed logs meds events users connections setLogs
       setMeds setEvents].
  destruct (faults env (LogFindOne (medId req) (scheduledTime req))); cbn [negb andb];
    [split; [reflexivity | intros _; split; reflexivity]|].
  destruct (status req) as [|[| |]|]; cbn [takenOrAbsent isMissed negb andb];
    cbv beta; cbn [tx committed logs];
    (match goal with
     | |- context [find ?f ?l] => destruct (find f l)
     end);
    cbn [fst snd statusCode res_data committed negb andb];
    try (split; [reflexivity | intros _; split; reflexivity]).
  all: destruct (nonEmpty (scheduledTime req)); cbn [negb andb];
    (destruct (Js.hourMinute (scheduledTime req)) as [hour minute]);
    try (destruct (Luxon.checkedUnits (Js.parseInt hour) (Js.parseInt minute)) as [[h m]|]);
    cbn [fst snd statusCode res_data committed negb andb];
    rewrite ?andb_false_r;
    try (split; [reflexivity | intros _; split; reflexivity]).
  all: repeat (cbn [fst snd tx committed logs meds events users connections setLogs setMeds
                    setEvents statusCode res_data negb andb];
         match goal with
         | |- context [if ?a <? ?b then _ else _] => destruct (a <? b)
         | |- context [faults ?e ?op] => destruct (faults e op)
         | |- context [updateFirst ?f ?g ?l] => destruct (updateFirst f g l) as [[med|] ms']
         end);
       cbn [fst snd tx committed logs meds events users connections setLogs setMeds
            setEvents statusCode res_data negb andb];
       rewrite ?andb_false_r;
       (split; [reflexivity | intros H; try discriminate H; split; reflexivity]).
Qed.


(** Acceptance reads the fault plan outside the audit collection only. *)
Lemma accepts_audit (env env' : Env) (req : Request) (db : Store) :
  clock env' = clock env -> systemZone env' = systemZone env ->
  (forall op, (forall type, op <> EventCreate type) -> faults env' op = faults env op) ->
  accepts env' req db = accepts env req db.
Proof.
  intros Hc Hz Hf. unfold accepts, guarded, tenMinutesAgo.
  rewrite Hc, Hz, !Hf by (intros type; discriminate). reflexivity.
Qed.

(** Acceptance reads of the medications only whether one of them passes the
    filter of the inventory update, and nothing at all for a report that is
    not a taken one. *)
Lemma accepts_meds (env : Env) (req : Request) (db : Store) (ms' : list Medication) :
  (takenOrAbsent (status req) = true ->
   existsb (ownedLive req) ms' = existsb (ownedLive req) (meds db)) ->
  accepts env req (setMeds db ms') = accepts env req db.
Proof.
  intros H. unfold accepts, guarded, setMeds. cbn [logs meds].
  destruct (takenOrAbsent (status req)); [rewrite (H eq_refl)|]; reflexivity.
Qed.

Lemma existsb_map_same {A} (f : A -> bool) (g : A -> A) (l : list A) :
  (forall x, f (g x) = f x) -> existsb f (map g l) = existsb f l.
Proof.
  intros H. induction l as [|x l IH]; cbn; [reflexivity|]. now rewrite H, IH.
Qed.

Lemma status_of_accepts (env env' : Env) (req : Request) (db db' : Store) :
  accepts env' req db' = accepts env req db ->
  statusCode (snd (logDose env' req db')) = statusCode (snd (logDose env req db)).
Proof.
  intros H. rewrite (proj1 (logDose_answer env' req db')), (proj1 (logDose_answer env req db)).
  now rewrite H.
Qed.

(** The store with other stock figures. *)
Definition restock (stock : Medication -> Z) (db : Store) : Store :=
  setMeds db
    (map (fun m => mkMedication (m_id m) (m_user m) (m_name m) (m_medType m) (m_timings m)
                     (m_totalQuantity m) (stock m) (m_isActive m) (m_isDeleted m))
       (meds db)).

(** The store with other [isActive] flags. *)
Definition reactivated (active : Medication -> bool) (db : Store) : Store :=
  setMeds db
    (map (fun m => mkMedication (m_id m) (m_user m) (m_name m) (m_medType m) (m_timings m)
                     (m_totalQuantity m) (m_remainingQuantity m) (active m) (m_isDeleted m))
       (meds db)).

(** The classification of a report depends on the clock and the request. *)
Lemma classified_unique (env env' : Env) (req : Request) (a a' : AdherenceStatus)
    (delay delay' : Z) :
  clock env' = clock env ->
  classified env req a delay -> classified env' req a' delay' -> a' = a /\ delay' = delay.
Proof.
  intros Hc [s H] [s' H']. rewrite Hc in H'.
  destruct (classify_pure req (Luxon.setZone (clock env) (timezoneOf (req_user req))) s)
    as [r Hr].
  assert (Hany : forall s0, classify req (Luxon.setZone (clock env) (timezoneOf (req_user req))) s0
                            = (s0, r)).
  { intros s0. revert Hr. unfold classify.
    destruct (nonEmpty (scheduledTime req) && negb (isMissed (status req)));
      [|intros [= <-]; reflexivity].
    destruct (Js.hourMinute (scheduledTime req)) as [hour minute].
    destruct (Luxon.checkedUnits (Js.parseInt hour) (Js.parseInt minute)) as [[h m]|];
      [|intros [= <-]; reflexivity].
    match goal with |- context [if ?c then _ else _] => destruct c end;
      intros [= <-]; reflexivity. }
  rewrite Hany in H, H'.
  assert (E : Returned (a', delay') = Returned (a, delay)) by congruence.
  injection E as -> ->. split; reflexivity.
Qed.

(** The audit events a report calls [recordEvent] for, in order: type and
    metadata.  [doc] is the ledger entry of the report. *)
Definition attempted (req : Request) (doc : Log) (ms : list Medication)
    : list (EventType * Metadata) :=
  if takenOrAbsent (status req) then
    match fst (updateFirst (ownedLive req) (incRemaining (-1)) ms) with
    | Some med =>
        (match l_adherenceStatus doc with late => DOSE_LATE | _ => DOSE_TAKEN end,
         MetaDose (scheduledTime req) (l_delayMinutes doc))
        :: (if m_remainingQuantity med <? 5
            then [(INVENTORY_LOW, MetaStock (m_remainingQuantity med))] else [])
    | None => []
    end
  else if isMissed (status req) then [(DOSE_MISSED, MetaSlot (scheduledTime req))]
  else [].

(** Of the events attempted, those whose insert the audit collection took,
    stamped with the caller, the medication and the clock. *)
Definition kept (env : Env) (req : Request) (l : list (EventType * Metadata)) : list Event :=
  map (fun a => mkEvent (u_id (req_user req)) (medId req) (fst a) (snd a) (clock env))
    (filter (fun a => negb (faults env (EventCreate (fst a)))) l).

Lemma trail_kept (env : Env) (req : Request) (a : AdherenceStatus) (delay : Z)
    (ms : list Medication) :
  trail env req a delay ms = kept env req (attempted req (entryOf env req a delay) ms).
Proof.
  unfold trail, kept, attempted, audit, entryOf. cbn [l_adherenceStatus l_delayMinutes].
  destruct (status req) as [|[| |]|]; cbn [takenOrAbsent isMissed];
    try (destruct (fst (updateFirst (ownedLive req) (incRemaining (-1)) ms)) as [med|];
         [|reflexivity]);
    try (destruct (m_remainingQuantity med <? 5));
    cbn [filter map fst snd app];
    repeat match goal with
           | |- context [faults ?e ?op] => destruct (faults e op); cbn [negb filter map app fst snd]
           end;
    try reflexivity; destruct a; reflexivity.
Qed.

(** The two answers of [logDose], in full. *)
Lemma logDose_cases (env : Env) (req : Request) (db : Store) :
  let '(db', res) := logDose env req db in
  (accepts env req db = false /\ statusCode res = 400 /\ db' = db /\ res_data res = None) \/
  (accepts env req db = true /\ statusCode res = 201 /\
   exists a delay,
     classified env req a delay /\
     res_data res = Some (entryOf env req a delay) /\
     db' = mkStore (users db) (medsAfter req (meds db))
             (logs db ++ [entryOf env req a delay])
             (events db ++ kept env req (attempted req (entryOf env req a delay) (meds db)))
             (connections db)).
Proof.
  pose proof (logDose_answer env req db) as [Hcode Hrefused].
  pose proof (logDose_accepted env req db) as Hacc.
  destruct (logDose env req db) as [db' res]. cbn [fst snd] in *.
  destruct (accepts env req db).
  - right. split; [reflexivity|]. split; [assumption|].
    destruct (Hacc db' res eq_refl Hcode) as [a [delay [Hc [-> [-> _]]]]].
    exists a, delay. rewrite trail_kept. auto.
  - left. destruct (Hrefused eq_refl) as [-> ->]. auto.
Qed.

(** C2 (amended): the ledger write and the inventory decrement commit or
    roll back together, and the audit inserts stand apart.  Either the
    recorder answers 400, with no entry in its response, and the store is
    what it was; or it answers 201 and the store has exactly one more ledger
    entry, the decrement when the dose was taken, and, of the audit events
    the report calls for, those whose insert went through.  A rejected
    ledger read, ledger write, inventory update or commit always gives the
    first case.  A rejected audit insert changes neither the answer nor the
    entry nor the ledger and the stock committed: under any other fault plan
    for the audit collection the recorder answers the same. *)
Theorem ledger_and_stock_commit_together (env : Env) (req : Request) (db : Store) :
  let '(db', res) := logDose env req db in
  ((statusCode res = 400 /\ db' = db /\ res_data res = None) \/
   (statusCode res = 201 /\
    exists doc,
      res_data res = Some doc /\
      users db' = users db /\ connections db' = connections db /\
      logs db' = logs db ++ [doc] /\
      meds db' = medsAfter req (meds db) /\
      events db' = events db ++ kept env req (attempted req doc (meds db)))) /\
  (faults env (LogFindOne (medId req) (scheduledTime req)) = true \/
   faults env (LogCreate (medId req) (scheduledTime req)) = true \/
   (takenOrAbsent (status req) = true /\
    faults env (MedicationFindOneAndUpdate (medId req)) = true) \/
   faults env CommitTransaction = true ->
   statusCode res = 400 /\ db' = db) /\
  (forall env',
     clock env' = clock env -> systemZone env' = systemZone env ->
     (forall op, (forall type, op <> EventCreate type) -> faults env' op = faults env op) ->
     let '(db'', res') := logDose env' req db in
     statusCode res' = statusCode res /\ res_data res' = res_data res /\
     logs db'' = logs db' /\ meds db'' = meds db' /\
     users db'' = users db' /\ connections db'' = connections db').
Proof.
  pose proof (logDose_cases env req db) as H.
  destruct (logDose env req db) as [db' res].
  split; [|split].
  - destruct H as [[_ [H400 [-> Hd]]] | [_ [H201 [a [delay [_ [Hd ->]]]]]]].
    + left. auto.
    + right. split; [assumption|]. exists (entryOf env req a delay).
      cbn [users connections logs meds events]. repeat split; auto.
  - intros Hfault.
    destruct H as [[_ [H400 [-> _]]] | [Hacc _]]; [split; [assumption | reflexivity]|].
    exfalso. unfold accepts in Hacc.
    destruct Hfault as [F | [F | [[Ht F] | F]]]; rewrite ?Ht, F in Hacc;
      cbn [negb andb] in Hacc; rewrite ?andb_false_r in Hacc; discriminate.
  - intros env' Hc Hz Hf.
    pose proof (logDose_cases env' req db) as H'.
    rewrite (accepts_audit env env' req db Hc Hz Hf) in H'.
    destruct (logDose env' req db) as [db'' res'].
    destruct H as [[Ha [H400 [-> Hd]]] | [Ha [H201 [a [delay [Hcl [Hd ->]]]]]]];
      destruct H' as [[Ha' [H400' [-> Hd']]] | [Ha' [H201' [a' [delay' [Hcl' [Hd' ->]]]]]]];
      try congruence.
    + rewrite H400, H400', Hd, Hd'. repeat split.
    + destruct (classified_unique env env' req a a' delay delay' Hc Hcl Hcl') as [-> ->].
      assert (He : entryOf env' req a delay = entryOf env req a delay)
        by (unfold entryOf; now rewrite Hc).
      rewrite H201, H201', Hd, Hd', He. cbn [logs meds users connections]. repeat split.
Qed.

(** C3 (amended): the recorder puts no floor under the stock.  Whether a
    report is accepted does not depend on any stock figure: with the stock of
    every medication replaced at will the recorder answers with the same
    status code.  A taken report that is accepted subtracts exactly one from
    [remainingQuantity] of the first live medication of the caller with that
    id, whatever its value; every other report, and every rejected one,
    leaves the medications as they were.  A refill that is accepted adds
    [refillAmount] to both quantities of that medication; a rejected one
    changes nothing. *)
Theorem stock_moves_by_one_without_floor (env : Env) (req : Request)
    (refill : RefillRequest) (db : Store) :
  (forall stock : Medication -> Z,
     statusCode (snd (logDose env req (restock stock db)))
     = statusCode (snd (logDose env req db))) /\
  (let '(db', res) := logDose env req db in
   if (statusCode res =? 201) && takenOrAbsent (status req) then
     exists l1 m l2,
       meds db = l1 ++ m :: l2 /\ ownedLive req m = true /\
       (forall x, In x l1 -> ownedLive req x = false) /\
       meds db' = l1 ++ incRemaining (-1) m :: l2 /\
       m_remainingQuantity (incRemaining (-1) m) = m_remainingQuantity m - 1
   else meds db' = meds db) /\
  (let '(db', code) := refillMedication env refill db in
   if code =? 200 then
     exists l1 m l2,
       meds db = l1 ++ m :: l2 /\ ownedLiveRefill refill m = true /\
       (forall x, In x l1 -> ownedLiveRefill refill x = false) /\
       meds db' = l1 ++ incBoth (refillAmount refill) m :: l2 /\
       m_remainingQuantity (incBoth (refillAmount refill) m)
         = m_remainingQuantity m + refillAmount refill
   else db' = db).
Proof.
  split; [|split].
  - intros stock. apply status_of_accepts. unfold restock. apply accepts_meds.
    intros _. apply existsb_map_same. intros m. reflexivity.
  - destruct db as [us ms ls es cs].
    pose proof (logDose_outcome env req us ms ls es cs) as H.
    destruct (logDose env req (mkStore us ms ls es cs)) as [db' res].
    destruct H as [[H400 ->] | [[H201 [doc [evs [Hd [-> [Hevs [Hmed _]]]]]]] _]].
    + rewrite H400. reflexivity.
    + rewrite H201. cbn [Z.eqb Pos.eqb andb meds]. unfold medsAfter.
      destruct (takenOrAbsent (status req)); [|reflexivity].
      destruct (Hmed eq_refl) as [Hsome _].
      destruct (fst (updateFirst (ownedLive req) (incRemaining (-1)) ms)) as [m'|] eqn:E;
        [|congruence].
      destruct (updateFirst_some _ _ _ _ E) as [l1 [m [l2 [Hl [Hm [Hl1 [_ Hsnd]]]]]]].
      exists l1, m, l2. repeat split; auto.
  - unfold refillMedication.
    destruct (faults env (MedicationFindOneAndUpdate (refill_id refill))); [reflexivity|].
    destruct (updateFirst (ownedLiveRefill refill) (incBoth (refillAmount refill)) (meds db))
      as [[m'|] meds'] eqn:E; [|reflexivity].
    assert (E1 : fst (updateFirst (ownedLiveRefill refill) (incBoth (refillAmount refill))
                        (meds db)) = Some m') by now rewrite E.
    destruct (updateFirst_some _ _ _ _ E1) as [l1 [m [l2 [Hl [Hm [Hl1 [_ Hsnd]]]]]]].
    rewrite E in Hsnd. cbn [snd] in Hsnd. cbn [Z.eqb Pos.eqb].
    exists l1, m, l2. repeat split; auto.
Qed.

(** C4 (amended): a taken report (status taken or absent) for which the
    caller has no non-deleted medication with the reported id, be it
    soft-deleted, absent or another user's, is answered 400 and leaves the
    whole store, ledger included, as it was.  A report that is not a taken
    one does not look the medication up: whatever medications the store
    holds, deleted or not, it gets the same answer, and when that is 201 the
    ledger has its entry and the medications are untouched.  And no report
    consults [isActive]: with the flags set at will the answer is the
    same. *)
Theorem taken_report_needs_live_medication (env : Env) (req : Request) (db : Store) :
  (takenOrAbsent (status req) = true ->
   (forall m, In m (meds db) -> ownedLive req m = false) ->
   fst (logDose env req db) = db /\ statusCode (snd (logDose env req db)) = 400) /\
  (takenOrAbsent (status req) = false ->
   (forall ms' : list Medication,
      statusCode (snd (logDose env req (setMeds db ms')))
      = statusCode (snd (logDose env req db))) /\
   (statusCode (snd (logDose env req db)) = 201 ->
    meds (fst (logDose env req db)) = meds db /\
    exists doc, res_data (snd (logDose env req db)) = Some doc /\
                logs (fst (logDose env req db)) = logs db ++ [doc] /\
                l_medication doc = medId req /\ l_scheduledTime doc = scheduledTime req)) /\
  (forall active : Medication -> bool,
     statusCode (snd (logDose env req (reactivated active db)))
     = statusCode (snd (logDose env req db))).
Proof.
  split; [|split].
  - intros Htaken Hnone.
    pose proof (logDose_cases env req db) as H.
    destruct (logDose env req db) as [db' res]. cbn [fst snd].
    destruct H as [[_ [H400 [-> _]]] | [Hacc _]]; [split; [reflexivity | assumption]|].
    exfalso. unfold accepts in Hacc. rewrite Htaken in Hacc.
    assert (Hex : existsb (ownedLive req) (meds db) = false).
    { apply not_true_iff_false. intros Hex. apply existsb_exists in Hex.
      destruct Hex as [m [Hin Hm]]. rewrite (Hnone m Hin) in Hm. discriminate. }
    rewrite Hex in Hacc. rewrite !andb_false_r in Hacc. discriminate.
  - intros Hother. split.
    + intros ms'. apply status_of_accepts. apply accepts_meds. rewrite Hother. discriminate.
    + pose proof (logDose_cases env req db) as H.
      destruct (logDose env req db) as [db' res]. cbn [fst snd].
      intros H201.
      destruct H as [[_ [H400 _]] | [_ [_ [a [delay [_ [Hd ->]]]]]]]; [congruence|].
      cbn [meds logs]. unfold medsAfter. rewrite Hother. split; [reflexivity|].
      exists (entryOf env req a delay). repeat split; assumption.
  - intros active. apply status_of_accepts. unfold reactivated. apply accepts_meds.
    intros _. apply existsb_map_same. intros m. reflexivity.
Qed.

Lemma taken_report_needs_live_medication_witness :
  let deleted := RecorderFacts.cabinet (RecorderFacts.statin 10 false true) in
  fst (logDose (mkEnv morning 0 noFaults) (report NoStatus) deleted) = deleted /\
  statusCode (snd (logDose (mkEnv morning 0 noFaults) (report NoStatus) deleted)) = 400.
Proof.
  cbv zeta.
  apply (proj1 (taken_report_needs_live_medication (mkEnv morning 0 noFaults)
                  (report NoStatus) (RecorderFacts.cabinet (RecorderFacts.statin 10 false true)))).
  - reflexivity.
  - intros m [<- | []]. reflexivity.
Defined.

End AcceptanceFacts.

(* ------------------------------------------------------------------ *)
(** ** Soft delete *)

Module DeleteFacts.
Import Db Eff Recorder RecorderFacts MedController.

Ltac reduce_store :=
  cbn [fst snd tx committed meds users logs events connections setMeds setEvents].

(** The three ways [deleteMedication] ends. *)
Lemma deleteMedication_outcome (env : Env) (req : DeleteRequest) (db : Store) :
  let '(db', code) := deleteMedication env req db in
  (code = 200 /\
   exists l1 m l2 evs,
     meds db = l1 ++ m :: l2 /\ ownedLiveDelete req m = true /\
     (forall x, In x l1 -> ownedLiveDelete req x = false) /\
     db' = mkStore (users db) (l1 ++ softDeleted m :: l2) (logs db) (events db ++ evs)
             (connections db) /\
     evs = (if faults env (EventCreate MED_DELETED) then []
            else [mkEvent (u_id (delete_user req)) (delete_id req) MED_DELETED MetaNone
                    (clock env)])) \/
  (code = 404 /\ db' = db /\ forall m, In m (meds db) -> ownedLiveDelete req m = false) \/
  (code = 500 /\ db' = db).
Proof.
  destruct db as [us ms ls es cs].
  unfold deleteMedication, deleteAttempt, recordEvent, commitTransaction, abortTransaction,
    startTransaction, tryCatch, await, bind, modify, ret, throw.
  cbn [tx committed meds users logs events connections setMeds setEvents].
  destruct (faults env (MedicationFindOneAndUpdate (delete_id req))); reduce_store.
  { right. right. split; reflexivity. }
  destruct (updateFirst (ownedLiveDelete req) softDeleted ms) as [[m'|] ms'] eqn:E;
    reduce_store.
  - assert (E1 : fst (updateFirst (ownedLiveDelete req) softDeleted ms) = Some m')
      by now rewrite E.
    destruct (updateFirst_some _ _ _ _ E1) as [l1 [m [l2 [Hl [Hm [Hl1 [_ Hsnd]]]]]]].
    rewrite E in Hsnd. cbn [snd] in Hsnd. subst ms'.
    destruct (faults env (EventCreate MED_DELETED)); reduce_store;
      (destruct (faults env CommitTransaction); reduce_store;
       [right; right; split; reflexivity|]);
      left; (split; [reflexivity|]); exists l1, m, l2.
    + exists []. unfold setMeds; reduce_store. rewrite app_nil_r. auto.
    + eexists. unfold setEvents, setMeds; reduce_store. auto.
  - right. left.
    split; [reflexivity|]. split; [reflexivity|].
    intros m Hin. destruct (ownedLiveDelete req m) eqn:Hm; [|reflexivity].
    exfalso. clear - E Hin Hm. revert ms' E. induction ms as [|x l IH]; [destruct Hin|].
    intros ms' E. cbn [updateFirst] in E. destruct Hin as [-> | Hin].
    + rewrite Hm in E. discriminate.
    + destruct (ownedLiveDelete req x); [discriminate|].
      destruct (updateFirst (ownedLiveDelete req) softDeleted l) as [r rest] eqn:E'.
      injection E as -> <-. apply (IH Hin rest eq_refl).
Qed.

(** X5: The soft delete keeps every document.  An accepted delete (200) flags
    the caller's live medication with that id as deleted and inactive and
    changes nothing else of it or of any other medication: ids, owners,
    slots and quantities stay, and so do the ledger, the users and the
    connections; the only event it may add is MED_DELETED.  A delete that is
    answered 404 or 500 leaves the store as it was. *)
Theorem soft_delete_only_flags_the_medication (env : Env) (req : DeleteRequest) (db : Store) :
  let '(db', code) := deleteMedication env req db in
  (code = 200 \/ code = 404 \/ code = 500) /\
  (code <> 200 -> db' = db) /\
  users db' = users db /\ logs db' = logs db /\ connections db' = connections db /\
  map (fun m => (m_id m, m_user m, m_name m, m_medType m, m_timings m,
                 m_totalQuantity m, m_remainingQuantity m)) (meds db')
  = map (fun m => (m_id m, m_user m, m_name m, m_medType m, m_timings m,
                   m_totalQuantity m, m_remainingQuantity m)) (meds db) /\
  (code = 200 ->
   exists l1 m l2,
     meds db = l1 ++ m :: l2 /\ meds db' = l1 ++ softDeleted m :: l2 /\
     m_id m = delete_id req /\ m_user m = u_id (delete_user req) /\ m_isDeleted m = false /\
     m_isDeleted (softDeleted m) = true /\ m_isActive (softDeleted m) = false) /\
  (exists evs, events db' = events db ++ evs /\
               Forall (fun e => e_eventType e = MED_DELETED) evs).
Proof.
  pose proof (deleteMedication_outcome env req db) as H.
  destruct (deleteMedication env req db) as [db' code].
  destruct H as [[-> [l1 [m [l2 [evs [Hl [Hm [Hl1 [-> Hevs]]]]]]]]] | [[-> [-> _]] | [-> ->]]].
  - cbn [users logs connections meds events].
    split; [auto|]. split; [congruence|]. repeat (split; [reflexivity|]).
    split; [rewrite Hl, !map_app; reflexivity|]. split.
    + intros _. exists l1, m, l2.
      unfold ownedLiveDelete in Hm. apply andb_prop in Hm. destruct Hm as [Hm Hdel].
      apply andb_prop in Hm. destruct Hm as [Hid Hu].
      apply Nat.eqb_eq in Hid. apply Nat.eqb_eq in Hu. apply negb_true_iff in Hdel.
      repeat split; auto.
    + exists evs. split; [reflexivity|]. subst evs.
      destruct (faults env (EventCreate MED_DELETED)); repeat constructor.
  - split; [auto|]. repeat (split; [reflexivity|]).
    split; [discriminate|]. exists []. rewrite app_nil_r. split; [reflexivity | constructor].
  - split; [auto|]. repeat (split; [reflexivity|]).
    split; [discriminate|]. exists []. rewrite app_nil_r. split; [reflexivity | constructor].
Qed.

(** After an accepted delete of a medication with a unique id, nothing
    of the caller is live under that id any more. *)
Lemma nothing_live_after_delete (env : Env) (req : DeleteRequest) (db db' : Store) :
  NoDup (map m_id (meds db)) -> deleteMedication env req db = (db', 200) ->
  forall x, In x (meds db') -> m_id x = delete_id req -> m_isDeleted x = true.
Proof.
  intros Hids Hrun x Hx Hid.
  pose proof (deleteMedication_outcome env req db) as H. rewrite Hrun in H.
  destruct H as [[_ [l1 [m [l2 [evs [Hl [Hm [Hl1 [-> _]]]]]]]]] | [[H _] | [H _]]];
    try discriminate.
  cbn [meds] in Hx.
  unfold ownedLiveDelete in Hm. apply andb_prop in Hm. destruct Hm as [Hm _].
  apply andb_prop in Hm. destruct Hm as [Hmid _]. apply Nat.eqb_eq in Hmid.
  rewrite Hl, map_app in Hids. cbn [map] in Hids.
  apply in_app_or in Hx. destruct Hx as [Hx | [<- | Hx]]; [| reflexivity |].
  - exfalso. apply NoDup_remove_2 in Hids. apply Hids. apply in_or_app. left.
    rewrite Hmid, <- Hid. now apply in_map.
  - exfalso. apply NoDup_remove_2 in Hids. apply Hids. apply in_or_app. right.
    rewrite Hmid, <- Hid. now apply in_map.
Qed.

(** X6: A delete is not repeated.  Over medications with distinct ids, once a
    delete has been accepted a second delete of the same id is not: it is
    answered 404, or 500 when the store rejects, and changes nothing. *)
Theorem second_delete_is_not_found (env env' : Env) (req req' : DeleteRequest)
    (db db' : Store) :
  NoDup (map m_id (meds db)) -> deleteMedication env req db = (db', 200) ->
  delete_id req' = delete_id req ->
  fst (deleteMedication env' req' db') = db' /\
  (snd (deleteMedication env' req' db') = 404 \/ snd (deleteMedication env' req' db') = 500) /\
  (faults env' (MedicationFindOneAndUpdate (delete_id req')) = false ->
   snd (deleteMedication env' req' db') = 404).
Proof.
  intros Hids Hrun Hid.
  pose proof (nothing_live_after_delete env req db db' Hids Hrun) as Hdead.
  assert (Hnone : forall x, In x (meds db') -> ownedLiveDelete req' x = false).
  { intros x Hx. unfold ownedLiveDelete.
    destruct (Nat.eqb (m_id x) (delete_id req')) eqn:E; [|reflexivity].
    apply Nat.eqb_eq in E. rewrite Hid in E. rewrite (Hdead x Hx E).
    now rewrite andb_false_r. }
  pose proof (deleteMedication_outcome env' req' db') as H.
  destruct (deleteMedication env' req' db') as [db'' code] eqn:Hrun'. cbn [fst snd].
  destruct H as [[_ [l1 [m [l2 [evs [Hl [Hm _]]]]]]] | [[-> [-> _]] | [-> ->]]].
  - exfalso. rewrite Hnone in Hm; [discriminate|]. rewrite Hl. apply in_or_app. right.
    left. reflexivity.
  - repeat split; auto.
  - split; [reflexivity|]. split; [auto|]. intros Hf. exfalso.
    revert Hrun'. unfold deleteMedication, deleteAttempt, tryCatch, bind, await.
    rewrite Hf. cbn [startTransaction tx].
    rewrite (updateFirst_none _ _ _ Hnone). cbn. discriminate.
Qed.

(** X7: A deleted medication takes no more doses.  Over medications with
    distinct ids, after an accepted delete every taken report of the same
    user against that id is answered 400 and leaves the store, ledger
    included, as the delete left it. *)
Theorem taken_report_after_delete_is_refused (env env' : Env) (req : DeleteRequest)
    (report : Request) (db db' : Store) :
  NoDup (map m_id (meds db)) -> deleteMedication env req db = (db', 200) ->
  medId report = delete_id req -> takenOrAbsent (status report) = true ->
  fst (logDose env' report db') = db' /\ statusCode (snd (logDose env' report db')) = 400.
Proof.
  intros Hids Hrun Hid Ht.
  pose proof (nothing_live_after_delete env req db db' Hids Hrun) as Hdead.
  assert (Hnone : forall x, In x (meds db') -> ownedLive report x = false).
  { intros x Hx. unfold ownedLive.
    destruct (Nat.eqb (m_id x) (medId report)) eqn:E; [|reflexivity].
    apply Nat.eqb_eq in E. rewrite Hid in E. rewrite (Hdead x Hx E).
    now rewrite andb_false_r. }
  pose proof (logDose_outcome env' report (users db') (meds db') (logs db') (events db')
                (connections db')) as Hout.
  replace (mkStore (users db') (meds db') (logs db') (events db') (connections db'))
    with db' in Hout by (destruct db'; reflexivity).
  destruct (logDose env' report db') as [db'' res]. cbn [fst snd].
  destruct Hout as [[H400 ->] | [[_ [_ [evs [_ [_ [_ [Hmed _]]]]]]] _]]; [auto|].
  exfalso. destruct (Hmed Ht) as [Hsome _]. apply Hsome.
  now rewrite (updateFirst_none _ _ _ Hnone).
Qed.

Definition asha : User := mkUser 1 "Asha" "asha@example.org" None.

Definition shelf : Store :=
  mkStore [asha]
    [mkMedication 10 1 "Atorvastatin" scheduled ["08:00"] 30 10 true false;
     mkMedication 11 1 "Metformin" scheduled ["09:00"; "21:00"] 60 40 true false]
    [] [] [].

Definition anyDay : Env := mkEnv (20000 * 86400000 + 9 * 3600000) 0 noFaults.

Lemma second_delete_is_not_found_witness :
  let db' := fst (deleteMedication anyDay (mkDeleteRequest asha 10) shelf) in
  fst (deleteMedication anyDay (mkDeleteRequest asha 10) db') = db' /\
  snd (deleteMedication anyDay (mkDeleteRequest asha 10) db') = 404.
Proof.
  cbv zeta.
  destruct (second_delete_is_not_found anyDay anyDay (mkDeleteRequest asha 10)
              (mkDeleteRequest asha 10) shelf _
              ltac:(repeat constructor; cbn; intuition discriminate)
              (surjective_pairing _) eq_refl) as [H1 [_ H3]].
  split; [exact H1 | apply H3; reflexivity].
Defined.

Lemma taken_report_after_delete_is_refused_witness :
  let db' := fst (deleteMedication anyDay (mkDeleteRequest asha 10) shelf) in
  fst (logDose anyDay (mkRequest asha 10 "08:00" NoStatus) db') = db' /\
  statusCode (snd (logDose anyDay (mkRequest asha 10 "08:00" NoStatus) db')) = 400.
Proof.
  cbv zeta.
  apply (taken_report_after_delete_is_refused anyDay anyDay (mkDeleteRequest asha 10)
           (mkRequest asha 10 "08:00" NoStatus) shelf).
  - repeat constructor; cbn; intuition discriminate.
  - vm_compute. reflexivity.
  - reflexivity.
  - reflexivity.
Defined.

End DeleteFacts.

(* ------------------------------------------------------------------ *)
(** ** More on the sweep pass: what it leaves alone, whom it alerts *)

Module SweepMore.
Import Db Eff Reaper EffFacts ReaperFacts.

(** What a pass adds to the ledger, whether it returns or throws. *)
Lemma pass_appends (env : Env) (io : bool) (w : Store * list Signal) :
  exists n, Written env (fst w) (fst (fst (runAutomatedReaper env io w))) n.
Proof.
  destruct w as [db0 out0]. cbn [fst].
  pose proof (reaper_outcome env io db0 out0) as H.
  destruct (runAutomatedReaper env io (db0, out0)) as [w1 [n|e]]; cbn [fst].
  - exists n. apply H.
  - apply H.
Qed.

(** X10: The sweeper writes to the ledger only.  Whether a pass returns or
    throws, it leaves the medications (no stock change), the users, the
    connections and the audit events as they were: in particular it records
    no DOSE_MISSED event for the entries it synthesizes. *)
Theorem sweep_touches_only_the_ledger (env : Env) (io : bool) (w : Store * list Signal) :
  let db1 := fst (fst (runAutomatedReaper env io w)) in
  meds db1 = meds (fst w) /\ users db1 = users (fst w) /\
  connections db1 = connections (fst w) /\ events db1 = events (fst w) /\
  exists new, logs db1 = logs (fst w) ++ new.
Proof.
  cbv zeta. destruct (pass_appends env io w) as [n [Hu [Hm [He [Hc [new [Hl _]]]]]]].
  repeat split; auto. exists new. exact Hl.
Qed.

(** X11: Slots of the late evening are out of the sweeper's reach, for
    owners in a zone of constant offset and slot strings that convert
    exactly.  An entry is synthesized only for a slot whose time of day is
    before 22:00: the grace window of a later slot ends after midnight, and
    by then the pass looks at the next day.  So a slot at 22:00 or later is
    never marked missed. *)
Theorem late_evening_slots_are_never_swept (env : Env) (io : bool) (w : Store * list Signal) :
  PlainSlots (fst w) ->
  exists new, logs (fst (fst (runAutomatedReaper env io w))) = logs (fst w) ++ new /\
    Forall (fun e => exists h m, slotTime (l_scheduledTime e) = Some (h, m) /\
                       h * Luxon.msPerHour + m * Luxon.msPerMinute < 22 * Luxon.msPerHour)
      new.
Proof.
  intros _.
  destruct (pass_appends env io w) as [n [_ [_ [_ [_ [new [Hl [_ [_ Hall]]]]]]]]].
  exists new. split; [exact Hl|].
  eapply Forall_impl; [|exact Hall].
  intros e [med [user [slot [_ [-> [Hg _]]]]]]. cbn [missedLog l_scheduledTime].
  unfold pastGrace in Hg. destruct (slotTime slot) as [[h m]|]; [|discriminate].
  exists h, m. split; [reflexivity|]. apply Z.ltb_lt in Hg.
  pose proof (LuxonFacts.endOfDay_ge (nowFor env user)) as Hend.
  unfold missedThreshold, Luxon.plusHours, Luxon.setTime, graceHours, Luxon.endOfDay in *.
  cbn [Luxon.ts Luxon.offset nowFor Luxon.setZone] in *.
  unfold Luxon.msPerHour, Luxon.msPerMinute, Luxon.msPerDay in *. lia.
Qed.

(** A ward with a 21:30 slot and a 22:00 slot, swept in the last minute of
    the day: the first is marked missed, the second is not. *)
Definition lateWard : Store :=
  mkStore [mkUser 1 "Asha" "asha@example.org" None]
    [mkMedication 14 1 "Melatonin" scheduled ["21:30"; "22:00"] 30 10 true false] [] [] [].

Lemma late_evening_slots_are_never_swept_witness :
  map l_scheduledTime
    (logs (fst (fst (runAutomatedReaper
                       (mkEnv (20000 * 86400000 + 86400000 - 1) 0 noFaults) false
                       (lateWard, []))))) = ["21:30"] /\
  exists new,
    logs (fst (fst (runAutomatedReaper
                      (mkEnv (20000 * 86400000 + 86400000 - 1) 0 noFaults) false
                      (lateWard, [])))) = logs lateWard ++ new /\
    Forall (fun e => exists h m, slotTime (l_scheduledTime e) = Some (h, m) /\
                       h * Luxon.msPerHour + m * Luxon.msPerMinute < 22 * Luxon.msPerHour)
      new.
Proof.
  split; [vm_compute; reflexivity|].
  apply (late_evening_slots_are_never_swept
           (mkEnv (20000 * 86400000 + 86400000 - 1) 0 noFaults) false (lateWard, [])).
  apply PlainSlots_check. vm_compute. reflexivity.
Defined.

(** *** The alert fan-out *)

(** The signals one connection of the owner gets for a missed slot. *)
Definition alertsOf (io : bool) (med : Medication) (user : User) (slot : string)
    (guardian : option User) : list Signal :=
  match guardian with
  | Some g =>
      if nonEmpty (u_email g) then
        GuardianAlertJob (u_email g)
          (if nonEmpty (u_name user) then u_name user else "Your Patient") (m_name med) slot
        :: (if io then [EmergencyAlert (u_id g) (u_name user) (m_name med) slot] else [])
      else []
  | None => []
  end.

(** The signals a synthesized entry triggers: those of every active
    connection of the owner, in the order [Connection.find] returns them. *)
Definition fanOut (db0 : Store) (io : bool) (t : Target) : list Signal :=
  let '(med, user, slot) := t in
  flat_map (alertsOf io med user slot) (activeGuardians db0 (u_id user)).

Definition entryFor (env : Env) (t : Target) : Log :=
  let '(med, user, slot) := t in missedLog env med user (nowFor env user) slot.

Section FanOut.
Variables (env : Env) (io : bool) (db0 : Store) (out0 : list Signal).

(** The ledger holds the entries of [written], the outbox the signals of
    [alerted] followed by [pending], and the counter reads [count]. *)
Let Alerted (written alerted : list Target) (pending : list Signal) (count : Z)
    (s : State) : Prop :=
  users (db s) = users db0 /\ connections (db s) = connections db0 /\
  logs (db s) = logs db0 ++ map (entryFor env) written /\
  outbox s = out0 ++ flat_map (fanOut db0 io) alerted ++ pending /\
  missedCount s = count.

(** Between two slots every entry written has had its signals sent. *)
Let Settled (s : State) : Prop :=
  exists synth, Forall (fun t => In t (targets db0)) synth /\
    Alerted synth synth [] (Z.of_nat (List.length synth)) s.

(** Signals already sent stay in the outbox when the pass throws. *)
Let Sent (s : State) : Prop := exists more, outbox s = out0 ++ more.

Lemma alerted_sent written alerted pending count s :
  Alerted written alerted pending count s -> Sent s.
Proof. intros [_ [_ [_ [Ho _]]]]. eexists. exact Ho. Qed.

Lemma settled_sent s : Settled s -> Sent s.
Proof. intros [synth [_ H]]. exact (alerted_sent _ _ _ _ _ H). Qed.

Lemma activeGuardians_same (s : Store) (patient : nat) :
  users s = users db0 -> connections s = connections db0 ->
  activeGuardians s patient = activeGuardians db0 patient.
Proof. intros Hu Hc. unfold activeGuardians, populateUser. now rewrite Hu, Hc. Qed.

Lemma alertGuardian_sends (written alerted : list Target) (count : Z) (med : Medication)
    (user : User) (slot : string) (pending : list Signal) (guardian : option User) :
  triple (Alerted written alerted pending count)
    (alertGuardian env io med user slot guardian)
    (fun _ => Alerted written alerted (pending ++ alertsOf io med user slot guardian) count)
    Sent.
Proof.
  assert (Hpush : forall more s,
            Alerted written alerted pending count s ->
            Alerted written alerted (pending ++ more) count
              (mkState (db s) (outbox s ++ more) (missedCount s))).
  { intros more s [Hu [Hc [Hl [Ho Hn]]]]. unfold Alerted. cbn [db outbox missedCount].
    repeat (split; [assumption|]). split; [|assumption].
    rewrite Ho, <- !app_assoc. reflexivity. }
  assert (Hstay : forall s, Alerted written alerted pending count s ->
                            Alerted written alerted (pending ++ []) count s).
  { intros s H. rewrite app_nil_r. exact H. }
  unfold alertGuardian, alertsOf. destruct guardian as [g|]; [|apply triple_ret; auto].
  destruct (nonEmpty (u_email g)); [|apply triple_ret; auto].
  set (job := GuardianAlertJob (u_email g)
                (if nonEmpty (u_name user) then u_name user else "Your Patient")
                (m_name med) slot).
  apply triple_bind with (R := fun _ => Alerted written alerted (pending ++ [job]) count).
  - apply triple_await.
    + intros _ s Hs. exact (alerted_sent _ _ _ _ _ Hs).
    + intros _. apply triple_modify. intros s Hs. exact (Hpush [job] s Hs).
  - intros _. destruct io.
    + apply triple_modify. intros s [Hu [Hc [Hl [Ho Hn]]]]. unfold Alerted.
      cbn [db outbox missedCount]. repeat (split; [assumption|]). split; [|assumption].
      rewrite Ho, <- !app_assoc. reflexivity.
    + apply triple_ret. auto.
Qed.

Lemma sweepSlot_alerts (med : Medication) (user : User) (slot : string) :
  In (med, user, slot) (targets db0) ->
  triple Settled (sweepSlot env io med user (nowFor env user) slot)
    (fun _ => Settled) Sent.
Proof.
  intros Hin. unfold sweepSlot.
  destruct (Js.hourMinute slot) as [hour minute].
  destruct (Luxon.checkedUnits (Js.Number hour) (Js.Number minute)) as [[h m]|];
    [|apply triple_throw; exact settled_sent].
  destruct (Luxon.ts (nowFor env user) <=? Luxon.ts (missedThreshold (nowFor env user) h m));
    [apply triple_ret; auto|].
  apply triple_bind with (R := fun _ => Settled).
  { apply triple_await; [intros _; exact settled_sent|]. intros _ s Hs. cbn. exact Hs. }
  intros [found|]; [apply triple_ret; auto|].
  intros s [synth [Hsyn Hs]]. revert s Hs.
  set (t := (med, user, slot)).
  set (n := Z.of_nat (List.length synth)).
  change (triple (Alerted synth synth [] n)
            ((if nonEmpty slot
              then await env (LogCreate (m_id med) slot)
                     (modify (fun s => mkState
                        (setLogs (db s)
                           (logs (db s) ++ [missedLog env med user (nowFor env user) slot]))
                        (outbox s) (missedCount s)))
              else throw (Err "Log validation failed: scheduledTime")) ;;;
             modify (fun s => mkState (db s) (outbox s) (missedCount s + 1)) ;;;
             activeConnections <- await env (ConnectionFind (u_id user))
               (fun s => (s, Returned (activeGuardians (db s) (u_id user)))) ;;
             forOf activeConnections (alertGuardian env io med user slot))%eff
            (fun _ => Settled) Sent).
  apply triple_bind with (R := fun _ => Alerted (synth ++ [t]) synth [] n).
  { destruct (nonEmpty slot); [|apply triple_throw; intros s Hs; exact (alerted_sent _ _ _ _ _ Hs)].
    apply triple_await; [intros _ s Hs; exact (alerted_sent _ _ _ _ _ Hs)|].
    intros _. apply triple_modify.
    intros s [Hu [Hc [Hl [Ho Hn]]]]. unfold Alerted, setLogs.
    cbn [db outbox users connections logs missedCount].
    repeat (split; [assumption|]). split; [|split; assumption].
    rewrite Hl, map_app, <- app_assoc. reflexivity. }
  intros _. apply triple_bind with (R := fun _ => Alerted (synth ++ [t]) synth [] (n + 1)).
  { apply triple_modify. intros s [Hu [Hc [Hl [Ho Hn]]]]. unfold Alerted.
    cbn [db outbox missedCount]. repeat (split; [assumption|]). now rewrite Hn. }
  intros _. apply triple_bind with
    (R := fun guardians s => guardians = activeGuardians db0 (u_id user) /\
                             Alerted (synth ++ [t]) synth [] (n + 1) s).
  { apply triple_await; [intros _ s Hs; exact (alerted_sent _ _ _ _ _ Hs)|].
    intros _ s Hs. cbn. split; [|exact Hs].
    destruct Hs as [Hu [Hc _]]. apply activeGuardians_same; assumption. }
  intros guardians. apply triple_assume. intros ->.
  apply triple_weaken with
    (P' := Alerted (synth ++ [t]) synth (flat_map (alertsOf io med user slot) []) (n + 1))
    (Q' := fun _ => Alerted (synth ++ [t]) synth
                      (flat_map (alertsOf io med user slot)
                         (activeGuardians db0 (u_id user))) (n + 1))
    (E' := Sent); auto.
  - apply (triple_forOf
             (fun done => Alerted (synth ++ [t]) synth
                            (flat_map (alertsOf io med user slot) done) (n + 1))
             Sent).
    intros pre g post _. rewrite flat_map_app. cbn [flat_map]. rewrite app_nil_r.
    apply alertGuardian_sends.
  - intros _ s [Hu [Hc [Hl [Ho Hn]]]]. exists (synth ++ [t]). split.
    + apply Forall_app. split; [assumption|]. constructor; [exact Hin | constructor].
    + unfold Alerted. repeat (split; [assumption|]). split.
      * rewrite Ho, flat_map_app, app_nil_r. cbn [flat_map fanOut t]. now rewrite app_nil_r.
      * rewrite Hn, length_app. cbn [List.length]. unfold n. lia.
Qed.

Lemma pass_alerts :
  triple (fun s => s = mkState db0 out0 0) (pass env io)
    (fun n s => exists synth, Forall (fun t => In t (targets db0)) synth /\
                  Alerted synth synth [] n s /\ n = Z.of_nat (List.length synth))
    Sent.
Proof.
  unfold pass. apply triple_bind with
    (R := fun found s => found = scheduledMedications db0 /\ Settled s).
  { apply triple_await; [intros _ s ->; exists []; cbn; now rewrite app_nil_r|].
    intros _ s ->. cbn. split; [reflexivity|]. exists []. split; [constructor|].
    unfold Alerted. cbn. rewrite !app_nil_r. auto. }
  intros found. apply triple_assume. intros ->.
  apply triple_bind with (R := fun _ => Settled).
  { apply (triple_forOf (fun _ => Settled) Sent).
    intros pre [med [user|]] post Hfound; unfold sweepMedication; [|apply triple_ret; auto].
    apply (triple_forOf (fun _ => Settled) Sent).
    intros spre slot spost Hslots. apply sweepSlot_alerts.
    unfold targets, targetsOf. rewrite Hfound, flat_map_app. apply in_or_app. right.
    cbn [flat_map fst snd]. apply in_or_app. left.
    rewrite Hslots, map_app. apply in_or_app. right. left. reflexivity. }
  intros _ s [synth [Hsyn Hs]]. cbn. exists synth.
  split; [assumption|]. destruct Hs as [Hu [Hc [Hl [Ho Hn]]]]. rewrite Hn.
  split; [|reflexivity]. unfold Alerted. auto.
Qed.

End FanOut.

(** X12: Every entry a completed pass synthesizes alerts every guardian.  When a
    pass returns [n], it appended [n] entries, one for each of [n] sweep
    targets, and the outbox grew by exactly the signals of these entries, in
    order: for each entry and each active connection of the owner whose
    guardian record resolves and has an e-mail address, one queued alert job
    followed, when a socket server was passed, by one emergency alert; a
    guardian without address, or a connection whose guardian is gone, gets
    neither.  When the pass throws, the signals already sent stay sent. *)
Theorem completed_pass_alerts_every_guardian (env : Env) (io : bool) (db0 : Store)
    (out0 : list Signal) :
  let '(w1, r) := runAutomatedReaper env io (db0, out0) in
  match r with
  | Returned n =>
      exists synth, Forall (fun t => In t (targets db0)) synth /\
        n = Z.of_nat (List.length synth) /\
        logs (fst w1) = logs db0 ++ map (entryFor env) synth /\
        snd w1 = out0 ++ flat_map (fanOut db0 io) synth
  | Thrown _ => exists sent, snd w1 = out0 ++ sent
  end.
Proof.
  unfold runAutomatedReaper, tryCatch. cbn [fst snd].
  pose proof (pass_alerts env io db0 out0 (mkState db0 out0 0) eq_refl) as H.
  destruct (pass env io (mkState db0 out0 0)) as [s [n|e]]; cbn [fst snd throw].
  - destruct H as [synth [Hsyn [[_ [_ [Hl [Ho _]]]] Hn]]]. exists synth.
    rewrite app_nil_r in Ho. auto.
  - exact H.
Qed.

End SweepMore.

(* ------------------------------------------------------------------ *)
(** ** The sweeper and the other handlers *)

Module SweepLinks.
Import Db Eff Recorder Reaper EffFacts ReaperFacts MedController Analytics.

Lemma startOfDay_startOfDay (d : Luxon.DateTime) :
  Luxon.startOfDay (Luxon.startOfDay d) = Luxon.startOfDay d.
Proof.
  unfold Luxon.startOfDay, Luxon.localMillis. cbn [Luxon.ts Luxon.offset].
  f_equal.
  replace (Luxon.msPerDay * ((Luxon.ts d + Luxon.offset d * Luxon.msPerMinute) / Luxon.msPerDay)
           - Luxon.offset d * Luxon.msPerMinute + Luxon.offset d * Luxon.msPerMinute)
    with ((Luxon.ts d + Luxon.offset d * Luxon.msPerMinute) / Luxon.msPerDay * Luxon.msPerDay)
    by ring.
  rewrite Z.div_mul by (unfold Luxon.msPerDay; lia). reflexivity.
Qed.

(** A missed entry of today stops the walk at once. *)
Lemma missed_today_gives_zero (env : Env) (s : Store) (e : Log) :
  In e (logs s) -> l_status e = missed -> l_takenAt e = clock env ->
  calculateReliabilityIndex env s (l_user e) = Some 0.
Proof.
  intros Hin Hst Hat. unfold calculateReliabilityIndex.
  set (today := Luxon.startOfDay (Luxon.setZone (clock env) (systemZone env))).
  assert (Hday : In e (dailyLogs s (l_user e) today)).
  { unfold dailyLogs. apply filter_In. split; [assumption|].
    rewrite Nat.eqb_refl, Hat. cbn [andb]. apply andb_true_intro.
    unfold Luxon.toJSDate, Luxon.endOfDay, today. rewrite startOfDay_startOfDay.
    pose proof (LuxonFacts.startOfDay_le (Luxon.setZone (clock env) (systemZone env))) as Hlo.
    pose proof (LuxonFacts.endOfDay_ge (Luxon.setZone (clock env) (systemZone env))) as Hhi.
    unfold Luxon.endOfDay in Hhi. cbn [Luxon.ts Luxon.offset Luxon.setZone] in *.
    split; apply Z.leb_le; assumption. }
  change (walk 90 s (l_user e) 0 today) with
    (let logsOfDay := dailyLogs s (l_user e) today in
     if Nat.eqb (List.length logsOfDay) 0 then Some 0
     else if negb (hasMissed logsOfDay) then
       if 90 <=? 0 + 1 then Some (0 + 1)
       else walk 89 s (l_user e) (0 + 1) (Luxon.minusDays today 1)
     else Some 0).
  cbv zeta.
  destruct (dailyLogs s (l_user e) today) as [|x l] eqn:E; [destruct Hday|].
  cbn [List.length Nat.eqb].
  assert (Hm : hasMissed (x :: l) = true).
  { unfold hasMissed. apply existsb_exists. exists e. split; [assumption|].
    rewrite Hst. reflexivity. }
  rewrite Hm. reflexivity.
Qed.

(** X13: A sweep resets the streak.  Every entry a pass appends, whether the pass
    returns or throws, makes the reliability index of its owner 0 when it is
    computed at the same clock reading: the entry is a missed one taken
    (by its stamp) today, and a missed entry of today stops the walk
    before any day is counted. *)
Theorem swept_owner_has_reliability_zero (env : Env) (io : bool) (w : Store * list Signal) :
  let db1 := fst (fst (runAutomatedReaper env io w)) in
  exists new, logs db1 = logs (fst w) ++ new /\
    Forall (fun e => calculateReliabilityIndex env db1 (l_user e) = Some 0) new.
Proof.
  cbv zeta. destruct (SweepMore.pass_appends env io w)
    as [n [_ [_ [_ [_ [new [Hl [_ [_ Hall]]]]]]]]].
  exists new. split; [exact Hl|].
  apply Forall_forall. intros e He.
  rewrite Forall_forall in Hall. destruct (Hall e He) as [med [user [slot [_ [Heq _]]]]].
  apply missed_today_gives_zero.
  - rewrite Hl. apply in_or_app. right. exact He.
  - rewrite Heq. reflexivity.
  - rewrite Heq. reflexivity.
Qed.

(** X9: After an accepted delete no sweep, at any later clock reading, writes an
    entry for the deleted medication: among medications with distinct ids
    the soft-deleted one is the only one with that id, and the pass
    enumerates non-deleted medications only. *)
Theorem deleted_medication_is_not_swept (env env' : Env) (io : bool) (req : DeleteRequest)
    (db db' : Store) (out : list Signal) :
  NoDup (map m_id (meds db)) -> deleteMedication env req db = (db', 200) ->
  exists new, logs (fst (fst (runAutomatedReaper env' io (db', out)))) = logs db' ++ new /\
    Forall (fun e => l_medication e <> delete_id req) new.
Proof.
  intros Hids Hrun.
  pose proof (DeleteFacts.nothing_live_after_delete env req db db' Hids Hrun) as Hdead.
  destruct (SweepMore.pass_appends env' io (db', out))
    as [n [_ [_ [_ [_ [new [Hl [_ [_ Hall]]]]]]]]].
  cbn [fst] in Hl, Hall. exists new. split; [exact Hl|].
  eapply Forall_impl; [|exact Hall].
  intros e [med [user [slot [Hin [-> _]]]]] Hid. cbn [missedLog l_medication] in Hid.
  apply targets_spec in Hin. destruct Hin as [Hm [Hs _]].
  unfold swept in Hs. rewrite (Hdead med Hm Hid) in Hs. discriminate.
Qed.

(** X8: After an accepted delete a refill of the same medication is refused:
    404 when the store answers, 500 when it rejects, and the store is left
    as the delete left it. *)
Theorem refill_after_delete_is_refused (env env' : Env) (req : DeleteRequest)
    (refill : RefillRequest) (db db' : Store) :
  NoDup (map m_id (meds db)) -> deleteMedication env req db = (db', 200) ->
  refill_id refill = delete_id req ->
  fst (refillMedication env' refill db') = db' /\
  snd (refillMedication env' refill db')
  = if faults env' (MedicationFindOneAndUpdate (refill_id refill)) then 500 else 404.
Proof.
  intros Hids Hrun Hid.
  pose proof (DeleteFacts.nothing_live_after_delete env req db db' Hids Hrun) as Hdead.
  assert (Hnone : forall x, In x (meds db') -> ownedLiveRefill refill x = false).
  { intros x Hx. unfold ownedLiveRefill.
    destruct (Nat.eqb (m_id x) (refill_id refill)) eqn:E; [|reflexivity].
    apply Nat.eqb_eq in E. rewrite Hid in E. rewrite (Hdead x Hx E).
    now rewrite andb_false_r. }
  unfold refillMedication.
  destruct (faults env' (MedicationFindOneAndUpdate (refill_id refill))); [split; reflexivity|].
  rewrite (RecorderFacts.updateFirst_none _ _ _ Hnone). split; reflexivity.
Qed.

Definition noon : Env :=
  mkEnv (20000 * 86400000 + 12 * 3600000) 0 noFaults.

Lemma deleted_medication_is_not_swept_witness :
  let db' := fst (deleteMedication DeleteFacts.anyDay
                    (mkDeleteRequest DeleteFacts.asha 10) DeleteFacts.shelf) in
  exists new, logs (fst (fst (runAutomatedReaper noon true (db', [])))) = logs db' ++ new /\
    Forall (fun e => l_medication e <> 10%nat) new.
Proof.
  cbv zeta.
  apply (deleted_medication_is_not_swept DeleteFacts.anyDay noon true
           (mkDeleteRequest DeleteFacts.asha 10) DeleteFacts.shelf _ []).
  - repeat constructor; cbn; intuition discriminate.
  - vm_compute. reflexivity.
Defined.

Lemma refill_after_delete_is_refused_witness :
  let db' := fst (deleteMedication DeleteFacts.anyDay
                    (mkDeleteRequest DeleteFacts.asha 10) DeleteFacts.shelf) in
  fst (refillMedication noon (mkRefillRequest DeleteFacts.asha 10 30) db') = db' /\
  snd (refillMedication noon (mkRefillRequest DeleteFacts.asha 10 30) db') = 404.
Proof.
  cbv zeta.
  apply (refill_after_delete_is_refused DeleteFacts.anyDay noon
           (mkDeleteRequest DeleteFacts.asha 10) (mkRefillRequest DeleteFacts.asha 10 30)
           DeleteFacts.shelf).
  - repeat constructor; cbn; intuition discriminate.
  - vm_compute. reflexivity.
  - reflexivity.
Defined.

End SweepLinks.

(* ------------------------------------------------------------------ *)
(** ** Aggregations and the reminder delay *)

Module AggregationFacts.
Import Db AnalyticsService.

Section GroupCount.
Context {K : Type} (eqb : K -> K -> bool).
Hypothesis eqb_spec : forall a b, eqb a b = true <-> a = b.

(** The count the rows give for a key, 0 when no row has it. *)
Fixpoint countFor (k : K) (rows : list (K * Z)) : Z :=
  match rows with
  | [] => 0
  | (k', n) :: rest => if eqb k k' then n else countFor k rest
  end.

(** How often a key occurs. *)
Definition occurrences (k : K) (keys : list K) : Z :=
  Z.of_nat (List.length (filter (eqb k) keys)).

Definition total (rows : list (K * Z)) : Z :=
  fold_right (fun row acc => snd row + acc) 0 rows.

Lemma eqb_refl (k : K) : eqb k k = true.
Proof. now apply eqb_spec. Qed.

Lemma eqb_trans_false (a b c : K) : eqb a b = true -> eqb c b = false -> eqb c a = false.
Proof.
  intros Hab Hcb. apply eqb_spec in Hab. subst b. exact Hcb.
Qed.

Lemma countFor_bump (k k' : K) (rows : list (K * Z)) :
  countFor k' (bump eqb k rows) = countFor k' rows + (if eqb k' k then 1 else 0).
Proof.
  induction rows as [|[k0 n] rest IH]; cbn [bump countFor].
  - destruct (eqb k' k); lia.
  - destruct (eqb k k0) eqn:E; cbn [countFor].
    + apply eqb_spec in E. subst k0. destruct (eqb k' k); lia.
    + destruct (eqb k' k0) eqn:E'; [|exact IH].
      destruct (eqb k' k) eqn:E''; [|lia].
      apply eqb_spec in E', E''. subst. rewrite eqb_refl in E. discriminate.
Qed.

Lemma keys_bump (k k' : K) (rows : list (K * Z)) :
  In k' (map fst (bump eqb k rows)) <-> k' = k \/ In k' (map fst rows).
Proof.
  induction rows as [|[k0 n] rest IH]; cbn [bump map fst In].
  - intuition congruence.
  - destruct (eqb k k0) eqn:E; cbn [map fst In].
    + apply eqb_spec in E. subst k0. intuition congruence.
    + rewrite IH. tauto.
Qed.

Lemma NoDup_bump (k : K) (rows : list (K * Z)) :
  NoDup (map fst rows) -> NoDup (map fst (bump eqb k rows)).
Proof.
  induction rows as [|[k0 n] rest IH]; cbn [bump map fst]; intros Hnd.
  - constructor; [intros [] | constructor].
  - inversion Hnd as [|? ? Hnotin Hrest]; subst.
    destruct (eqb k k0) eqn:E; cbn [map fst].
    + constructor; assumption.
    + constructor; [|apply IH; assumption].
      rewrite keys_bump. intros [-> | Hin]; [|contradiction].
      rewrite eqb_refl in E. discriminate.
Qed.

Lemma positive_bump (k : K) (rows : list (K * Z)) :
  Forall (fun row => 0 < snd row) rows -> Forall (fun row => 0 < snd row) (bump eqb k rows).
Proof.
  induction rows as [|[k0 n] rest IH]; cbn [bump]; intros Hpos.
  - constructor; [cbn; lia | constructor].
  - inversion Hpos as [|? ? Hn Hrest]; subst. cbn [snd] in Hn.
    destruct (eqb k k0); constructor; cbn [snd]; auto; lia.
Qed.

Lemma total_bump (k : K) (rows : list (K * Z)) : total (bump eqb k rows) = total rows + 1.
Proof.
  induction rows as [|[k0 n] rest IH]; cbn [bump total fold_right snd]; [lia|].
  destruct (eqb k k0); cbn [total fold_right snd]; [lia|].
  fold (total (bump eqb k rest)). fold (total rest). lia.
Qed.

(** What [$group] with [$sum: 1] computes. *)
Lemma groupCount_spec (keys : list K) :
  let rows := groupCount eqb keys in
  NoDup (map fst rows) /\ Forall (fun row => 0 < snd row) rows /\
  (forall k, countFor k rows = occurrences k keys) /\
  total rows = Z.of_nat (List.length keys).
Proof.
  cbv zeta. unfold groupCount.
  assert (G : forall keys rows seen,
            NoDup (map fst rows) /\ Forall (fun row => 0 < snd row) rows /\
            (forall k, countFor k rows = occurrences k seen) /\
            total rows = Z.of_nat (List.length seen) ->
            let rows' := fold_left (fun rows k => bump eqb k rows) keys rows in
            NoDup (map fst rows') /\ Forall (fun row => 0 < snd row) rows' /\
            (forall k, countFor k rows' = occurrences k (seen ++ keys)) /\
            total rows' = Z.of_nat (List.length (seen ++ keys))).
  { clear keys. induction keys as [|k keys IH]; intros rows seen H; cbn [fold_left].
    - rewrite app_nil_r. exact H.
    - cbv zeta. replace (seen ++ k :: keys) with ((seen ++ [k]) ++ keys)
        by (rewrite <- app_assoc; reflexivity).
      apply IH. destruct H as [Hnd [Hpos [Hcount Htotal]]].
      split; [apply NoDup_bump; assumption|].
      split; [apply positive_bump; assumption|]. split.
      + intros k'. rewrite countFor_bump, Hcount. unfold occurrences.
        rewrite filter_app, length_app. cbn [filter].
        destruct (eqb k' k); cbn [List.length]; lia.
      + rewrite total_bump, Htotal, length_app. cbn [List.length]. lia. }
  apply (G keys [] []). cbn. repeat split; try constructor. 
Qed.

Lemma countFor_in (k : K) (n : Z) (rows : list (K * Z)) :
  NoDup (map fst rows) -> In (k, n) rows -> countFor k rows = n.
Proof.
  induction rows as [|[k0 n0] rest IH]; cbn [map fst countFor]; intros Hnd Hin; [destruct Hin|].
  inversion Hnd as [|? ? Hnotin Hrest]; subst.
  destruct Hin as [[= -> ->] | Hin].
  - now rewrite eqb_refl.
  - destruct (eqb k k0) eqn:E; [|apply IH; assumption].
    apply eqb_spec in E. subst k0. exfalso. apply Hnotin.
    apply in_map_iff. exists (k, n). split; [reflexivity | assumption].
Qed.

Lemma in_countFor (k : K) (rows : list (K * Z)) :
  countFor k rows <> 0 -> In (k, countFor k rows) rows.
Proof.
  induction rows as [|[k0 n0] rest IH]; cbn [countFor]; intros Hne; [congruence|].
  destruct (eqb k k0) eqn:E.
  - apply eqb_spec in E. subst k0. left. reflexivity.
  - right. apply IH. assumption.
Qed.

(** The rows in terms of membership: a key has a row exactly when it occurs,
    and the row carries the number of its occurrences. *)
Lemma groupCount_rows (keys : list K) (k : K) (n : Z) :
  In (k, n) (groupCount eqb keys) <-> n = occurrences k keys /\ 0 < n.
Proof.
  destruct (groupCount_spec keys) as [Hnd [Hpos [Hcount _]]]. split.
  - intros Hin. rewrite <- Hcount. split.
    + symmetry. apply countFor_in; assumption.
    + rewrite Forall_forall in Hpos. apply (Hpos (k, n) Hin).
  - intros [-> Hn]. rewrite <- Hcount in *. apply in_countFor. lia.
Qed.

End GroupCount.

Lemma total_perm {K} (l l' : list (K * Z)) : Permutation l l' -> total l = total l'.
Proof.
  unfold total. induction 1 as [|x l l' _ IH|x y l|l l' l'' _ IH1 _ IH2]; cbn [fold_right].
  - reflexivity.
  - rewrite IH. reflexivity.
  - lia.
  - congruence.
Qed.

Section Sorting.
Context {K : Type}.

Lemma insertByCount_perm (x : K * Z) (l : list (K * Z)) :
  Permutation (insertByCount x l) (x :: l).
Proof.
  induction l as [|y rest IH]; cbn [insertByCount]; [reflexivity|].
  destruct (snd y <=? snd x); [reflexivity|].
  rewrite IH. apply perm_swap.
Qed.

Lemma sortByCountDesc_perm (l : list (K * Z)) : Permutation (sortByCountDesc l) l.
Proof.
  induction l as [|x rest IH]; cbn; [reflexivity|].
  fold (sortByCountDesc rest). rewrite insertByCount_perm. now constructor.
Qed.

Lemma insertByCount_sorted (x : K * Z) (l : list (K * Z)) :
  StronglySorted (fun a b => snd b <= snd a) l ->
  StronglySorted (fun a b => snd b <= snd a) (insertByCount x l).
Proof.
  induction l as [|y rest IH]; cbn [insertByCount]; intros Hs.
  - constructor; constructor.
  - inversion Hs as [|? ? Hrest Hall]; subst.
    destruct (snd y <=? snd x) eqn:E.
    + apply Z.leb_le in E. constructor; [assumption|].
      constructor; [assumption|].
      eapply Forall_impl; [|exact Hall]. cbn. intros; lia.
    + apply Z.leb_gt in E. constructor; [apply IH; assumption|].
      eapply Permutation_Forall; [symmetry; apply insertByCount_perm|].
      constructor; [lia | assumption].
Qed.

Lemma sortByCountDesc_sorted (l : list (K * Z)) :
  StronglySorted (fun a b => snd b <= snd a) (sortByCountDesc l).
Proof.
  induction l as [|x rest IH]; cbn; [constructor|].
  apply insertByCount_sorted. exact IH.
Qed.

End Sorting.

Lemma string_eqb_spec (a b : string) : String.eqb a b = true <-> a = b.
Proof. apply String.eqb_eq. Qed.

Lemma period_eqb_spec (a b : Period) : period_eqb a b = true <-> a = b.
Proof. destruct a, b; cbn; split; congruence. Qed.

(** X15: The hot-spot report ranks the slots by misses.  It has one row per slot
    string that occurs among the user's missed entries of the last 30
    days, the row carries the number of these entries with that slot, the
    rows come in descending order of that number, and together they account
    for every such entry. *)
Theorem behavioral_patterns_rank_the_missed_slots (env : Env) (s : Store) (userId : nat) :
  let rows := getBehavioralPatterns env s userId in
  let slots := map l_scheduledTime (recentMissed env s userId) in
  NoDup (map fst rows) /\
  (forall slot n, In (slot, n) rows <-> n = occurrences String.eqb slot slots /\ 0 < n) /\
  StronglySorted (fun a b => snd b <= snd a) rows /\
  total rows = Z.of_nat (List.length (recentMissed env s userId)).
Proof.
  cbv zeta. unfold getBehavioralPatterns.
  set (slots := map l_scheduledTime (recentMissed env s userId)).
  pose proof (sortByCountDesc_perm (groupCount String.eqb slots)) as Hperm.
  destruct (groupCount_spec String.eqb string_eqb_spec slots) as [Hnd [_ [_ Htotal]]].
  split; [|split; [|split]].
  - apply (Permutation_NoDup (l := map fst (groupCount String.eqb slots))); [|assumption].
    apply Permutation_map. symmetry. exact Hperm.
  - intros slot n. rewrite <- (groupCount_rows String.eqb string_eqb_spec). split.
    + apply Permutation_in. exact Hperm.
    + apply Permutation_in. symmetry. exact Hperm.
  - apply sortByCountDesc_sorted.
  - transitivity (total (groupCount String.eqb slots)).
    + apply total_perm. exact Hperm.
    + rewrite Htotal. unfold slots. now rewrite length_map.
Qed.

Section TemporalRisk.
Variable toInt : string -> option Z.

(** The window of the day an entry's slot falls in, when its hour converts. *)
Definition periodOfEntry (l : Log) : option Period :=
  match hourOf toInt l with Some h => Some (periodOf h) | None => None end.

Definition inPeriod (p : Period) (l : Log) : bool :=
  match periodOfEntry l with Some q => period_eqb p q | None => false end.

Lemma hoursOf_some (ls : list Log) (hours : list Z) :
  hoursOf toInt ls = Some hours ->
  map Some (map periodOf hours) = map periodOfEntry ls.
Proof.
  revert hours. induction ls as [|l rest IH]; cbn [hoursOf]; intros hours H.
  - injection H as <-. reflexivity.
  - unfold periodOfEntry at 1. cbn [map].
    destruct (hourOf toInt l) as [h|]; [|discriminate].
    destruct (hoursOf toInt rest) as [hs|]; [|discriminate].
    injection H as <-. cbn [map]. f_equal. apply IH. reflexivity.
Qed.

Lemma hoursOf_none (ls : list Log) :
  hoursOf toInt ls = None -> exists l, In l ls /\ hourOf toInt l = None.
Proof.
  induction ls as [|l rest IH]; cbn [hoursOf]; intros H; [discriminate|].
  destruct (hourOf toInt l) as [h|] eqn:E; [|exists l; split; [left; reflexivity | assumption]].
  destruct (hoursOf toInt rest) as [hs|]; [discriminate|].
  destruct (IH eq_refl) as [l' [Hin Hl']]. exists l'. split; [right; assumption | assumption].
Qed.

Lemma occurrences_periods (p : Period) (ls : list Log) (periods : list Period) :
  map Some periods = map periodOfEntry ls ->
  occurrences period_eqb p periods = Z.of_nat (List.length (filter (inPeriod p) ls)).
Proof.
  unfold occurrences. intros H. f_equal. revert periods H.
  induction ls as [|l rest IH]; intros [|q periods] H; try discriminate; [reflexivity|].
  cbn [map] in H. injection H as Hq Hrest. cbn [filter]. unfold inPeriod at 1.
  rewrite <- Hq. destruct (period_eqb p q); cbn [List.length]; rewrite (IH _ Hrest); reflexivity.
Qed.

(** X16: The risk report sorts every recent missed entry into one of four
    windows.  When the aggregation succeeds it has one row per window that
    holds an entry (so at most four rows), each row carries the number of the
    user's missed entries of the last 30 days whose slot hour falls in that
    window, and the rows together account for every such entry.  It fails
    exactly when the hour of some such entry does not convert to an integer:
    one malformed slot string in the ledger fails the whole report. *)
Theorem temporal_risk_partitions_the_missed_entries (env : Env) (s : Store) (userId : nat) :
  match getTemporalRiskAnalysis toInt env s userId with
  | Some rows =>
      NoDup (map fst rows) /\
      (forall p n, In (p, n) rows <->
         n = Z.of_nat (List.length (filter (inPeriod p) (recentMissed env s userId))) /\ 0 < n) /\
      total rows = Z.of_nat (List.length (recentMissed env s userId)) /\
      Forall (fun l => hourOf toInt l <> None) (recentMissed env s userId)
  | None => exists l, In l (recentMissed env s userId) /\ hourOf toInt l = None
  end.
Proof.
  unfold getTemporalRiskAnalysis.
  destruct (hoursOf toInt (recentMissed env s userId)) as [hours|] eqn:E;
    [|apply hoursOf_none; assumption].
  pose proof (hoursOf_some _ _ E) as Hmap.
  destruct (groupCount_spec period_eqb period_eqb_spec (map periodOf hours))
    as [Hnd [_ [_ Htotal]]].
  split; [assumption|]. split; [|split].
  - intros p n. rewrite (groupCount_rows period_eqb period_eqb_spec).
    rewrite (occurrences_periods p _ _ Hmap). reflexivity.
  - rewrite Htotal. rewrite <- (length_map Some), Hmap, length_map. reflexivity.
  - apply Forall_forall. intros l Hl Hnone.
    assert (Hin : In (periodOfEntry l) (map periodOfEntry (recentMissed env s userId)))
      by (apply in_map; assumption).
    rewrite <- Hmap in Hin. apply in_map_iff in Hin. destruct Hin as [q [Hq _]].
    unfold periodOfEntry in Hq. rewrite Hnone in Hq. discriminate.
Qed.

End TemporalRisk.

End AggregationFacts.

(* ------------------------------------------------------------------ *)
(** ** The reminder delay *)

Module ReminderFacts.
Import Db Eff MedController.

(** Hour and minute of a slot string, as [parseInt] and [set] accept them. *)
Definition parsedSlot (scheduledTime : string) : option (Z * Z) :=
  let '(hour, minute) := Js.hourMinute scheduledTime in
  Luxon.checkedUnits (Js.parseInt hour) (Js.parseInt minute).

(** The wall-clock time of day, in milliseconds, at instant [t] in a zone. *)
Definition timeOfDay (t : Z) (zone : Z) : Z :=
  Luxon.localMillis (Luxon.setZone t zone) mod Luxon.msPerDay.

(** X14: The reminder of a new medication fires at the next occurrence of its
    slot, for a user in a zone of constant offset.  For a slot string whose
    hour and minute [parseInt] converts exactly, to a time of day, the delay is at
    least 0 and under 24 hours, and after that delay the wall clock in the
    user's zone reads exactly the slot's hour and minute: today when the slot
    is not yet past, tomorrow otherwise. *)
Theorem reminder_delay_reaches_the_next_slot (env : Env) (slot : string) (userTz h m : Z) :
  Js.slotParseExact slot = true ->
  parsedSlot slot = Some (h, m) ->
  0 <= h * Luxon.msPerHour + m * Luxon.msPerMinute < Luxon.msPerDay ->
  exists delay, calculateDelayInMs env slot userTz = Returned delay /\
    0 <= delay < Luxon.msPerDay /\
    timeOfDay (clock env + delay) userTz = h * Luxon.msPerHour + m * Luxon.msPerMinute.
Proof.
  unfold parsedSlot, calculateDelayInMs, timeOfDay. intros _ Hp Hrange.
  destruct (Js.hourMinute slot) as [hour minute]. rewrite Hp.
  set (now := Luxon.setZone (clock env) userTz).
  pose proof (LuxonFacts.startOfDay_le now) as Hlo.
  pose proof (LuxonFacts.endOfDay_ge now) as Hhi.
  assert (Hstart : (Luxon.ts (Luxon.startOfDay now) + userTz * Luxon.msPerMinute)
                   mod Luxon.msPerDay = 0).
  { unfold Luxon.startOfDay, now. cbn [Luxon.ts Luxon.offset Luxon.setZone].
    replace (Luxon.msPerDay * (Luxon.localMillis (Luxon.setZone (clock env) userTz)
                               / Luxon.msPerDay)
             - userTz * Luxon.msPerMinute + userTz * Luxon.msPerMinute)
      with (Luxon.localMillis (Luxon.setZone (clock env) userTz) / Luxon.msPerDay
            * Luxon.msPerDay) by ring.
    apply Z.mod_mul. unfold Luxon.msPerDay. lia. }
  unfold Luxon.endOfDay in Hhi.
  unfold Luxon.setTime, Luxon.plusDays, Luxon.localMillis.
  cbn [Luxon.ts Luxon.offset Luxon.setZone] in *.
  set (start := Luxon.ts (Luxon.startOfDay now)) in *.
  set (tod := h * Luxon.msPerHour + m * Luxon.msPerMinute) in *.
  replace (start + h * Luxon.msPerHour + m * Luxon.msPerMinute) with (start + tod)
    by (unfold tod; ring).
  change (Luxon.ts now) with (clock env) in *.
  assert (Hday : 0 < Luxon.msPerDay) by (unfold Luxon.msPerDay; lia).
  destruct (start + tod <? clock env) eqn:E; cbn [Luxon.ts Luxon.offset].
  - apply Z.ltb_lt in E. exists (start + tod + 1 * Luxon.msPerDay - clock env).
    split; [f_equal; lia|]. split; [lia|].
    replace (clock env + (start + tod + 1 * Luxon.msPerDay - clock env)
             + userTz * Luxon.msPerMinute)
      with (tod + (start + userTz * Luxon.msPerMinute) + 1 * Luxon.msPerDay) by ring.
    rewrite Z.mod_add by lia. rewrite <- Zplus_mod_idemp_r, Hstart, Z.add_0_r.
    apply Z.mod_small. lia.
  - apply Z.ltb_ge in E. exists (start + tod - clock env).
    split; [f_equal; lia|]. split; [lia|].
    replace (clock env + (start + tod - clock env) + userTz * Luxon.msPerMinute)
      with (tod + (start + userTz * Luxon.msPerMinute)) by ring.
    rewrite <- Zplus_mod_idemp_r, Hstart, Z.add_0_r.
    apply Z.mod_small. lia.
Qed.

Definition afternoonInKolkata : Env := mkEnv (20000 * 86400000 + 9 * 3600000) 0 noFaults.

Lemma reminder_delay_reaches_the_next_slot_witness :
  exists delay, calculateDelayInMs afternoonInKolkata "08:00" 330 = Returned delay /\
    0 <= delay < Luxon.msPerDay /\
    timeOfDay (clock afternoonInKolkata + delay) 330
    = 8 * Luxon.msPerHour + 0 * Luxon.msPerMinute.
Proof.
  apply (reminder_delay_reaches_the_next_slot afternoonInKolkata "08:00" 330 8 0).
  - reflexivity.
  - reflexivity.
  - unfold Luxon.msPerHour, Luxon.msPerMinute, Luxon.msPerDay. lia.
Defined.

End ReminderFacts.

(* ------------------------------------------------------------------ *)
(** ** The guardian handshake *)

Module HandshakeFacts.
Import Db Eff GuardianController.

Definition acceptedInvite (i : Invite) : Invite :=
  mkInvite (i_sender i) (i_receiverEmail i) (i_token i) invite_accepted (i_expiresAt i).

Lemma find_split {A} (f : A -> bool) (l : list A) (x : A) :
  find f l = Some x ->
  exists l1 l2, l = l1 ++ x :: l2 /\ f x = true /\ forall y, In y l1 -> f y = false.
Proof.
  induction l as [|y rest IH]; cbn [find]; [discriminate|].
  destruct (f y) eqn:E.
  - intros [= ->]. exists [], rest. repeat split; [assumption | intros ? []].
  - intros H. destruct (IH H) as [l1 [l2 [-> [Hx Hl1]]]].
    exists (y :: l1), l2. repeat split; [assumption|].
    intros z [<- | Hz]; auto.
Qed.

Lemma writeStatus_split (token : string) (status : InviteStatus) (l1 l2 : list Invite)
    (i : Invite) :
  pendingWith token i = true -> (forall y, In y l1 -> pendingWith token y = false) ->
  writeStatus token status (l1 ++ i :: l2)
  = l1 ++ mkInvite (i_sender i) (i_receiverEmail i) (i_token i) status (i_expiresAt i) :: l2.
Proof.
  intros Hi. induction l1 as [|y l1 IH]; intros Hl1; cbn [app writeStatus].
  - now rewrite Hi.
  - rewrite (Hl1 y (or_introl eq_refl)). f_equal. apply IH. intros z Hz. apply Hl1. now right.
Qed.

(** Every store operation of the handshake goes through. *)
Definition allAnswer (setting : Setting) : bool :=
  negb (rejects setting InviteFindOne) && negb (rejects setting ConnectionCreate)
  && negb (rejects setting InviteSave) && negb (rejects setting HandshakeCommit).

(** What [respondToInvite] does, by cases on the request and the world. *)
Lemma respondToInvite_spec (setting : Setting) (req : RespondRequest) (w : World) :
  respondToInvite setting req w =
  match respond_action req, find (pendingWith (respond_token req)) (invites w) with
  | AcceptAction, Some invite =>
      if verifies setting (respond_token req) && allAnswer setting
         && negb (existsb (sameEnds (i_sender invite) (u_id (respond_user req)))
                    (connections (store w)))
      then (mkWorld
              (mkStore (users (store w)) (meds (store w)) (logs (store w)) (events (store w))
                 (connections (store w)
                  ++ [mkConnection (i_sender invite) (u_id (respond_user req)) active]))
              (writeStatus (respond_token req) invite_accepted (invites w)), 200)
      else (w, 400)
  | _, _ => (w, 400)
  end.
Proof.
  unfold respondToInvite, respondAttempt, allAnswer, tryCatch, bind, saveInvite,
    createConnection, awaiting.
  destruct (verifies setting (respond_token req)); cbn [andb ret throw modify settled].
  2:{ destruct (respond_action req), (find (pendingWith (respond_token req)) (invites w));
      reflexivity. }
  destruct (rejects setting InviteFindOne); cbn [andb negb ret throw modify settled inFlight].
  { destruct (respond_action req), (find (pendingWith (respond_token req)) (invites w));
      reflexivity. }
  destruct (find (pendingWith (respond_token req)) (invites w)) as [invite|];
    cbn [throw modify settled].
  2:{ destruct (respond_action req); reflexivity. }
  destruct (respond_action req); cbn [ret throw modify settled]; [|reflexivity].
  destruct (rejects setting ConnectionCreate); cbn [andb negb throw modify settled inFlight];
    [reflexivity|].
  cbn [store].
  destruct (existsb _ (connections (store w)));
    cbn [andb negb ret throw modify settled inFlight]; [now rewrite !andb_false_r|].
  destruct (rejects setting InviteSave); cbn [andb negb ret throw modify settled inFlight];
    [reflexivity|].
  destruct (rejects setting HandshakeCommit);
    cbn [andb negb ret throw modify settled inFlight store invites]; reflexivity.
Qed.

(** A handshake answered 200: the invite it used and what it wrote. *)
Lemma respondToInvite_accepted (setting : Setting) (req : RespondRequest) (w w' : World) :
  respondToInvite setting req w = (w', 200) ->
  exists l1 invite l2,
    invites w = l1 ++ invite :: l2 /\ pendingWith (respond_token req) invite = true /\
    (forall y, In y l1 -> pendingWith (respond_token req) y = false) /\
    invites w' = l1 ++ acceptedInvite invite :: l2 /\
    connections (store w')
    = connections (store w)
      ++ [mkConnection (i_sender invite) (u_id (respond_user req)) active] /\
    users (store w') = users (store w) /\ meds (store w') = meds (store w) /\
    logs (store w') = logs (store w) /\ events (store w') = events (store w).
Proof.
  rewrite respondToInvite_spec.
  destruct (respond_action req); [|discriminate].
  destruct (find (pendingWith (respond_token req)) (invites w)) as [invite|] eqn:Hf;
    [|discriminate].
  match goal with |- context [if ?c then _ else _] => destruct c end; [|discriminate].
  intros [= <-].
  destruct (find_split _ _ _ Hf) as [l1 [l2 [Hl [Hp Hl1]]]].
  exists l1, invite, l2. cbn [store invites connections users meds logs events].
  repeat split; auto.
  rewrite Hl. apply writeStatus_split; assumption.
Qed.

(** X17: When the handshake succeeds and when it does not.  The answer is 200
    exactly when the action is 'accepted', the token verifies, a pending
    invite carries it, the sender and the responder are not yet connected
    (in whatever status) and no store operation rejects; then one active
    connection from the invite's sender to the responder is added, the first
    pending invite with the token becomes accepted and nothing else changes.
    In every other case the answer is 400 and nothing changes.  The
    responder is whoever presents the token: the invite's receiver address
    is not compared with the responder's. *)
Theorem handshake_succeeds_exactly_when (setting : Setting) (req : RespondRequest)
    (w : World) :
  let '(w', code) := respondToInvite setting req w in
  (code = 200 \/ code = 400) /\
  (code = 400 -> w' = w) /\
  (code = 200 <->
   respond_action req = AcceptAction /\ verifies setting (respond_token req) = true /\
   allAnswer setting = true /\
   exists invite, find (pendingWith (respond_token req)) (invites w) = Some invite /\
     existsb (sameEnds (i_sender invite) (u_id (respond_user req))) (connections (store w))
     = false) /\
  (code = 200 ->
   exists l1 invite l2,
     invites w = l1 ++ invite :: l2 /\ pendingWith (respond_token req) invite = true /\
     (forall y, In y l1 -> pendingWith (respond_token req) y = false) /\
     invites w' = l1 ++ acceptedInvite invite :: l2 /\
     connections (store w')
     = connections (store w)
       ++ [mkConnection (i_sender invite) (u_id (respond_user req)) active] /\
     users (store w') = users (store w) /\ meds (store w') = meds (store w) /\
     logs (store w') = logs (store w) /\ events (store w') = events (store w)).
Proof.
  pose proof (respondToInvite_accepted setting req w) as Hacc.
  rewrite respondToInvite_spec in *.
  destruct (respond_action req) eqn:Ha.
  2:{ repeat split; auto; try discriminate. intros [H _]. discriminate. }
  destruct (find (pendingWith (respond_token req)) (invites w)) as [invite|] eqn:Hf.
  2:{ repeat split; auto; try discriminate. intros [_ [_ [_ [i [H _]]]]]. discriminate. }
  destruct (verifies setting (respond_token req)) eqn:Hv; cbn [andb] in *.
  2:{ repeat split; auto; try discriminate. intros [_ [H _]]. discriminate. }
  destruct (allAnswer setting) eqn:Hall; cbn [andb] in *.
  2:{ repeat split; auto; try discriminate. intros [_ [_ [H _]]]. discriminate. }
  destruct (existsb _ (connections (store w))) eqn:Hex; cbn [negb] in *.
  { repeat split; auto; try discriminate.
    intros [_ [_ [_ [i [[= <-] H]]]]]. congruence. }
  split; [left; reflexivity|]. split; [discriminate|]. split.
  - split; [|reflexivity]. intros _. repeat split. exists invite. auto.
  - intros _. apply Hacc. reflexivity.
Qed.

(** X18: Declining does not work.  A response whose action is not 'accepted'
    assigns the status 'rejected', which the enum of the invite schema does
    not have, so saving the invite fails: the answer is 400 whatever the
    token, the invite stays pending and nothing else changes. *)
Theorem declining_an_invite_always_fails (setting : Setting) (user : User) (token : string)
    (w : World) :
  respondToInvite setting (mkRespondRequest user token OtherAction) w = (w, 400).
Proof. rewrite respondToInvite_spec. reflexivity. Qed.

Lemma accepted_is_not_pending (token : string) (i : Invite) :
  pendingWith token (acceptedInvite i) = false.
Proof. unfold pendingWith, acceptedInvite. cbn. apply andb_false_r. Qed.

(** X19: An invite is used once.  With tokens unique among the invites (the
    schema's unique index), once a response to a token was answered 200 every
    further response with that token, by anyone and whatever the action,
    is answered 400 and changes nothing. *)
Theorem accepted_invite_cannot_be_reused (setting setting' : Setting)
    (req req' : RespondRequest) (w w' : World) :
  NoDup (map i_token (invites w)) ->
  respondToInvite setting req w = (w', 200) ->
  respond_token req' = respond_token req ->
  respondToInvite setting' req' w' = (w', 400).
Proof.
  intros Hnd Hrun Htok.
  destruct (respondToInvite_accepted setting req w w' Hrun)
    as [l1 [invite [l2 [Hl [Hp [Hl1 [Hl' _]]]]]]].
  rewrite respondToInvite_spec.
  assert (Hnone : find (pendingWith (respond_token req')) (invites w') = None).
  { destruct (find (pendingWith (respond_token req')) (invites w')) as [i|] eqn:E;
      [|reflexivity].
    exfalso. apply find_some in E. destruct E as [Hin Hpi]. rewrite Htok in Hpi.
    rewrite Hl' in Hin. apply in_app_or in Hin. destruct Hin as [Hin | [<- | Hin]].
    - rewrite (Hl1 i Hin) in Hpi. discriminate.
    - rewrite accepted_is_not_pending in Hpi. discriminate.
    - rewrite Hl, map_app in Hnd. cbn [map] in Hnd. apply NoDup_remove_2 in Hnd.
      apply Hnd. apply in_or_app. right.
      unfold pendingWith in Hp, Hpi.
      apply andb_prop in Hp. destruct Hp as [Hp _]. apply String.eqb_eq in Hp.
      apply andb_prop in Hpi. destruct Hpi as [Hpi _]. apply String.eqb_eq in Hpi.
      rewrite Hp, <- Hpi. apply in_map. exact Hin. }
  rewrite Hnone. destruct (respond_action req'); reflexivity.
Qed.

(** X20: What the handshake gives the guardian.  After a response answered 200,
    the responder may read the medications of the invite's sender:
    [getPatientMeds] answers 200 with the sender's non-deleted medications
    whenever its two reads go through.  And the sweeper alerts the responder:
    when a missed entry is synthesized for a medication of the sender, the
    fan-out holds an alert job to the responder's address, provided the
    responder's user record resolves and has one. *)
Theorem accepted_guardian_reads_and_is_alerted (setting setting' : Setting)
    (req : RespondRequest) (w w' : World) :
  respondToInvite setting req w = (w', 200) ->
  exists invite,
    In invite (invites w) /\ i_token invite = respond_token req /\
    (rejects setting' ConnectionFindOne = false ->
     rejects setting' PatientMedicationFind = false ->
     getPatientMeds setting' (mkPatientRequest (respond_user req) (i_sender invite)) (store w')
     = (200, filter (fun m => Nat.eqb (m_user m) (i_sender invite) && negb (m_isDeleted m))
               (meds (store w)))) /\
    (forall guardian med user slot io,
       populateUser (store w') (u_id (respond_user req)) = Some guardian ->
       Reaper.nonEmpty (u_email guardian) = true ->
       u_id user = i_sender invite ->
       In (Reaper.GuardianAlertJob (u_email guardian)
             (if Reaper.nonEmpty (u_name user) then u_name user else "Your Patient")
             (m_name med) slot)
          (SweepMore.fanOut (store w') io (med, user, slot))).
Proof.
  intros Hrun.
  destruct (respondToInvite_accepted setting req w w' Hrun)
    as [l1 [invite [l2 [Hl [Hp [_ [_ [Hc [_ [Hm _]]]]]]]]]].
  exists invite. split; [rewrite Hl; apply in_or_app; right; left; reflexivity|].
  split.
  { unfold pendingWith in Hp. apply andb_prop in Hp. destruct Hp as [Hp _].
    now apply String.eqb_eq in Hp. }
  set (link := mkConnection (i_sender invite) (u_id (respond_user req)) active).
  assert (Hlink : In link (connections (store w')))
    by (rewrite Hc; apply in_or_app; right; left; reflexivity).
  split.
  - intros Hr1 Hr2. unfold getPatientMeds. rewrite Hr1, Hr2, Hm.
    destruct (find (guards (mkPatientRequest (respond_user req) (i_sender invite)))
                (connections (store w'))) eqn:E; [reflexivity|].
    exfalso. pose proof (find_none _ _ E link Hlink) as Hno.
    unfold guards, link in Hno. cbn in Hno. rewrite !Nat.eqb_refl in Hno. discriminate.
  - intros guardian med user slot io Hg He Hu.
    unfold SweepMore.fanOut. apply in_flat_map. exists (Some guardian). split.
    + unfold Reaper.activeGuardians. rewrite <- Hg. 
      apply (in_map (fun c => populateUser (store w') (c_guardianId c)) _ link).
      apply filter_In. split; [exact Hlink|].
      unfold link. cbn. rewrite Hu, Nat.eqb_refl. reflexivity.
    + unfold SweepMore.alertsOf. rewrite He. left. reflexivity.
Qed.

Definition asha : User := mkUser 1 "Asha" "asha@example.org" None.
Definition gita : User := mkUser 2 "Gita" "gita@example.org" None.

Definition beforeHandshake : World :=
  mkWorld
    (mkStore [asha; gita]
       [mkMedication 10 1 "Atorvastatin" scheduled ["08:00"] 30 10 true false] [] [] [])
    [mkInvite 1 "gita@example.org" "token-1" invite_pending 0].

Definition calm : Setting := mkSetting (fun _ => true) (fun _ => false).

Definition gitaAccepts : RespondRequest := mkRespondRequest gita "token-1" AcceptAction.

Lemma accepted_invite_cannot_be_reused_witness :
  let w' := fst (respondToInvite calm gitaAccepts beforeHandshake) in
  respondToInvite calm gitaAccepts w' = (w', 400).
Proof.
  cbv zeta.
  apply (accepted_invite_cannot_be_reused calm calm gitaAccepts gitaAccepts beforeHandshake).
  - repeat constructor. intros [].
  - vm_compute. reflexivity.
  - reflexivity.
Defined.

Lemma accepted_guardian_reads_and_is_alerted_witness :
  let w' := fst (respondToInvite calm gitaAccepts beforeHandshake) in
  fst (getPatientMeds calm (mkPatientRequest gita 1) (store w')) = 200 /\
  In (Reaper.GuardianAlertJob "gita@example.org" "Asha" "Atorvastatin" "08:00")
     (SweepMore.fanOut (store w') false
        (mkMedication 10 1 "Atorvastatin" scheduled ["08:00"] 30 10 true false, asha, "08:00")).
Proof.
  cbv zeta.
  destruct (accepted_guardian_reads_and_is_alerted calm calm gitaAccepts beforeHandshake _
              (surjective_pairing _)) as [invite [Hin [_ [Hread Halert]]]].
  destruct Hin as [<- | []].
  split.
  - cbn [i_sender] in Hread.
    change (mkPatientRequest gita 1) with (mkPatientRequest (respond_user gitaAccepts) 1).
    rewrite (Hread eq_refl eq_refl). reflexivity.
  - apply (Halert gita
             (mkMedication 10 1 "Atorvastatin" scheduled ["08:00"] 30 10 true false)
             asha "08:00" false); reflexivity.
Defined.

End HandshakeFacts.

(* ------------------------------------------------------------------ *)
(** ** Adding a medication *)

Module IntakeFacts.
Import Db Eff MedController MedIntake.

Lemma freshId_is_fresh (l : list Medication) : ~ In (freshId l) (map m_id l).
Proof.
  assert (Hmax : forall ids x, In x ids -> (x <= fold_right Nat.max 0 ids)%nat).
  { induction ids as [|y ids IH]; intros x Hx; [destruct Hx|].
    destruct Hx as [<- | Hx]; cbn [fold_right].
    - apply Nat.le_max_l.
    - etransitivity; [apply (IH x Hx) | apply Nat.le_max_r]. }
  intros Hin. apply Hmax in Hin. unfold freshId in Hin. lia.
Qed.

Section OneRequest.
Variables (env : Env) (rejects : AddOp -> bool) (req : AddRequest) (medication : Medication).

(** The reminder queued for a slot: it names the caller, the medication and
    the slot, and its delay is the one [calculateDelayInMs] returned. *)
Definition remindsOf (time : string) (r : Reminder) : Prop :=
  r = mkReminder (u_id (add_user req)) (add_name req) time (m_id medication) (r_delay r) /\
  calculateDelayInMs env time (Recorder.timezoneOf (add_user req)) = Returned (r_delay r).

(** Why the loop stops at a slot: the slot string does not parse, or the
    queue rejects the job. *)
Definition stopsAt (time : string) : Prop :=
  (exists e, calculateDelayInMs env time (Recorder.timezoneOf (add_user req)) = Thrown e) \/
  rejects (ReminderAdd time) = true.

Lemma scheduleReminder_cases (time : string) (s : Intake) :
  (exists r, remindsOf time r /\
     scheduleReminder env rejects req medication time s
     = (mkIntake (intake_db s) (intake_queue s ++ [r]), Returned tt)) \/
  (stopsAt time /\
   exists e, scheduleReminder env rejects req medication time s = (s, Thrown e)).
Proof.
  unfold scheduleReminder, remindsOf, stopsAt.
  destruct (calculateDelayInMs env time (Recorder.timezoneOf (add_user req)))
    as [delay|e] eqn:Hd.
  - destruct (rejects (ReminderAdd time)) eqn:Hr.
    + right. split; [right; reflexivity | eexists; reflexivity].
    + left. eexists. split; [|reflexivity]. cbn [r_delay]. split; reflexivity.
  - right. split; [left; exists e; reflexivity | exists e; reflexivity].
Qed.

(** The loop over the slots: it queues the reminders in order and stops at
    the first slot it cannot schedule, leaving the earlier ones queued. *)
Lemma reminders_spec (times : list string) (s : Intake) :
  let '(s', r) := forOf times (scheduleReminder env rejects req medication) s in
  intake_db s' = intake_db s /\
  match r with
  | Returned _ =>
      exists added, intake_queue s' = intake_queue s ++ added /\ Forall2 remindsOf times added
  | Thrown _ =>
      exists done bad rest added,
        times = done ++ bad :: rest /\ intake_queue s' = intake_queue s ++ added /\
        Forall2 remindsOf done added /\ stopsAt bad
  end.
Proof.
  revert s. induction times as [|time times IH]; intros s; cbn [forOf].
  - cbn. split; [reflexivity|]. exists []. rewrite app_nil_r. split; constructor.
  - unfold bind.
    destruct (scheduleReminder_cases time s) as [[r [Hr ->]] | [Hstop [e ->]]].
    + specialize (IH (mkIntake (intake_db s) (intake_queue s ++ [r]))).
      destruct (forOf times _ _) as [s' [u|e]]; cbn [intake_db intake_queue] in IH.
      * destruct IH as [Hdb [added [Hq Hall]]]. split; [exact Hdb|].
        exists (r :: added). split; [rewrite Hq, <- app_assoc; reflexivity|].
        constructor; assumption.
      * destruct IH as [Hdb [done [bad [rest [added [Ht [Hq [Hall Hstop]]]]]]]].
        split; [exact Hdb|]. exists (time :: done), bad, rest, (r :: added).
        split; [rewrite Ht; reflexivity|].
        split; [rewrite Hq, <- app_assoc; reflexivity|].
        split; [constructor; assumption | assumption].
    + split; [reflexivity|]. exists [], time, times, [].
      rewrite app_nil_r. repeat split; auto.
Qed.

End OneRequest.

(** The two ways [addMedication] gets past [Medication.create], and the one
    way it does not. *)
Lemma addMedication_outcome (env : Env) (rejects : AddOp -> bool) (req : AddRequest)
    (s : Intake) :
  let '(s', code) := addMedication env rejects req s in
  let med := created req (freshId (meds (intake_db s))) in
  (code = 400 /\ s' = s /\ (valid req = false \/ rejects MedicationCreate = true)) \/
  (valid req = true /\ rejects MedicationCreate = false /\
   intake_db s' = setMeds (intake_db s) (meds (intake_db s) ++ [med]) /\
   ((code = 201 /\
     exists added, intake_queue s' = intake_queue s ++ added /\
       if medType_eqb (medTypeOf req) scheduled
       then Forall2 (remindsOf env req med) (add_timings req) added
       else added = []) \/
    (code = 400 /\ medTypeOf req = scheduled /\
     exists done bad rest added,
       add_timings req = done ++ bad :: rest /\
       intake_queue s' = intake_queue s ++ added /\
       Forall2 (remindsOf env req med) done added /\ stopsAt env rejects req bad))).
Proof.
  set (med := created req (freshId (meds (intake_db s)))).
  set (s1 := mkIntake (setMeds (intake_db s) (meds (intake_db s) ++ [med])) (intake_queue s)).
  assert (Hattempt :
            addAttempt env rejects req s
            = if negb (valid req) then (s, Thrown (Err "Medication validation failed"))
              else if rejects MedicationCreate then (s, Thrown (Err "store operation failed"))
              else match (if medType_eqb (medTypeOf req) scheduled
                          then forOf (add_timings req) (scheduleReminder env rejects req med)
                          else ret tt) s1 with
                   | (s', Returned _) => (s', Returned 201)
                   | (s', Thrown e) => (s', Thrown e)
                   end).
  { unfold addAttempt, createMedication, bind.
    destruct (negb (valid req)); [reflexivity|].
    destruct (rejects MedicationCreate); reflexivity. }
  unfold addMedication, tryCatch. rewrite Hattempt. clear Hattempt.
  destruct (valid req) eqn:Hv; cbn [negb].
  2:{ cbn. left. auto. }
  destruct (rejects MedicationCreate) eqn:Hc.
  { cbn. left. auto. }
  destruct (medType_eqb (medTypeOf req) scheduled) eqn:Ht.
  - pose proof (reminders_spec env rejects req med (add_timings req) s1) as H.
    destruct (forOf (add_timings req) (scheduleReminder env rejects req med) s1)
      as [s' [u|e]]; cbn [ret fst snd]; cbv zeta; right;
      (split; [reflexivity|]); (split; [reflexivity|]).
    + destruct H as [Hdb Hq]. split; [exact Hdb|]. left. split; [reflexivity | exact Hq].
    + destruct H as [Hdb Hq]. split; [exact Hdb|]. right. split; [reflexivity|].
      split; [|exact Hq]. destruct (medTypeOf req); [reflexivity | discriminate].
  - cbn [ret]. cbv zeta. right. split; [reflexivity|]. split; [reflexivity|].
    split; [reflexivity|]. left. split; [reflexivity|].
    exists []. now rewrite app_nil_r.
Qed.

(** X21: An accepted add.  When [addMedication] answers 201 the request passed
    the validators, the store holds one more medication, with an id no
    other medication has, owned by the caller, live, with the remaining
    quantity equal to the total quantity; nothing else of the store changes;
    and the queue grew by one reminder per slot, in order, each delayed as
    [calculateDelayInMs] says for the caller's zone, when the medication is a
    scheduled one, and by nothing when it is taken as needed. *)
Theorem accepted_add_queues_a_reminder_per_slot (env : Env) (rejects : AddOp -> bool)
    (req : AddRequest) (s s' : Intake) :
  addMedication env rejects req s = (s', 201) ->
  let med := created req (freshId (meds (intake_db s))) in
  valid req = true /\
  meds (intake_db s') = meds (intake_db s) ++ [med] /\
  ~ In (m_id med) (map m_id (meds (intake_db s))) /\
  m_user med = u_id (add_user req) /\ m_isActive med = true /\ m_isDeleted med = false /\
  m_remainingQuantity med = add_totalQuantity req /\
  users (intake_db s') = users (intake_db s) /\ logs (intake_db s') = logs (intake_db s) /\
  events (intake_db s') = events (intake_db s) /\
  connections (intake_db s') = connections (intake_db s) /\
  exists added, intake_queue s' = intake_queue s ++ added /\
    match medTypeOf req with
    | scheduled => Forall2 (remindsOf env req med) (add_timings req) added
    | prn => added = []
    end.
Proof.
  intros Hrun. cbv zeta.
  pose proof (addMedication_outcome env rejects req s) as H. rewrite Hrun in H.
  cbv zeta in H.
  destruct H as [[H _] | [Hv [_ [Hdb [[_ [added [Hq Hadded]]] | [H _]]]]]]; try discriminate.
  split; [exact Hv|]. rewrite Hdb. unfold setMeds. cbn [meds users logs events connections].
  split; [reflexivity|]. split; [apply freshId_is_fresh|].
  repeat (split; [reflexivity|]).
  exists added. split; [exact Hq|].
  destruct (medTypeOf req); exact Hadded.
Qed.

(** X22: A refused add is not undone.  When [addMedication] answers 400, either
    nothing changed (the validators or the insert rejected the medication),
    or the medication, a scheduled one, was stored all the same: the handler
    has no transaction, and the loop over the slots stopped at a slot whose
    string does not parse or whose job the queue rejected, with the reminders
    of the earlier slots queued and none for that slot and the later ones.
    The medication left behind is swept like any other: every slot of it is a
    target of the next sweep pass, when the caller's user record resolves. *)
Theorem refused_add_can_leave_the_medication (env : Env) (rejects : AddOp -> bool)
    (req : AddRequest) (s s' : Intake) :
  addMedication env rejects req s = (s', 400) ->
  let med := created req (freshId (meds (intake_db s))) in
  (s' = s /\ (valid req = false \/ rejects MedicationCreate = true)) \/
  (valid req = true /\ medTypeOf req = scheduled /\
   intake_db s' = setMeds (intake_db s) (meds (intake_db s) ++ [med]) /\
   (exists done bad rest added,
      add_timings req = done ++ bad :: rest /\
      intake_queue s' = intake_queue s ++ added /\
      Forall2 (remindsOf env req med) done added /\ stopsAt env rejects req bad) /\
   (forall user slot,
      populateUser (intake_db s) (u_id (add_user req)) = Some user ->
      In slot (add_timings req) ->
      In (med, user, slot) (ReaperFacts.targets (intake_db s')))).
Proof.
  intros Hrun. cbv zeta.
  pose proof (addMedication_outcome env rejects req s) as H. rewrite Hrun in H.
  cbv zeta in H.
  destruct H as [[_ [-> Hwhy]] | [Hv [_ [Hdb [[H _] | [_ [Ht Hloop]]]]]]];
    try discriminate.
  - left. auto.
  - right. split; [exact Hv|]. split; [exact Ht|]. split; [exact Hdb|].
    split; [exact Hloop|].
    intros user slot Hu Hslot. apply ReaperFacts.targets_spec. rewrite Hdb.
    unfold setMeds. cbn [meds]. split; [apply in_or_app; right; left; reflexivity|].
    split; [unfold Reaper.swept, created; cbn; rewrite Ht; reflexivity|].
    split; [|exact Hslot].
    unfold populateUser in *. cbn [users created m_user]. exact Hu.
Qed.

Definition asha : User := mkUser 1 "Asha" "asha@example.org" None.

Definition emptyCabinet : Intake := mkIntake (mkStore [asha] [] [] [] []) [].

Definition morning : Env := mkEnv (20000 * 86400000 + 7 * 3600000) 0 noFaults.

Definition neverRejects : AddOp -> bool := fun _ => false.

Definition statinTwiceDaily : AddRequest :=
  mkAddRequest asha "Atorvastatin" "10mg" "Twice daily" NoMedType ["08:00"; "20:00"] 30.

Definition statinAtNoon : AddRequest :=
  mkAddRequest asha "Atorvastatin" "10mg" "Twice daily" NoMedType ["08:00"; "noon"] 30.

Lemma accepted_add_queues_a_reminder_per_slot_witness :
  exists added,
    intake_queue (fst (addMedication morning neverRejects statinTwiceDaily emptyCabinet))
    = [] ++ added /\
    Forall2 (remindsOf morning statinTwiceDaily (created statinTwiceDaily 1))
      ["08:00"; "20:00"] added.
Proof.
  destruct (accepted_add_queues_a_reminder_per_slot morning neverRejects statinTwiceDaily
              emptyCabinet _ (surjective_pairing _))
    as [_ [_ [_ [_ [_ [_ [_ [_ [_ [_ [_ H]]]]]]]]]]].
  exact H.
Defined.

Lemma refused_add_can_leave_the_medication_witness :
  let s' := fst (addMedication morning neverRejects statinAtNoon emptyCabinet) in
  snd (addMedication morning neverRejects statinAtNoon emptyCabinet) = 400 /\
  meds (intake_db s') = [created statinAtNoon 1] /\
  In (created statinAtNoon 1, asha, "noon") (ReaperFacts.targets (intake_db s')).
Proof.
  cbv zeta. split; [vm_compute; reflexivity|].
  destruct (refused_add_can_leave_the_medication morning neverRejects statinAtNoon
              emptyCabinet _ (surjective_pairing _))
    as [[_ [Hv | Hr]] | [_ [_ [Hdb [_ Hswept]]]]]; try discriminate.
  split.
  - rewrite Hdb. reflexivity.
  - apply (Hswept asha "noon"); [reflexivity | right; left; reflexivity].
Defined.

End IntakeFacts.
